(** * Soul learning app: a shallow embedding and its verified properties

    The development follows the TypeScript sources of the soul learning
    application:

    - [standalone-demo.ts]: [SimpleWorkingMemory] and [StandaloneSoul];
    - [soul/cognitiveSteps/*.ts]: the step configurations ([decision],
      [internalMonologue], [externalDialog], [mentalQuery], [perceive],
      [reflect]);
    - [soul/initialProcess.ts] and [soul/subprocesses/*.ts]: the mental
      processes ([scholarAwakens], [learningProcess], [teachingProcess],
      [emotionalProcess]);
    - [src/local-soul-runner.ts] and the runner that closes
      [src/direct-demo.ts]: the two [LocalSoulRunner] classes.

    Conventions.  A JavaScript string is a Rocq [string] whose characters
    stand for UTF-16 code units below 256.  A JavaScript number that the
    code uses as a counter is a [Z].  An [async] function is a state
    transformer that either returns or throws; [await] is sequencing.
    Console output and the text of the prompts (the [command] of a step)
    have no part in what is proved and are left out, but for the
    memories that a command selects for its prompt; the pictographs of
    the lines sent to the [log] action are left out as well. *)

From Stdlib Require Import ZArith String Ascii List Bool Lia.
From stdpp Require Import base option list gmap strings pretty.

Set Warnings "-register-all".

Open Scope string_scope.
Open Scope list_scope.
Open Scope Z_scope.

(** ** Shared data model *)

(** [ChatMessageRoleEnum]. *)
Inductive Role := System | User | Assistant.

(** JSON-compatible data, as stored in metadata and in the soul memory. *)
Inductive JSON :=
| JNull
| JBool (b : bool)
| JNum (n : Z)
| JStr (s : string)
| JArr (items : list JSON)
| JObj (fields : list (string * JSON)).

(** One memory entry: [{ role, content, metadata? }]. *)
Record Memory := mkMemory {
  role : Role;
  content : string;
  metadata : option (list (string * JSON))
}.

Definition plain (r : Role) (c : string) : Memory :=
  {| role := r; content := c; metadata := None |}.

#[global] Instance Role_eq_dec : EqDecision Role.
Proof. solve_decision. Defined.

(** ** standalone-demo.ts *)

Module StandaloneDemo.

(** The JavaScript heap as far as the demo uses it: arrays of memories and
    [SimpleWorkingMemory] objects, both held by reference.  An object's
    [memories] field is a reference to an array. *)
Record Heap := mkHeap {
  arrays : gmap nat (list Memory);
  objects : gmap nat nat
}.

Definition empty_heap : Heap := {| arrays := ∅; objects := ∅ |}.

(** An array literal [[m1, ..., mn]]. *)
Definition alloc_array (l : list Memory) (h : Heap) : nat * Heap :=
  let a := fresh (dom (arrays h)) in
  (a, {| arrays := <[a := l]> (arrays h); objects := objects h |}).

(** [new SimpleWorkingMemory(initialMemories)]: the constructor stores the
    reference it is given ([this.memories = initialMemories]); the empty
    array of the field initialiser is dropped at once. *)
Definition new_SimpleWorkingMemory (initialMemories : nat) (h : Heap)
  : nat * Heap :=
  let o := fresh (dom (objects h)) in
  (o, {| arrays := arrays h; objects := <[o := initialMemories]> (objects h) |}).

(** [wm.memories], read through the reference. *)
Definition memories_of (o : nat) (h : Heap) : option (list Memory) :=
  a ← objects h !! o; arrays h !! a.

(** [addMemory(memory) { this.memories.push(memory); return this; }].
    [None] stands for the TypeError of a dangling reference. *)
Definition addMemory (o : nat) (memory : Memory) (h : Heap)
  : option (nat * Heap) :=
  a ← objects h !! o;
  l ← arrays h !! a;
  Some (o, {| arrays := <[a := l ++ [memory]]> (arrays h);
              objects := objects h |}).

(** [StandaloneSoul]: the object holds one [SimpleWorkingMemory]. *)
Record StandaloneSoul := mkSoul {
  memory : nat;
  blueprint : string
}.

Definition new_StandaloneSoul (blueprint : string) (h : Heap)
  : StandaloneSoul * Heap :=
  let '(a, h1) := alloc_array [plain System blueprint] h in
  let '(o, h2) := new_SimpleWorkingMemory a h1 in
  ({| memory := o; blueprint := blueprint |}, h2).

Definition responses : list string :=
  [ "That's a fascinating question! Let me think about that...";
    "I'm curious to explore this topic with you.";
    "From my perspective as Scholar, I find this intriguing.";
    "Let me share my thoughts on this...";
    "That's an excellent point to consider!" ].

(** [processMessage]; [pick] is [Math.floor(Math.random() * responses.length)].
    Both calls of [addMemory] drop the returned reference: the caller relies
    on the update in place. *)
Definition processMessage (soul : StandaloneSoul) (pick : nat)
  (message : string) (h : Heap) : option (string * Heap) :=
  '(_, h1) ← addMemory (memory soul) (plain User message) h;
  let response :=
    nth pick responses "undefined" +:+ " " +:+
    "In the OPEN SOULS framework, I would process this through cognitive steps like internal monologue and external dialog. " +:+
    "My WorkingMemory would transform immutably with each interaction." in
  '(_, h2) ← addMemory (memory soul) (plain Assistant response) h1;
  Some (response, h2).

Definition getMemoryCount (soul : StandaloneSoul) (h : Heap) : option nat :=
  length <$> memories_of (memory soul) h.

End StandaloneDemo.

(** ** JavaScript regular expressions

    The fragment of the backtracking semantics that the sources use:
    character tests, sequence, ordered alternation, greedy and lazy
    repetition, capturing groups and the end-of-input assertion.  The
    matcher is written with a continuation, as the language definition
    is; a repetition never iterates on an empty match. *)

Module RegExp.

Inductive regex :=
| Chr (p : ascii -> bool)
| Eps
| Seq (r1 r2 : regex)
| Alt (r1 r2 : regex)
| Star (greedy : bool) (r : regex)
| Group (i : nat) (r : regex)
| Eoi.

Definition Captures := list (nat * string).

Definition code (a : ascii) : nat := nat_of_ascii a.

(** [\s], [\w] and [.] on code units below 256. *)
Definition is_space (a : ascii) : bool :=
  let n := code a in
  ((9 <=? n) && (n <=? 13) || (n =? 32) || (n =? 160))%nat.

Definition is_word (a : ascii) : bool :=
  let n := code a in
  ((48 <=? n) && (n <=? 57) || (65 <=? n) && (n <=? 90)
   || (97 <=? n) && (n <=? 122) || (n =? 95))%nat.

Definition is_dot (a : ascii) : bool :=
  let n := code a in negb ((n =? 10) || (n =? 13))%nat.

(** Canonicalize of the [i] flag: the upper-case form when it is a single
    code unit and does not move a unit of 128 or more below 128. *)
Definition canonicalize (a : ascii) : nat :=
  let n := code a in
  if ((97 <=? n) && (n <=? 122))%nat then (n - 32)%nat
  else if ((224 <=? n) && (n <=? 254) && negb (n =? 247))%nat then (n - 32)%nat
  else if (n =? 181)%nat then 924%nat
  else if (n =? 255)%nat then 376%nat
  else n.

Definition chr_i (c : ascii) : regex :=
  Chr (fun a => (canonicalize a =? canonicalize c)%nat).

Definition chr (c : ascii) : regex :=
  Chr (fun a => (code a =? code c)%nat).

(** A literal word under the [i] flag. *)
Fixpoint lit_i (s : string) : regex :=
  match s with
  | EmptyString => Eps
  | String c s' => Seq (chr_i c) (lit_i s')
  end.

Definition plus (greedy : bool) (r : regex) : regex := Seq r (Star greedy r).
Definition opt (r : regex) : regex := Alt r Eps.

Fixpoint alts (rs : list regex) : regex :=
  match rs with
  | [] => Chr (fun _ => false)
  | [r] => r
  | r :: rs' => Alt r (alts rs')
  end.

Fixpoint seqs (rs : list regex) : regex :=
  match rs with
  | [] => Eps
  | r :: rs' => Seq r (seqs rs')
  end.

Fixpoint run {X : Type} (r : regex) (s : list ascii) (c : Captures)
  (k : list ascii -> Captures -> option X) {struct r} : option X :=
  match r with
  | Chr p =>
      match s with
      | a :: s' => if p a then k s' c else None
      | [] => None
      end
  | Eps => k s c
  | Seq r1 r2 => run r1 s c (fun s' c' => run r2 s' c' k)
  | Alt r1 r2 =>
      match run r1 s c k with
      | Some x => Some x
      | None => run r2 s c k
      end
  | Star greedy r1 =>
      (fix iterate (n : nat) (s : list ascii) (c : Captures) {struct n}
         : option X :=
         match n with
         | O => k s c
         | S n' =>
             let more :=
               run r1 s c (fun s' c' =>
                 if (length s' <? length s)%nat then iterate n' s' c'
                 else None) in
             if greedy then
               match more with Some x => Some x | None => k s c end
             else
               match k s c with Some x => Some x | None => more end
         end) (length s) s c
  | Group i r1 =>
      run r1 s c (fun s' c' =>
        k s' ((i, string_of_list_ascii (take (length s - length s') s)) :: c'))
  | Eoi =>
      match s with
      | [] => k s c
      | _ => None
      end
  end.

(** One attempt at a given position: the matched text, the captures and
    the rest of the input. *)
Definition match_here (r : regex) (s : list ascii)
  : option (string * Captures * list ascii) :=
  run r s [] (fun s' c =>
    Some (string_of_list_ascii (take (length s - length s') s), c, s')).

(** [RegExp.prototype.exec] without the [g] flag: the first position, from
    the left, at which an attempt succeeds. *)
Fixpoint search (r : regex) (s : list ascii) : option (string * Captures) :=
  match match_here r s with
  | Some (m, c, _) => Some (m, c)
  | None =>
      match s with
      | [] => None
      | _ :: s' => search r s'
      end
  end.

(** [str.match(re)]: the whole match and the captures, or [None] for null. *)
Definition exec (r : regex) (s : string) : option (string * Captures) :=
  search r (list_ascii_of_string s).

(** Capture [i] of a match; [None] stands for undefined. *)
Fixpoint capture (i : nat) (c : Captures) : option string :=
  match c with
  | [] => None
  | (j, v) :: c' => if (i =? j)%nat then Some v else capture i c'
  end.

(** [str.replace(re, "")] for a pattern that starts with [^]: the prefix
    that matches is dropped, and a string with no match is returned as
    it is. *)
Definition strip_prefix (r : regex) (s : string) : string :=
  match match_here r (list_ascii_of_string s) with
  | Some (_, _, rest) => string_of_list_ascii rest
  | None => s
  end.

(** A pattern source with none of [\ ^ $ . | ? * + ( ) [ ] { }] denotes
    itself; only such sources are given a meaning here. *)
Definition is_meta (a : ascii) : bool :=
  existsb (fun m => (code a =? m)%nat)
    [92; 94; 36; 46; 124; 63; 42; 43; 40; 41; 91; 93; 123; 125]%nat.

Definition literal_source (s : string) : bool :=
  forallb (fun a => negb (is_meta a)) (list_ascii_of_string s).

End RegExp.

(** ** JavaScript values as the steps see them *)

Inductive Error :=
| ValidationError
| ProcessorError
| TypeError
| OtherError (message : string).

(** How a promise settles. *)
Inductive Settled (A : Type) :=
| Fulfilled (a : A)
| Rejected (e : Error).

Arguments Fulfilled {A} a.
Arguments Rejected {A} e.

#[global] Instance Error_eq_dec : EqDecision Error.
Proof. solve_decision. Defined.

(** [String(v)], as template literals apply it.  [None] is undefined. *)
Fixpoint to_string (j : JSON) : string :=
  match j with
  | JNull => "null"
  | JBool true => "true"
  | JBool false => "false"
  | JNum n => pretty.pretty n
  | JStr s => s
  | JArr items =>
      (fix join (l : list JSON) : string :=
         match l with
         | [] => ""
         | [x] => match x with JNull => "" | _ => to_string x end
         | x :: l' =>
             (match x with JNull => "" | _ => to_string x end)
               +:+ "," +:+ join l'
         end) items
  | JObj _ => "[object Object]"
  end.

Definition show (v : option JSON) : string :=
  match v with
  | Some j => to_string j
  | None => "undefined"
  end.

Definition show_name (v : option string) : string :=
  match v with
  | Some s => s
  | None => "undefined"
  end.

(** [xs.indexOf(v)] on an array of strings: strict equality, -1 when absent. *)
Fixpoint index_from (i : Z) (xs : list string) (s : string) : Z :=
  match xs with
  | [] => -1
  | x :: xs' => if String.eqb x s then i else index_from (i + 1) xs' s
  end.

Definition indexOf (xs : list string) (v : JSON) : Z :=
  match v with
  | JStr s => index_from 0 xs s
  | _ => -1
  end.

(** [a || b] on strings: the empty string is falsy. *)
Definition or_default (a : option string) (b : string) : string :=
  match a with
  | Some EmptyString | None => b
  | Some s => s
  end.

(** ** The core library, as far as the application relies on it *)

Module Core.

(** Modelled from the spec: [WorkingMemory] of packages/core, which is not
    among the sources.  Section 3 gives it an identity ([soulName]) and an
    ordered list of entries.  [entityName] is the own property that the
    runners attach with [Object.defineProperty]; reading it on an object
    that lacks it yields undefined ([None]). *)
Record WorkingMemory := mkWorkingMemory {
  soulName : string;
  memories : list Memory;
  processor : option string;
  entityName : option string
}.

(** [new WorkingMemory({ soulName, memories, processor })]; [processor] is
    the name of the processor, when one is given. *)
Definition new_WorkingMemory (name : string) (ms : list Memory)
  (proc : option string) : WorkingMemory :=
  {| soulName := name; memories := ms; processor := proc;
     entityName := None |}.

(** Modelled from the spec: [withMemory] of packages/core returns a new
    WorkingMemory with the entries appended and the identity carried
    forward (section 3); the receiver is untouched.  The result is a
    clone, which has none of the properties defined on the receiver after
    its construction (section 9, and the runners' "Re-add entityName
    property after clone"). *)
Definition withMemory (m : WorkingMemory) (entries : list Memory)
  : WorkingMemory :=
  {| soulName := soulName m;
     memories := memories m ++ entries;
     processor := processor m;
     entityName := None |}.

(** What a step hands to [createCognitiveStep]. *)
Record TransformationOptions := mkOptions {
  schema : option (JSON -> bool);
  postProcess :
    option (WorkingMemory -> JSON -> Settled (list Memory * option JSON));
  streams : bool;
  modelClass : option string
}.

(** What the Processor answers to one command. *)
Inductive Reply :=
| Resolved (response : JSON)
| Failed (e : Error).

(** Modelled from the spec: the default rule of section 4.2 step 4. *)
Definition defaultPostProcess (m : WorkingMemory) (response : JSON)
  : Settled (list Memory * option JSON) :=
  Fulfilled ([plain Assistant (to_string response)], Some response).

(** Modelled from the spec: the executor behind [createCognitiveStep]
    (packages/core, not among the sources), section 4.2 steps 2 and 4: a
    failed call fails the step; a response that the schema refuses fails
    it with ValidationError before any post-processing; otherwise the
    entries that post-processing returns are appended to the memory the
    step was given. *)
Definition transform (opts : TransformationOptions) (m : WorkingMemory)
  (reply : Reply) : Settled (WorkingMemory * option JSON) :=
  match reply with
  | Failed e => Rejected e
  | Resolved response =>
      let valid :=
        match schema opts with
        | Some accepts => accepts response
        | None => true
        end in
      if valid then
        match
          match postProcess opts with
          | Some f => f m response
          | None => defaultPostProcess m response
          end
        with
        | Fulfilled (entries, value) => Fulfilled (withMemory m entries, value)
        | Rejected e => Rejected e
        end
      else Rejected ValidationError
  end.

(** zod's [z.enum(choices)]: a string of the list, and nothing else. *)
Definition z_enum (choices : list string) (v : JSON) : bool :=
  match v with
  | JStr s => bool_decide (s ∈ choices)
  | _ => false
  end.

(** Property lookup on an object; a [JObj] holds each name once. *)
Fixpoint field (name : string) (fields : list (string * JSON)) : option JSON :=
  match fields with
  | [] => None
  | (k, v) :: fields' => if String.eqb k name then Some v else field name fields'
  end.

Definition is_string (v : option JSON) : bool :=
  match v with
  | Some (JStr _) => true
  | _ => false
  end.

(** zod's [z.object({ thought: z.string(), response: z.string() })]. *)
Definition z_thought_response (v : JSON) : bool :=
  match v with
  | JObj fields => is_string (field "thought" fields) && is_string (field "response" fields)
  | _ => false
  end.

End Core.

(** ** soul/cognitiveSteps/decision.ts *)

Module Decision.
Import Core.

Record DecisionOptions := mkDecisionOptions {
  question : string;
  choices : list string;
  context : option string;
  customPostProcess :
    option (WorkingMemory -> JSON -> Settled (list Memory * option JSON))
}.

(** The entry that the step builds for a choice; [now] is
    [new Date().toISOString()]. *)
Definition decisionMemory (options : DecisionOptions) (now : string)
  (memory : WorkingMemory) (choice : JSON) : Memory :=
  {| role := Assistant;
     content := show_name (entityName memory) +:+ " decided: " +:+ to_string choice;
     metadata := Some
       [ ("type", JStr "decision");
         ("question", JStr (question options));
         ("choice", choice);
         ("choiceIndex", JNum (indexOf (choices options) choice));
         ("allChoices", JArr (map JStr (choices options)));
         ("timestamp", JStr now) ] |}.

(** [postProcess] of the step. *)
Definition postProcess (options : DecisionOptions) (now : string)
  (memory : WorkingMemory) (choice : JSON)
  : Settled (list Memory * option JSON) :=
  match customPostProcess options with
  | Some custom => custom memory choice
  | None => Fulfilled ([decisionMemory options now memory choice], Some choice)
  end.

(** The options that [decision] hands to [createCognitiveStep]; the
    command (the prompt) goes to the Processor and is left out. *)
Definition decision (options : DecisionOptions) (now : string)
  : TransformationOptions :=
  {| schema := Some (z_enum (choices options));
     Core.postProcess := Some (postProcess options now);
     streams := false;
     modelClass := None |}.

End Decision.

(** ** soul/cognitiveSteps/internalMonologue.ts *)

Module InternalMonologue.
Import Core.

Record InternalMonologueOptions := mkInternalMonologueOptions {
  instructions : string;
  verb : option string;
  modelClassOption : option string;
  customPostProcess :
    option (WorkingMemory -> string -> Settled (list Memory * option JSON))
}.

(** [new RegExp(`^${name}:?\\s*`, "i")], for a name that is a literal
    pattern source ([RegExp.literal_source]). *)
Definition entityPrefix (name : string) : RegExp.regex :=
  RegExp.seqs
    [ RegExp.lit_i name;
      RegExp.opt (RegExp.chr ":"%char);
      RegExp.Star true (RegExp.Chr RegExp.is_space) ].

Definition cleanThought (memory : WorkingMemory) (thought : string) : string :=
  RegExp.strip_prefix (entityPrefix (show_name (entityName memory))) thought.

Definition internalMemory (options : InternalMonologueOptions) (now : string)
  (memory : WorkingMemory) (thought : string) : Memory :=
  let verb := or_default (verb options) "thinks" in
  {| role := Assistant;
     content :=
       show_name (entityName memory) +:+ " " +:+ verb +:+ ": "
         +:+ cleanThought memory thought;
     metadata := Some
       [ ("type", JStr "internal_monologue");
         ("verb", JStr verb);
         ("timestamp", JStr now) ] |}.

(** [postProcess] of the step.  [thought.substring] in the first log line
    is a TypeError for anything but a string. *)
Definition postProcess (options : InternalMonologueOptions) (now : string)
  (memory : WorkingMemory) (response : JSON)
  : Settled (list Memory * option JSON) :=
  match response with
  | JStr thought =>
      match customPostProcess options with
      | Some custom => custom memory (cleanThought memory thought)
      | None =>
          Fulfilled ([internalMemory options now memory thought],
                     Some (JStr (cleanThought memory thought)))
      end
  | _ => Rejected TypeError
  end.

Definition internalMonologue (options : InternalMonologueOptions)
  (now : string) : TransformationOptions :=
  {| schema := None;
     Core.postProcess := Some (postProcess options now);
     streams := false;
     modelClass := modelClassOption options |}.

End InternalMonologue.

(** ** soul/cognitiveSteps/externalDialog.ts *)

Module ExternalDialog.
Import Core.

Record ExternalDialogOptions := mkExternalDialogOptions {
  instructions : string;
  stream : bool;
  model : option string;
  customPostProcess :
    option (WorkingMemory -> string -> Settled (list Memory * option JSON))
}.

(** *** The stream processor *)

(** An [AsyncIterable<string>] that ends: its fragments, and whether it
    ends normally or by throwing. *)
Record Source := mkSource {
  fragments : list string;
  ending : option Error
}.

(** What one [next()] resolves to. *)
Inductive Pull :=
| Chunk (s : string)
| Done
| Broken (e : Error).

Definition pull (src : Source) : Pull * Source :=
  match fragments src with
  | f :: fs => (Chunk f, {| fragments := fs; ending := ending src |})
  | [] =>
      (match ending src with None => Done | Some e => Broken e end, src)
  end.

(** The generator object made by [processStream()]: the stream it reads,
    the counter [chunkCount] of its closure, and whether it has ended. *)
Record ProcessStream := mkProcessStream {
  input : Source;
  chunkCount : Z;
  finished : bool
}.

(** One [next()] on the generator: what it yields, the console lines it
    prints, and the generator afterwards. *)
Definition next (g : ProcessStream) : Pull * list string * ProcessStream :=
  if finished g then (Done, [], g)
  else
    match pull (input g) with
    | (Chunk chunk, src) =>
        let n := chunkCount g + 1 in
        (Chunk chunk,
         if n mod 10 =? 0
         then ["Streamed " +:+ pretty.pretty n +:+ " chunks..."] else [],
         {| input := src; chunkCount := n; finished := false |})
    | (Done, src) =>
        (Done,
         ["Stream complete. Total chunks: " +:+ pretty.pretty (chunkCount g)],
         {| input := src; chunkCount := chunkCount g; finished := true |})
    | (Broken e, src) =>
        (Broken e, [],
         {| input := src; chunkCount := chunkCount g; finished := true |})
    end.

(** [streamProcessor]: undefined unless [options.stream]; each call makes
    a counter and a generator of its own. *)
Definition streamProcessor (options : ExternalDialogOptions)
  (memory : WorkingMemory) (s : Source) : option ProcessStream :=
  if stream options
  then Some {| input := s; chunkCount := 0; finished := false |}
  else None.

(** The consumer of section 4.2 step 3: it pulls until the generator is
    done and keeps the fragments in the order of arrival.  [None] is a run
    that needs more than [fuel] pulls. *)
Fixpoint drain (fuel : nat) (g : ProcessStream) (seen : list string)
  : option (list string * option Error) :=
  match fuel with
  | O => None
  | S fuel' =>
      match next g with
      | (Chunk chunk, _, g') => drain fuel' g' (seen ++ [chunk])
      | (Done, _, _) => Some (seen, None)
      | (Broken e, _, _) => Some (seen, Some e)
      end
  end.

(** The accumulated text: the fragments joined in order. *)
Definition accumulate (chunks : list string) : string :=
  foldr String.append "" chunks.

(** Two generators pulled in turn, as a schedule says ([true]: the first).
    The result lists what each has yielded. *)
Fixpoint pull_both (schedule : list bool) (g1 g2 : ProcessStream)
  (seen1 seen2 : list string) : list string * list string :=
  match schedule with
  | [] => (seen1, seen2)
  | true :: rest =>
      match next g1 with
      | (Chunk chunk, _, g1') => pull_both rest g1' g2 (seen1 ++ [chunk]) seen2
      | (_, _, g1') => pull_both rest g1' g2 seen1 seen2
      end
  | false :: rest =>
      match next g2 with
      | (Chunk chunk, _, g2') => pull_both rest g1 g2' seen1 (seen2 ++ [chunk])
      | (_, _, g2') => pull_both rest g1 g2' seen1 seen2
      end
  end.

(** *** Post-processing *)

Section WithCore.

(** [stripEntityAndVerb] of packages/core is not among the sources; it is
    a parameter.  Its argument is whatever the step passes, undefined
    included, and it may throw. *)
Variable stripEntityAndVerb : option JSON -> Settled string.

(** [typeof v === "object"]. *)
Definition typeof_object (v : JSON) : bool :=
  match v with
  | JNull | JArr _ | JObj _ => true
  | _ => false
  end.

(** [v.name] for a value whose typeof is "object"; reading a property of
    null throws. *)
Definition property (name : string) (v : JSON) : Settled (option JSON) :=
  match v with
  | JNull => Rejected TypeError
  | JObj fields => Fulfilled (field name fields)
  | _ => Fulfilled None
  end.

Definition is_reasoning (options : ExternalDialogOptions) : bool :=
  match model options with
  | Some m => String.eqb m "reasoning"
  | None => false
  end.

(** [postProcess] of the step. *)
Definition postProcess (options : ExternalDialogOptions)
  (memory : WorkingMemory) (response : JSON)
  : Settled (list Memory * option JSON) :=
  if is_reasoning options && typeof_object response then
    match property "thought" response with
    | Rejected e => Rejected e
    | Fulfilled thought =>
        match property "response" response with
        | Rejected e => Rejected e
        | Fulfilled spoken =>
            match stripEntityAndVerb spoken with
            | Rejected e => Rejected e
            | Fulfilled clean =>
                Fulfilled
                  ([ plain Assistant ("[Internal: " +:+ show thought +:+ "]");
                     plain Assistant clean ],
                   spoken)
            end
        end
    end
  else
    match stripEntityAndVerb (Some response) with
    | Rejected e => Rejected e
    | Fulfilled cleanResponse =>
        match customPostProcess options with
        | Some custom => custom memory cleanResponse
        | None =>
            Fulfilled ([plain Assistant cleanResponse],
                       Some (JStr cleanResponse))
        end
    end.

Definition externalDialog (options : ExternalDialogOptions)
  : TransformationOptions :=
  {| schema := if is_reasoning options then Some z_thought_response else None;
     Core.postProcess := Some (postProcess options);
     streams := stream options;
     modelClass := None |}.

End WithCore.

End ExternalDialog.

(** ** Functions that return or throw, over a state

    [M S A] is an [async] function body run to its end on a state [S]:
    it returns, throws, or (for the model of a loop) runs out of fuel.
    What it did to the state before a throw stays done. *)

Inductive Outcome (A : Type) :=
| Returned (a : A)
| Thrown (e : Error)
| OutOfFuel.

Arguments Returned {A} a.
Arguments Thrown {A} e.
Arguments OutOfFuel {A}.

Definition M (S A : Type) : Type := S -> Outcome A * S.

Definition ret {S A : Type} (a : A) : M S A := fun s => (Returned a, s).

Definition bind {S A B : Type} (m : M S A) (k : A -> M S B) : M S B :=
  fun s =>
    match m s with
    | (Returned a, s') => k a s'
    | (Thrown e, s') => (Thrown e, s')
    | (OutOfFuel, s') => (OutOfFuel, s')
    end.

Definition throw {S A : Type} (e : Error) : M S A := fun s => (Thrown e, s).

Definition out_of_fuel {S A : Type} : M S A := fun s => (OutOfFuel, s).

(** [await p] for a promise that has settled. *)
Definition await {S A : Type} (p : Settled A) : M S A :=
  match p with
  | Fulfilled a => ret a
  | Rejected e => throw e
  end.

(** [try { m } catch (error) { h }]. *)
Definition try_catch {S A : Type} (m : M S A) (h : Error -> M S A) : M S A :=
  fun s =>
    match m s with
    | (Thrown e, s') => h e s'
    | r => r
    end.

(** [try { m } finally { f }]: [f] runs on every way out of [m]. *)
Definition try_finally {S A : Type} (m : M S A) (f : M S unit) : M S A :=
  fun s =>
    match m s with
    | (r, s') =>
        match f s' with
        | (Returned _, s'') => (r, s'')
        | (Thrown e, s'') => (Thrown e, s'')
        | (OutOfFuel, s'') => (OutOfFuel, s'')
        end
    end.

Definition gets {S A : Type} (f : S -> A) : M S A := fun s => (Returned (f s), s).

Definition modify {S : Type} (f : S -> S) : M S unit := fun s => (Returned tt, f s).

Notation "'let!' x ':=' m 'in' k" := (bind m (fun x => k))
  (at level 10, x name, m at level 100, k at level 200, only parsing).
Notation "'let!' ' p ':=' m 'in' k" :=
  (bind m (fun x => match x with p => k end))
  (at level 10, p pattern, m at level 100, k at level 200, only parsing).
Notation "'do!' m 'in' k" := (bind m (fun _ => k))
  (at level 10, m at level 100, k at level 200, only parsing).

(** ** The engine's interface to a mental process

    The cognitive steps, [useActions], [useSoulMemory] and
    [useProcessManager] reach a mental process through imports; the
    processes below use them as they find them.  What a step resolves to
    is decided by the world the process runs in: the model fixes nothing
    about it, so whatever holds of a process holds for every behaviour of
    the steps. *)

Module Engine.
Import Core.

(** The values that flow through a process. *)
Inductive Value :=
| VUndefined
| VJson (j : JSON)
| VMemory (m : WorkingMemory)
| VStream (fragments : list string)
| VArray (items : list Value).

Definition of_js (v : option JSON) : Value :=
  match v with
  | Some j => VJson j
  | None => VUndefined
  end.

Definition str (s : string) : Value := VJson (JStr s).

(** A custom [postProcess] of the processes.  Each of them logs one line
    made of a fixed text and the response, and returns
    [[{ role: "assistant", content }, response]] where the content is a
    fixed text followed by the response. *)
Record Closure := mkClosure {
  logPrefix : string;
  contentPrefix : string
}.

(** The body of such a closure: the line it logs, the entry and the
    exposed value it returns. *)
Definition run_closure (c : Closure) (response : string)
  : string * Memory * string :=
  (logPrefix c +:+ response,
   plain Assistant (contentPrefix c +:+ response),
   response).

(** One property of an options object. *)
Inductive Opt :=
| OStr (s : string)
| OTemplate (parts : list Value)
| OBool (b : bool)
| ONum (n : Z)
| OList (items : list string)
| OValue (v : Value)
| OPostProcess (c : Closure).

Definition StepOptions := list (string * Opt).

(** What a process does to the outside, in order. *)
Inductive Event :=
| Step (name : string) (memory : Value) (options : StepOptions)
| Speak (v : Value)
| Log (text : string) (args : list Value)
| Invoke (process : string).

(** The world a process runs in: how each step call settles, given all
    that happened before; the clock; the events so far; the soul memory. *)
Record World := mkWorld {
  steps : list Event -> string -> Value -> StepOptions -> Settled Value;
  clock : nat -> string;
  trace : list Event;
  soulMemory : gmap string JSON
}.

Definition emit (e : Event) (w : World) : World :=
  {| steps := steps w; clock := clock w; trace := trace w ++ [e];
     soulMemory := soulMemory w |}.

(** [await step(memory, options)]. *)
Definition step (name : string) (memory : Value) (options : StepOptions)
  : M World Value :=
  fun w =>
    await (steps w (trace w) name memory options)
      (emit (Step name memory options) w).

Definition internalMonologue := step "internalMonologue".
Definition externalDialog := step "externalDialog".
Definition decision := step "decision".
Definition mentalQuery := step "mentalQuery".
Definition perceive := step "perceive".
Definition brainstorm := step "brainstorm".
Definition reflect := step "reflect".

(** [useActions()]. *)
Definition speak (v : Value) : M World unit := modify (emit (Speak v)).
Definition log (text : string) (args : list Value) : M World unit :=
  modify (emit (Log text args)).

(** Modelled from the spec: [useSoulMemory()] of the engine (not among
    the sources), section 4.4: [get] yields the value or undefined, [set]
    stores it. *)
Definition get (key : string) : M World (option JSON) :=
  gets (fun w => soulMemory w !! key).

Definition set (key : string) (value : JSON) : M World unit :=
  modify (fun w =>
    {| steps := steps w; clock := clock w; trace := trace w;
       soulMemory := <[key := value]> (soulMemory w) |}).

(** [new Date().toISOString()]. *)
Definition now : M World string :=
  gets (fun w => clock w (length (trace w))).

(** Truthiness. *)
Definition truthy (v : option JSON) : bool :=
  match v with
  | None | Some JNull | Some (JBool false) | Some (JNum 0)
  | Some (JStr EmptyString) => false
  | Some _ => true
  end.

(** [(v as number) || 0]. *)
Definition or_zero (v : option JSON) : JSON :=
  match v with
  | Some j => if truthy v then j else JNum 0
  | None => JNum 0
  end.

(** [v + 1] for a [v] that is truthy or 0. *)
Definition plus_one (v : JSON) : JSON :=
  match v with
  | JNum n => JNum (n + 1)
  | JBool b => JNum (if b then 2 else 1)
  | JNull => JNum 1
  | JStr s => JStr (s +:+ "1")
  | _ => JStr (to_string v +:+ "1")
  end.

(** [(v as any[]) || []] followed by [.push(item)]: a truthy value that is
    no array has no [push]. *)
Definition push_onto (v : option JSON) (item : JSON) : Settled JSON :=
  match v with
  | Some (JArr items) => Fulfilled (JArr (items ++ [item]))
  | _ => if truthy v then Rejected TypeError else Fulfilled (JArr [item])
  end.

(** [v === "text"]. *)
Definition strict_eq (v : Value) (text : string) : bool :=
  match v with
  | VJson (JStr s) => String.eqb s text
  | _ => false
  end.

Definition first_chars (s : string) : Value * Value :=
  match s with
  | EmptyString => (VUndefined, VUndefined)
  | String a EmptyString => (str (String a EmptyString), VUndefined)
  | String a (String b _) =>
      (str (String a EmptyString), str (String b EmptyString))
  end.

(** [const [a, b] = v]: arrays and strings are iterable; anything else
    that a step may resolve to is not. *)
Definition destructure (v : Value) : M World (Value * Value) :=
  match v with
  | VArray items => ret (nth 0 items VUndefined, nth 1 items VUndefined)
  | VJson (JArr items) =>
      ret (of_js (items !! 0%nat), of_js (items !! 1%nat))
  | VJson (JStr s) => ret (first_chars s)
  | _ => throw TypeError
  end.

(** The argument of a mental process. *)
Record ProcessArgs (P : Type) := mkArgs {
  workingMemory : Value;
  params : option P
}.

Arguments mkArgs {P} workingMemory params.
Arguments workingMemory {P} _.
Arguments params {P} _.

(** A mental process: the function and its name. *)
Record MentalProcess (P : Type) := mkProcess {
  processName : string;
  body : ProcessArgs P -> M World Value
}.

Arguments mkProcess {P} processName body.
Arguments processName {P} _.
Arguments body {P} _.

(** Modelled from the spec: [invokeMentalProcess] of the engine's process
    manager (not among the sources), section 4.3: the child receives the
    memory and the parameter bag, runs, and what it returns is what the
    call returns.  The call is recorded in the trace. *)
Definition invokeMentalProcess {P : Type} (process : MentalProcess P)
  (args : ProcessArgs P) : M World Value :=
  do! modify (emit (Invoke (processName process))) in
  body process args.

End Engine.

(** ** soul/subprocesses/learningProcess.ts *)

Module Learning.
Import Core Engine.

Record LearningParams := mkLearningParams {
  focusArea : option string;
  depth : option string
}.

Definition depth_of (params : option LearningParams) : option string :=
  p ← params; depth p.

Definition focus_of (params : option LearningParams) : option string :=
  p ← params; focusArea p.

(** [params?.depth === "exhaustive" ? 10 : params?.depth === "comprehensive" ? 5 : 3]. *)
Definition maxQuestions (params : option LearningParams) : Z :=
  match depth_of params with
  | Some d =>
      if String.eqb d "exhaustive" then 10
      else if String.eqb d "comprehensive" then 5
      else 3
  | None => 3
  end.

Definition ask_instructions : string :=
  "Ask your carefully formulated question in a warm, curious manner. Show genuine interest.".

Definition insight : Closure :=
  {| logPrefix := "Learning insight: "; contentPrefix := "" |}.

(** One turn of the learning loop, from Step 2 to Step 6; the result says
    whether the loop was left by [break]. *)
Definition learning_turn (params : option LearningParams)
  (maxQ questionsAsked : Z) (memory : Value) : M World (Value * bool) :=
  let! memory := mentalQuery memory
    [ ("query", OStr
         ("Based on what I know so far, what would be a thoughtful, open-ended question to learn more about "
            +:+ or_default (focus_of params) "this person" +:+ "?"));
      ("verb", OStr "formulates") ] in
  let! answer := externalDialog memory
    [ ("instructions", OStr ask_instructions); ("stream", OBool true) ] in
  let! '(questionMemory, questionStream) := destructure answer in
  do! speak questionStream in
  let memory := questionMemory in
  let! memory := perceive memory
    [ ("stimulus", OStr "[User provides their response]");
      ("type", OStr "textual");
      ("analyzeEmotions", OBool true) ] in
  let! memory := internalMonologue memory
    [ ("instructions", OStr
         "Scholar reflects on what they just learned. What insights did this reveal? How does this connect to what they already know?");
      ("verb", OStr "processes");
      ("postProcess", OPostProcess insight) ] in
  if questionsAsked <? maxQ - 1 then
    let! continueDecision := decision memory
      [ ("question", OStr
           "Have I learned enough about this topic, or should I ask another question?");
        ("choices", OList ["ask_another"; "synthesize_now"]) ] in
    if strict_eq continueDecision "synthesize_now" then
      do! log "Scholar feels they have learned enough" [] in
      ret (memory, true)
    else ret (memory, false)
  else ret (memory, false).

(** [while (questionsAsked < maxQuestions) { ... questionsAsked++ }]. *)
Fixpoint learning_loop (fuel : nat) (params : option LearningParams)
  (maxQ questionsAsked : Z) (memory : Value) : M World (Value * Z) :=
  if questionsAsked <? maxQ then
    match fuel with
    | O => out_of_fuel
    | S fuel' =>
        let! '(memory, broke) := learning_turn params maxQ questionsAsked memory in
        if broke : bool then ret (memory, questionsAsked)
        else learning_loop fuel' params maxQ (questionsAsked + 1) memory
    end
  else ret (memory, questionsAsked).

Definition learning_record (params : option LearningParams)
  (timestamp : string) (questionsAsked : Z) : JSON :=
  JObj
    ((match focus_of params with Some t => [("topic", JStr t)] | None => [] end)
     ++ [("timestamp", JStr timestamp); ("questionsAsked", JNum questionsAsked)]
     ++ (match depth_of params with Some d => [("depth", JStr d)] | None => [] end)).

Definition learningProcess_body (fuel : nat)
  (args : ProcessArgs LearningParams) : M World Value :=
  let params := params args in
  let memory := workingMemory args in
  let questionsAsked := 0 in
  let maxQ := maxQuestions params in
  let! memory := internalMonologue memory
    [ ("instructions", OStr
         ("Scholar considers what they want to learn about "
            +:+ or_default (focus_of params) "the user"
            +:+ ". What specific aspects would be most valuable to understand?"));
      ("verb", OStr "contemplates") ] in
  let! '(memory, questionsAsked) :=
    learning_loop fuel params maxQ questionsAsked memory in
  let! memory := mentalQuery memory
    [ ("query", OStr
         "Synthesize everything learned into key insights and understanding.");
      ("structuredResponse", OBool true);
      ("modelClass", OStr "quality") ] in
  let! stored := get "userLearnings" in
  let! timestamp := now in
  let! currentLearnings :=
    await (push_onto stored (learning_record params timestamp questionsAsked)) in
  do! set "userLearnings" currentLearnings in
  let! answer := externalDialog memory
    [ ("instructions", OStr
         "Thank the user for sharing and provide a thoughtful summary of what you've learned about them. Show how this helps you understand them better.");
      ("stream", OBool true) ] in
  let! '(finalMemory, finalStream) := destructure answer in
  do! speak finalStream in
  do! log "Learning process complete. Questions asked: "
        [VJson (JNum questionsAsked)] in
  ret finalMemory.

Definition learningProcess (fuel : nat) : MentalProcess LearningParams :=
  {| processName := "learningProcess"; body := learningProcess_body fuel |}.

(** The questions that a run has put to the user: the calls of
    [externalDialog] from Step 3 of the loop. *)
Definition is_question (e : Event) : bool :=
  match e with
  | Step name _ (("instructions", OStr i) :: _) =>
      String.eqb name "externalDialog" && String.eqb i ask_instructions
  | _ => false
  end.

Definition questions (tr : list Event) : nat :=
  length (filter (fun e => is_question e = true) tr).

End Learning.

(** ** soul/subprocesses/teachingProcess.ts *)

Module Teaching.
Import Core Engine.

Record TeachingParams := mkTeachingParams {
  adaptiveStyle : bool;
  checkUnderstanding : bool
}.

Definition teachingProcess_body (args : ProcessArgs TeachingParams)
  : M World Value :=
  let params := params args in
  let memory := workingMemory args in
  let! memory := internalMonologue memory
    [ ("instructions", OStr
         "What knowledge would be most valuable to share right now? Consider the conversation context and the user's interests.");
      ("verb", OStr "considers") ] in
  let! teachingIdeas := brainstorm memory
    [ ("topic", OStr "effective ways to explain this concept");
      ("count", ONum 3);
      ("constraints", OList
         [ "Must be engaging"; "Should include examples";
           "Appropriate complexity level" ]);
      ("evaluateFeasibility", OBool true) ] in
  let! approach := decision memory
    [ ("question", OStr "Which teaching approach would be most effective?");
      ("choices", OList
         [ "storytelling"; "step_by_step"; "analogy_based";
           "interactive_questioning" ]);
      ("context", OStr
         "Consider the user's apparent learning style and the topic complexity") ] in
  do! log "Selected teaching approach: " [approach] in
  let! answer := externalDialog memory
    [ ("instructions", OTemplate
         [ str "Begin teaching using the "; approach;
           str " approach. Be clear, engaging, and encouraging. Start with an overview of what you'll cover." ]);
      ("stream", OBool true) ] in
  let! '(teachingMemory, teachingStream) := destructure answer in
  do! speak teachingStream in
  let memory := teachingMemory in
  let! memory := internalMonologue memory
    [ ("instructions", OStr "Plan the key points to cover in logical sequence");
      ("verb", OStr "organizes") ] in
  let! answer := externalDialog memory
    [ ("instructions", OStr
         "Continue teaching with the main content. Use concrete examples and clear explanations. Make it relatable to everyday experiences.");
      ("stream", OBool true);
      ("model", OStr "quality") ] in
  let! '(contentMemory, contentStream) := destructure answer in
  do! speak contentStream in
  let memory := contentMemory in
  let! memory :=
    match params with
    | Some {| checkUnderstanding := true |} =>
        let! answer := externalDialog memory
          [ ("instructions", OStr
               "Ask a thoughtful question to check if the user understood the key concepts. Make it conversational, not like a test.");
            ("stream", OBool true) ] in
        let! '(checkMemory, checkStream) := destructure answer in
        do! speak checkStream in
        let memory := checkMemory in
        internalMonologue memory
          [ ("instructions", OStr
               "Based on the user's response, assess their understanding level and what might need clarification");
            ("verb", OStr "evaluates") ]
    | _ => ret memory
    end in
  let! offerMore := decision memory
    [ ("question", OStr "Should I offer additional resources or perspectives?");
      ("choices", OList
         [ "offer_resources"; "share_perspective"; "encourage_practice";
           "conclude" ]) ] in
  let! memory :=
    if negb (strict_eq offerMore "conclude") then
      let! answer := externalDialog memory
        [ ("instructions", OStr
             (if strict_eq offerMore "offer_resources"
              then "Suggest helpful resources for deeper learning"
              else if strict_eq offerMore "share_perspective"
              then "Share an interesting perspective or application of this knowledge"
              else "Encourage the user to practice or apply what they've learned"));
          ("stream", OBool true) ] in
      let! '(resourceMemory, resourceStream) := destructure answer in
      do! speak resourceStream in
      ret resourceMemory
    else ret memory in
  let! memory := reflect memory
    [ ("topic", OStr "How effective was my teaching approach?");
      ("depth", OStr "moderate");
      ("focusOn", OStr "learning") ] in
  let! answer := externalDialog memory
    [ ("instructions", OStr
         "Provide warm encouragement and invite any questions. Express joy in sharing knowledge.");
      ("stream", OBool true) ] in
  let! '(finalMemory, finalStream) := destructure answer in
  do! speak finalStream in
  do! log "Teaching process complete" [] in
  ret finalMemory.

Definition teachingProcess : MentalProcess TeachingParams :=
  {| processName := "teachingProcess"; body := teachingProcess_body |}.

End Teaching.

(** ** soul/subprocesses/emotionalProcess.ts *)

Module Emotional.
Import Core Engine.

Record EmotionalParams := mkEmotionalParams {
  mode : option string;
  intensity : option string
}.

(** [supportType[params?.mode || "supportive"]]; a mode that is none of
    the three keys finds nothing. *)
Definition supportType (params : option EmotionalParams) : Opt :=
  let key := or_default (p ← params; mode p) "supportive" in
  if String.eqb key "supportive" then
    OStr "Acknowledge their feelings and offer understanding. Be warm and validating."
  else if String.eqb key "celebratory" then
    OStr "Share in their joy! Be enthusiastic and help them savor this positive moment."
  else if String.eqb key "comforting" then
    OStr "Provide gentle comfort and reassurance. Be a calming, safe presence."
  else OValue VUndefined.

Definition intensity_is (params : option EmotionalParams) (s : string) : bool :=
  match p ← params; intensity p with
  | Some i => String.eqb i s
  | None => false
  end.

Definition emotional_record (params : option EmotionalParams)
  (timestamp : string) : JSON :=
  JObj
    ([("timestamp", JStr timestamp)]
     ++ (match p ← params; mode p with Some m => [("mode", JStr m)] | None => [] end)
     ++ (match p ← params; intensity p with
         | Some i => [("intensity", JStr i)] | None => [] end)
     ++ [("successful", JBool true)]).

Definition emotionalProcess_body (args : ProcessArgs EmotionalParams)
  : M World Value :=
  let params := params args in
  let memory := workingMemory args in
  let! memory := internalMonologue memory
    [ ("instructions", OStr
         "Scholar attunes to the emotional atmosphere. What emotional energy is present? How can I best support this person?");
      ("verb", OStr "attunes");
      ("modelClass", OStr "quality") ] in
  let! memory := perceive memory
    [ ("stimulus", OStr
         "The overall emotional tone and any subtle cues in the conversation");
      ("type", OStr "emotional");
      ("analyzeEmotions", OBool true);
      ("detectPatterns", OBool true) ] in
  let! memory := reflect memory
    [ ("topic", OStr "What does this person need emotionally right now?");
      ("depth", OStr "moderate");
      ("focusOn", OStr "emotions") ] in
  let! answer := externalDialog memory
    [ ("instructions", supportType params);
      ("stream", OBool true);
      ("model", OStr "quality") ] in
  let! '(supportMemory, supportStream) := destructure answer in
  do! speak supportStream in
  let memory := supportMemory in
  let! memory := internalMonologue memory
    [ ("instructions", OStr
         "Scholar practices deep listening, being fully present without judgment. What is being said beneath the words?");
      ("verb", OStr "listens deeply") ] in
  let! answer := externalDialog memory
    [ ("instructions", OStr
         "Reflect back what you're hearing, both the content and the emotions. Show that you truly understand. Use 'I hear that...' or 'It sounds like...'");
      ("stream", OBool true) ] in
  let! '(empathyMemory, empathyStream) := destructure answer in
  do! speak empathyStream in
  let memory := empathyMemory in
  let! memory := mentalQuery memory
    [ ("query", OStr
         "What life experiences or wisdom can I draw upon to offer meaningful support here?");
      ("verb", OStr "searches");
      ("structuredResponse", OBool true) ] in
  let! memory :=
    if intensity_is params "intensive" then
      let! answer := externalDialog memory
        [ ("instructions", OStr
             "Share a thoughtful insight, personal reflection, or brief story that might provide comfort or perspective. Be authentic and vulnerable if appropriate.");
          ("stream", OBool true) ] in
      let! '(insightMemory, insightStream) := destructure answer in
      do! speak insightStream in
      ret insightMemory
    else if intensity_is params "moderate" then
      let! answer := externalDialog memory
        [ ("instructions", OStr
             "Offer gentle reframing or practical emotional support. Perhaps suggest a helpful perspective or coping strategy.");
          ("stream", OBool true) ] in
      let! '(practicalMemory, practicalStream) := destructure answer in
      do! speak practicalStream in
      ret practicalMemory
    else ret memory in
  let! answer := externalDialog memory
    [ ("instructions", OStr
         "Gently check in on how they're feeling now. Ask if there's anything else they need to share or if they need different support.");
      ("stream", OBool true) ] in
  let! '(checkInMemory, checkInStream) := destructure answer in
  do! speak checkInStream in
  let memory := checkInMemory in
  let! stored := get "emotionalInteractions" in
  let! timestamp := now in
  let! emotionalHistory :=
    await (push_onto stored (emotional_record params timestamp)) in
  do! set "emotionalInteractions" emotionalHistory in
  let! answer := externalDialog memory
    [ ("instructions", OStr
         "Offer a warm closing that reinforces their value and your ongoing support. Leave them feeling seen, heard, and cared for.");
      ("stream", OBool true) ] in
  let! '(closingMemory, closingStream) := destructure answer in
  do! speak closingStream in
  let! memory := reflect closingMemory
    [ ("topic", OStr "How well did I provide emotional support?");
      ("depth", OStr "surface");
      ("focusOn", OStr "relationships") ] in
  do! log "Emotional support process complete" [] in
  ret memory.

Definition emotionalProcess : MentalProcess EmotionalParams :=
  {| processName := "emotionalProcess"; body := emotionalProcess_body |}.

End Emotional.

(** ** soul/initialProcess.ts *)

Module Initial.
Import Core Engine.

Definition first_thought : Closure :=
  {| logPrefix := "Scholar's first thought: "; contentPrefix := "" |}.

Definition chosen_mode : Closure :=
  {| logPrefix := "Chosen interaction mode: "; contentPrefix := "I'll focus on " |}.

Definition brainstormed : Closure :=
  {| logPrefix := "Brainstormed ideas: "; contentPrefix := "" |}.

(** Steps 1 to 5: everything up to the [switch].  The result is the
    memory and the interaction mode that the [switch] reads. *)
Definition scholar_prelude (initialMemory : WorkingMemory)
  : M World (Value * Value) :=
  do! log "Initial Working Memory State:" [] in
  do! log "  - Memories: "
        [VJson (JNum (Z.of_nat (length (memories initialMemory))))] in
  do! log "  - Current model: "
        [str (or_default (processor initialMemory) "default")] in
  let! workingMemory := internalMonologue (VMemory initialMemory)
    [ ("instructions", OStr
         "Scholar reflects on awakening and their purpose. Be philosophical and curious.");
      ("verb", OStr "contemplates");
      ("postProcess", OPostProcess first_thought) ] in
  let! storedName := get "userName" in
  let! stored := get "conversationCount" in
  let conversationCount := or_zero stored in
  let! workingMemory :=
    if truthy storedName then
      do! log "Found stored user name: " [of_js storedName] in
      do! log "Previous conversations: " [VJson conversationCount] in
      mentalQuery workingMemory
        [ ("query", OTemplate
             [ str "I remember "; of_js storedName;
               str ". What did we discuss last time?" ]);
          ("verb", OStr "recalls") ]
    else ret workingMemory in
  let! answer := externalDialog workingMemory
    [ ("instructions",
       if truthy storedName then
         OTemplate
           [ str "Greet "; of_js storedName;
             str " warmly, acknowledging your previous conversations." ]
       else
         OStr
           "Introduce yourself as Scholar and express curiosity about the person you're meeting.");
      ("stream", OBool true) ] in
  let! '(greetingMemory, greetingStream) := destructure answer in
  do! speak greetingStream in
  let workingMemory := greetingMemory in
  let! interactionMode := decision workingMemory
    [ ("question", OStr "What type of interaction would be most appropriate?");
      ("choices", OList
         [ "learning"; "teaching"; "exploring"; "emotional_support" ]);
      ("postProcess", OPostProcess chosen_mode) ] in
  do! set "conversationCount" (plus_one conversationCount) in
  do! log "Updated conversation count: " [VJson (plus_one conversationCount)] in
  ret (workingMemory, interactionMode).

(** The default case of the [switch]: exploration, run in place. *)
Definition exploration (workingMemory : Value) : M World Value :=
  do! log "Continuing in exploration mode..." [] in
  let! workingMemory := mentalQuery workingMemory
    [ ("query", OStr
         "What fascinating topics could we explore together? Consider the user's potential interests.");
      ("verb", OStr "brainstorms");
      ("modelClass", OStr "quality");
      ("postProcess", OPostProcess brainstormed) ] in
  let! answer := externalDialog workingMemory
    [ ("instructions", OStr
         "Share your curiosity and suggest some fascinating topics to explore together.");
      ("stream", OBool true) ] in
  let! '(finalMemory, finalStream) := destructure answer in
  do! speak finalStream in
  ret finalMemory.

(** Step 6: the [switch] on the interaction mode.  [fuel] bounds the loop
    of the learning process. *)
Definition scholar_branch (fuel : nat) (workingMemory interactionMode : Value)
  : M World Value :=
  if strict_eq interactionMode "learning" then
    do! log "Invoking learning process..." [] in
    invokeMentalProcess (Learning.learningProcess fuel)
      {| workingMemory := workingMemory;
         params := Some
           {| Learning.focusArea := Some "user_interests";
              Learning.depth := Some "comprehensive" |} |}
  else if strict_eq interactionMode "teaching" then
    do! log "Invoking teaching process..." [] in
    invokeMentalProcess Teaching.teachingProcess
      {| workingMemory := workingMemory;
         params := Some
           {| Teaching.adaptiveStyle := true;
              Teaching.checkUnderstanding := true |} |}
  else if strict_eq interactionMode "emotional_support" then
    do! log "Invoking emotional support process..." [] in
    invokeMentalProcess Emotional.emotionalProcess
      {| workingMemory := workingMemory;
         params := Some
           {| Emotional.mode := Some "supportive";
              Emotional.intensity := Some "moderate" |} |}
  else exploration workingMemory.

Definition scholarAwakens (fuel : nat) (initialMemory : WorkingMemory)
  : M World Value :=
  let! '(workingMemory, interactionMode) := scholar_prelude initialMemory in
  scholar_branch fuel workingMemory interactionMode.

(** The subprocess invocations of a run. *)
Definition is_invoke (e : Event) : bool :=
  match e with
  | Invoke _ => true
  | _ => false
  end.

Definition invocations (tr : list Event) : list Event :=
  filter (fun e => is_invoke e = true) tr.

End Initial.

(** ** src/local-soul-runner.ts: [LocalSoulRunner] with a memory file *)

Module LocalRunner.
Import Core.

(** What the memory file holds, as [JSON.parse] reads it: the text of an
    object (its members, whatever their order), the text of another JSON
    value, or something that is no JSON at all. *)
Inductive FileContent :=
| ObjectText (members : gmap string JSON)
| OtherText (j : JSON)
| Unparsable.

(** The disk, as far as the runner touches it: the memory file of the
    soul, when it exists, and whether [writeFileSync] succeeds. *)
Record Disk := mkDisk {
  memoryFile : option FileContent;
  writable : bool
}.

(** One call of a cognitive step. *)
Record Call := mkCall {
  callee : string;
  given : WorkingMemory;
  options : Engine.StepOptions
}.

(** What the runner lives in: the blueprint file, the functions that
    [cognitiveSteps/index.js] exports ([None]: the import fails), how each
    step call settles given the calls before it, and the clock. *)
Record Host := mkHost {
  blueprintFile : option string;
  stepExports : option (list string);
  behaviour : list Call -> Call -> Settled (WorkingMemory * option JSON);
  clock : nat -> string
}.

(** The fields of the class, then the world around it: the disk, the
    "speaks" events emitted so far and the step calls made so far. *)
Record Runner := mkRunner {
  workingMemory : option WorkingMemory;
  soulName : string;
  cognitiveSteps : gset string;
  isProcessing : bool;
  soulMemoryStore : gmap string JSON;
  disk : Disk;
  host : Host;
  spoken : list (option JSON);
  calls : list Call
}.

Definition set_workingMemory (wm : WorkingMemory) (r : Runner) : Runner :=
  {| workingMemory := Some wm; soulName := soulName r;
     cognitiveSteps := cognitiveSteps r; isProcessing := isProcessing r;
     soulMemoryStore := soulMemoryStore r; disk := disk r; host := host r;
     spoken := spoken r; calls := calls r |}.

Definition set_cognitiveSteps (s : gset string) (r : Runner) : Runner :=
  {| workingMemory := workingMemory r; soulName := soulName r;
     cognitiveSteps := s; isProcessing := isProcessing r;
     soulMemoryStore := soulMemoryStore r; disk := disk r; host := host r;
     spoken := spoken r; calls := calls r |}.

Definition set_isProcessing (b : bool) (r : Runner) : Runner :=
  {| workingMemory := workingMemory r; soulName := soulName r;
     cognitiveSteps := cognitiveSteps r; isProcessing := b;
     soulMemoryStore := soulMemoryStore r; disk := disk r; host := host r;
     spoken := spoken r; calls := calls r |}.

Definition set_store (m : gmap string JSON) (r : Runner) : Runner :=
  {| workingMemory := workingMemory r; soulName := soulName r;
     cognitiveSteps := cognitiveSteps r; isProcessing := isProcessing r;
     soulMemoryStore := m; disk := disk r; host := host r;
     spoken := spoken r; calls := calls r |}.

Definition set_disk (d : Disk) (r : Runner) : Runner :=
  {| workingMemory := workingMemory r; soulName := soulName r;
     cognitiveSteps := cognitiveSteps r; isProcessing := isProcessing r;
     soulMemoryStore := soulMemoryStore r; disk := d; host := host r;
     spoken := spoken r; calls := calls r |}.

Definition add_spoken (content : option JSON) (r : Runner) : Runner :=
  {| workingMemory := workingMemory r; soulName := soulName r;
     cognitiveSteps := cognitiveSteps r; isProcessing := isProcessing r;
     soulMemoryStore := soulMemoryStore r; disk := disk r; host := host r;
     spoken := spoken r ++ [content]; calls := calls r |}.

Definition add_call (c : Call) (r : Runner) : Runner :=
  {| workingMemory := workingMemory r; soulName := soulName r;
     cognitiveSteps := cognitiveSteps r; isProcessing := isProcessing r;
     soulMemoryStore := soulMemoryStore r; disk := disk r; host := host r;
     spoken := spoken r; calls := calls r ++ [c] |}.

(** *** The memory file *)

(** [Object.entries(v)] for a parsed value that is no object text.  The
    entries of null do not exist: the call throws. *)
Definition indexed (items : list JSON) : list (string * JSON) :=
  imap (fun i x => (pretty.pretty (Z.of_nat i), x)) items.

Definition entries_of (j : JSON) : Settled (list (string * JSON)) :=
  match j with
  | JNull => Rejected TypeError
  | JArr items => Fulfilled (indexed items)
  | JStr s =>
      Fulfilled
        (indexed (map (fun a => JStr (String a EmptyString))
                      (list_ascii_of_string s)))
  | JObj fields => Fulfilled fields
  | JBool _ | JNum _ => Fulfilled []
  end.

Definition set_all (entries : list (string * JSON)) (m : gmap string JSON)
  : gmap string JSON :=
  foldl (fun acc kv => <[kv.1 := kv.2]> acc) m entries.

(** [loadMemoriesFromFile]: every failure inside is caught and logged. *)
Definition loadMemoriesFromFile : M Runner unit :=
  modify (fun r =>
    match memoryFile (disk r) with
    | Some (ObjectText members) => set_store (members ∪ soulMemoryStore r) r
    | Some (OtherText j) =>
        match entries_of j with
        | Fulfilled entries => set_store (set_all entries (soulMemoryStore r)) r
        | Rejected _ => r
        end
    | Some Unparsable => r
    | None => r
    end).

(** The object that [saveMemoriesToFile] fills with [memories[key] = value]
    from an empty literal: an assignment to ["__proto__"] reaches the
    accessor of [Object.prototype] and makes no property. *)
Definition as_object (m : gmap string JSON) : gmap string JSON :=
  delete "__proto__" m.

(** [saveMemoriesToFile]: a [writeFileSync] that throws is caught and
    logged. *)
Definition saveMemoriesToFile : M Runner unit :=
  modify (fun r =>
    if writable (disk r) then
      set_disk
        {| memoryFile := Some (ObjectText (as_object (soulMemoryStore r)));
           writable := true |} r
    else r).

(** [new LocalSoulRunner(soulName)] on a given disk and host. *)
Definition new_LocalSoulRunner (name : string) (d : Disk) (h : Host) : Runner :=
  let r :=
    {| workingMemory := None; soulName := name; cognitiveSteps := ∅;
       isProcessing := false; soulMemoryStore := ∅; disk := d; host := h;
       spoken := []; calls := [] |} in
  (loadMemoriesFromFile r).2.

(** [getSoulMemoryInterface()]. *)
Definition get (key : string) : M Runner (option JSON) :=
  gets (fun r => soulMemoryStore r !! key).

Definition set (key : string) (value : JSON) : M Runner unit :=
  do! modify (fun r => set_store (<[key := value]> (soulMemoryStore r)) r) in
  saveMemoriesToFile.

(** *** Working memory and entity name *)

(** [this.workingMemory], which is undefined until [initialize] has run. *)
Definition require_memory : M Runner WorkingMemory :=
  fun r =>
    match workingMemory r with
    | Some wm => (Returned wm, r)
    | None => (Thrown TypeError, r)
    end.

(** [Object.defineProperty(wm, "entityName", { get() { return soulName } })]. *)
Definition define_entityName (name : string) (wm : WorkingMemory)
  : WorkingMemory :=
  {| Core.soulName := Core.soulName wm; memories := memories wm;
     processor := processor wm; entityName := Some name |}.

(** [ensureEntityName]: the property is defined when the object has none
    of that name. *)
Definition ensureEntityName : M Runner unit :=
  let! wm := require_memory in
  match entityName wm with
  | Some _ => ret tt
  | None =>
      let! name := gets soulName in
      modify (set_workingMemory (define_entityName name wm))
  end.

Definition loadCognitiveSteps : M Runner unit :=
  modify (fun r =>
    match stepExports (host r) with
    | Some names => set_cognitiveSteps (cognitiveSteps r ∪ list_to_set names) r
    | None => r
    end).

(** [initialize]: a missing blueprint is logged and thrown again. *)
Definition initialize : M Runner unit :=
  let! h := gets host in
  match blueprintFile h with
  | None => throw (OtherError "ENOENT")
  | Some blueprint =>
      let! name := gets soulName in
      do! modify (set_workingMemory
            (define_entityName name
               (new_WorkingMemory name
                  [ plain System blueprint;
                    plain System
                      "You are running locally. Engage naturally with the user." ]
                  None))) in
      loadCognitiveSteps
  end.

(** [await step(this.workingMemory, options)] for a step of the registry. *)
Definition call (name : string) (opts : Engine.StepOptions)
  : M Runner (WorkingMemory * option JSON) :=
  let! wm := require_memory in
  fun r =>
    let c := {| callee := name; given := wm; options := opts |} in
    await (behaviour (host r) (calls r) c) (add_call c r).

Definition has (name : string) : M Runner bool :=
  gets (fun r => bool_decide (name ∈ cognitiveSteps r)).

Definition emit_speaks (content : option JSON) : M Runner unit :=
  modify (add_spoken content).

Definition now : M Runner string :=
  gets (fun r => clock (host r) (length (calls r))).

(** *** Reading the store under the types that the source casts to

    The counter is read as a number and the facts as an array of strings,
    as the casts of the source say; a value of another type stands for
    the default of the [||]. *)

(** [(v as number) || 0]. *)
Definition as_number (v : option JSON) : Z :=
  match v with
  | Some (JNum n) => n
  | _ => 0
  end.

(** [(v as string[]) || []]. *)
Definition as_strings (v : option JSON) : list string :=
  match v with
  | Some (JArr items) =>
      omap (fun j => match j with JStr s => Some s | _ => None end) items
  | _ => []
  end.

(** [(v as any[]) || []]. *)
Definition as_array (v : option JSON) : list JSON :=
  match v with
  | Some (JArr items) => items
  | _ => []
  end.

(** [xs.slice(-3).join(", ")]. *)
Definition last_three (xs : list string) : string :=
  String.concat ", " (drop (length xs - 3) xs).

(** *** The patterns of [runCognitiveProcess] *)

Definition spaces : RegExp.regex := RegExp.plus true (RegExp.Chr RegExp.is_space).
Definition lazy_text (i : nat) : RegExp.regex :=
  RegExp.Group i (RegExp.plus false (RegExp.Chr RegExp.is_dot)).
Definition stop_or_end : RegExp.regex :=
  RegExp.Alt (RegExp.chr "."%char) RegExp.Eoi.
Definition words (ws : list string) : RegExp.regex :=
  RegExp.alts (map RegExp.lit_i ws).

(** [/(?:my name is|i'm|i am|call me)\s+(\w+)/i]. *)
Definition namePattern : RegExp.regex :=
  RegExp.seqs
    [ words ["my name is"; "i'm"; "i am"; "call me"]; spaces;
      RegExp.Group 1 (RegExp.plus true (RegExp.Chr RegExp.is_word)) ].

(** The four [factPatterns]. *)
Definition factPatterns : list RegExp.regex :=
  [ RegExp.seqs
      [ RegExp.lit_i "i "; words ["like"; "love"; "enjoy"; "prefer"]; spaces;
        lazy_text 1; stop_or_end ];
    RegExp.seqs
      [ RegExp.lit_i "my "; words ["favorite"; "favourite"]; spaces;
        lazy_text 1; spaces; words ["is"; "are"]; spaces; lazy_text 2;
        stop_or_end ];
    RegExp.seqs
      [ RegExp.lit_i "i "; words ["work"; "am"; "do"]; spaces;
        words ["as"; "in"; "at"]; spaces; lazy_text 1; stop_or_end ];
    RegExp.seqs
      [ RegExp.lit_i "i "; words ["have"; "own"]; spaces; lazy_text 1;
        stop_or_end ] ].

(** [memories.filter((m) => m.role === "user").pop()?.content]. *)
Definition lastUserMessage (wm : WorkingMemory) : option string :=
  content <$> last (filter (fun m => role m = User) (memories wm)).

Definition nonempty (s : option string) : bool :=
  match s with
  | Some (String _ _) => true
  | _ => false
  end.

(** *** [runCognitiveProcess] *)

(** The name that the last user message gives, learnt when none is known. *)
Definition learn_name (userName : option JSON) (message : option string)
  : M Runner unit :=
  match message with
  | Some text =>
      if negb (Engine.truthy userName) && nonempty message then
        match RegExp.exec namePattern text with
        | Some (_, captures) =>
            match RegExp.capture 1 captures with
            | Some detectedName => set "userName" (JStr detectedName)
            | None => ret tt
            end
        | None => ret tt
        end
      else ret tt
  | None => ret tt
  end.

(** [for (const pattern of factPatterns) { ... }]. *)
Fixpoint learn_facts (patterns : list RegExp.regex) (text : string)
  : M Runner unit :=
  match patterns with
  | [] => ret tt
  | pattern :: rest =>
      do! match RegExp.exec pattern text with
          | Some (fact, _) =>
              let! stored := get "userFacts" in
              let currentFacts := as_strings stored in
              if bool_decide (fact ∈ currentFacts) then ret tt
              else set "userFacts" (JArr (map JStr (currentFacts ++ [fact])))
          | None => ret tt
          end in
      learn_facts rest text
  end.

Definition monologue_instructions (userName : option JSON)
  (userFacts : list string) : string :=
  "Reflect on the user's message and your purpose" +:+
  (if Engine.truthy userName then
     ". Remember, you're talking to " +:+ show userName +:+
     (if (0 <? length userFacts)%nat
      then ". You know: " +:+ last_three userFacts else "")
   else "").

Definition dialog_instructions (userName : option JSON)
  (conversationCount : Z) : string :=
  "Respond thoughtfully to the user, demonstrating your understanding and curiosity" +:+
  (if Engine.truthy userName
   then ". Address them as " +:+ show userName +:+ " when appropriate" else "") +:+
  (if 0 <? conversationCount
   then ". This is conversation #" +:+ pretty.pretty (conversationCount + 1)
          +:+ " with them"
   else "").

Definition fallbackResponse : string :=
  "I apologize, but I'm having trouble formulating a response. Could you please rephrase your message?".

(** Step 1, inside its [try]. *)
Definition reflection_step (userName : option JSON) (userFacts : list string)
  : M Runner unit :=
  let! '(newMemory, thought) := call "internalMonologue"
    [ ("instructions", Engine.OStr (monologue_instructions userName userFacts));
      ("verb", Engine.OStr "contemplates") ] in
  do! modify (set_workingMemory newMemory) in
  do! ensureEntityName in
  let! wm := require_memory in
  let message := lastUserMessage wm in
  do! learn_name userName message in
  match message with
  | Some text => if nonempty message then learn_facts factPatterns text else ret tt
  | None => ret tt
  end.

(** Step 2, inside its [try]. *)
Definition response_step (userName : option JSON) (conversationCount : Z)
  : M Runner unit :=
  let! '(newMemory, response) := call "externalDialog"
    [ ("instructions", Engine.OStr (dialog_instructions userName conversationCount));
      ("stream", Engine.OBool false) ] in
  do! modify (set_workingMemory newMemory) in
  do! ensureEntityName in
  do! emit_speaks response in
  do! set "conversationCount" (JNum (conversationCount + 1)) in
  if Z.rem (conversationCount + 1) 5 =? 0 then
    let! stored := get "conversationSummaries" in
    let! timestamp := now in
    let! wm := require_memory in
    set "conversationSummaries"
      (JArr (as_array stored ++
         [ JObj [ ("conversationNumber", JNum (conversationCount + 1));
                  ("timestamp", JStr timestamp);
                  ("messageCount", JNum (Z.of_nat (length (memories wm)))) ] ]))
  else ret tt.

(** The [catch] of Step 2: the fallback reply is spoken and committed. *)
Definition response_fallback : M Runner unit :=
  do! emit_speaks (Some (JStr fallbackResponse)) in
  let! wm := require_memory in
  do! modify (set_workingMemory
        (withMemory wm [plain Assistant fallbackResponse])) in
  ensureEntityName.

Definition runCognitiveProcess : M Runner unit :=
  let! userName := get "userName" in
  let! storedCount := get "conversationCount" in
  let conversationCount := as_number storedCount in
  let! storedFacts := get "userFacts" in
  let userFacts := as_strings storedFacts in
  do! (let! loaded := has "internalMonologue" in
       if loaded : bool then
         try_catch (reflection_step userName userFacts) (fun _ => ret tt)
       else ret tt) in
  let! loaded := has "externalDialog" in
  if loaded : bool then
    try_catch (response_step userName conversationCount)
      (fun _ => response_fallback)
  else ret tt.

(** [processMessage]: the guard, then the work between [try] and
    [finally]; whatever is thrown inside is caught and logged. *)
Definition processMessage (message : string) : M Runner unit :=
  let! busy := gets isProcessing in
  if busy : bool then ret tt
  else
    do! modify (set_isProcessing true) in
    try_finally
      (try_catch
         (let! wm := require_memory in
          do! modify (set_workingMemory
                (withMemory wm [plain User message])) in
          do! ensureEntityName in
          runCognitiveProcess)
         (fun _ => ret tt))
      (modify (set_isProcessing false)).

End LocalRunner.

(** ** src/direct-demo.ts, second part: [LocalSoulRunner] with phases

    The class has the fields and the methods [processMessage],
    [ensureEntityName] and [loadCognitiveSteps] of the runner above, word
    for word.  It has no memory file: its soul memory is the map
    [soulMemory], kept here in the store field, and the disk is never
    touched. *)

Module DemoRunner.
Import Core.
Import LocalRunner.

(** [new LocalSoulRunner(soulName)]: nothing is read from the disk. *)
Definition new_LocalSoulRunner (name : string) (h : Host) : Runner :=
  {| workingMemory := None; soulName := name; cognitiveSteps := ∅;
     isProcessing := false; soulMemoryStore := ∅;
     disk := {| memoryFile := None; writable := false |}; host := h;
     spoken := []; calls := [] |}.

Definition getSoulMemory (key : string) : M Runner (option JSON) :=
  gets (fun r => soulMemoryStore r !! key).

Definition setSoulMemory (key : string) (value : JSON) : M Runner unit :=
  modify (fun r => set_store (<[key := value]> (soulMemoryStore r)) r).

(** [initialize] differs in the second system entry only. *)
Definition initialize : M Runner unit :=
  let! h := gets host in
  match blueprintFile h with
  | None => throw (OtherError "ENOENT")
  | Some blueprint =>
      let! name := gets soulName in
      do! modify (set_workingMemory
            (define_entityName name
               (new_WorkingMemory name
                  [ plain System blueprint;
                    plain System "Engage naturally with the user." ]
                  None))) in
      loadCognitiveSteps
  end.

(** [if (this.cognitiveSteps.has(name)) { const [newMemory, value] = await
    step(this.workingMemory, options); this.workingMemory = newMemory;
    this.ensureEntityName(); }], the shape of every phase. *)
Definition run_step_if_loaded (name : string) (opts : Engine.StepOptions)
  : M Runner (option (option JSON)) :=
  let! loaded := has name in
  if loaded : bool then
    let! '(newMemory, value) := call name opts in
    do! modify (set_workingMemory newMemory) in
    do! ensureEntityName in
    ret (Some value)
  else ret None.

Definition fallbackResponse : string :=
  "I apologize, but I'm having trouble processing right now. Could you please rephrase your message? I'm here to help and learn with you.".

Definition handleCognitiveError : M Runner unit :=
  do! emit_speaks (Some (JStr fallbackResponse)) in
  let! wm := require_memory in
  do! modify (set_workingMemory
        (withMemory wm [plain Assistant fallbackResponse])) in
  ensureEntityName.

Definition perceptionPhase : M Runner unit :=
  do! (let! loaded := has "perceive" in
       if loaded : bool then
         let! wm := require_memory in
         match last (filter (fun m => role m = User) (memories wm)) with
         | Some lastUserMessage =>
             let! '(newMemory, perception) := call "perceive"
               [ ("stimulus", Engine.OStr (content lastUserMessage));
                 ("type", Engine.OStr "message");
                 ("depth", Engine.OStr "comprehensive") ] in
             do! modify (set_workingMemory newMemory) in
             ensureEntityName
         | None => ret tt
         end
       else ret tt) in
  do! run_step_if_loaded "internalMonologue"
    [ ("instructions", Engine.OStr
         "Reflect deeply on the user's message. Consider their emotional state, intent, and what they might truly need. Be philosophical and empathetic.");
      ("verb", Engine.OStr "contemplates");
      ("modelClass", Engine.OStr "quality") ] in
  ret tt.

Definition memoryPhase : M Runner unit :=
  let! userName := getSoulMemory "userName" in
  let! storedCount := getSoulMemory "conversationCount" in
  let conversationCount := as_number storedCount in
  do! (if Engine.truthy userName || (0 <? conversationCount) then
         do! run_step_if_loaded "mentalQuery"
           [ ("query", Engine.OStr
                ("I remember "
                   +:+ (if Engine.truthy userName then show userName
                        else "this person")
                   +:+ ". What did we discuss before? What are their interests and learning style?"));
             ("verb", Engine.OStr "recalls");
             ("modelClass", Engine.OStr "quality") ] in
         ret tt
       else ret tt) in
  setSoulMemory "conversationCount" (JNum (conversationCount + 1)).

Definition decisionPhase : M Runner (option JSON) :=
  let! chosen := run_step_if_loaded "decision"
    [ ("question", Engine.OStr
         "Based on the user's message and our conversation history, what type of interaction would be most helpful?");
      ("choices", Engine.OList
         [ "learning"; "teaching"; "exploring"; "emotional_support";
           "brainstorming" ]) ] in
  match chosen with
  | Some choice => ret choice
  | None => ret (Some (JStr "exploring"))
  end.

Definition generateResponse (instructions : string) : M Runner unit :=
  let! loaded := has "externalDialog" in
  if loaded : bool then
    try_catch
      (let! '(newMemory, response) := call "externalDialog"
         [ ("instructions", Engine.OStr instructions);
           ("stream", Engine.OBool false);
           ("model", Engine.OStr "quality") ] in
       do! modify (set_workingMemory newMemory) in
       do! ensureEntityName in
       emit_speaks response)
      (fun _ => handleCognitiveError)
  else ret tt.

Definition learningSubprocess : M Runner unit :=
  do! run_step_if_loaded "mentalQuery"
    [ ("query", Engine.OStr
         "What can I learn about this user? What are their interests, communication style, personality traits, and preferences? What questions should I ask to understand them better?");
      ("verb", Engine.OStr "investigates");
      ("modelClass", Engine.OStr "quality") ] in
  generateResponse
    "Focus on learning about the user. Ask thoughtful questions about their interests, background, preferences, and goals. Show genuine curiosity and listen actively to understand them better.".

Definition teachingSubprocess : M Runner unit :=
  do! run_step_if_loaded "mentalQuery"
    [ ("query", Engine.OStr
         "What teaching approach would work best for this user? How can I break down complex concepts clearly?");
      ("verb", Engine.OStr "strategizes");
      ("modelClass", Engine.OStr "quality") ] in
  generateResponse
    "Focus on teaching effectively. Use clear explanations, provide examples, check for understanding, and adapt your teaching style to their needs.".

Definition emotionalSupportSubprocess : M Runner unit :=
  do! run_step_if_loaded "internalMonologue"
    [ ("instructions", Engine.OStr
         "Feel deeply for the user's emotional state. Consider what they truly need right now - validation, comfort, encouragement, or just someone to listen.");
      ("verb", Engine.OStr "empathizes");
      ("modelClass", Engine.OStr "quality") ] in
  generateResponse
    "Provide emotional support. Be empathetic, validating, and encouraging. Listen actively and offer comfort without judgment.".

Definition brainstormingSubprocess : M Runner unit :=
  do! run_step_if_loaded "brainstorm"
    [ ("topic", Engine.OStr
         "creative solutions and innovative ideas for the user's interests");
      ("approach", Engine.OStr "creative");
      ("quantity", Engine.ONum 5) ] in
  generateResponse
    "Engage in creative brainstorming. Think outside the box, suggest innovative ideas, and encourage creative thinking together.".

Definition explorationSubprocess : M Runner unit :=
  do! run_step_if_loaded "mentalQuery"
    [ ("query", Engine.OStr
         "What fascinating topics could we explore together? What might spark interesting conversation?");
      ("verb", Engine.OStr "wonders");
      ("modelClass", Engine.OStr "quality") ] in
  generateResponse
    "Engage in curious exploration. Ask thoughtful questions, share interesting insights, and guide the conversation toward fascinating topics.".

Definition mode_is (interactionMode : option JSON) (s : string) : bool :=
  match interactionMode with
  | Some (JStr m) => String.eqb m s
  | _ => false
  end.

Definition subprocessPhase (interactionMode : option JSON) : M Runner unit :=
  if mode_is interactionMode "learning" then learningSubprocess
  else if mode_is interactionMode "teaching" then teachingSubprocess
  else if mode_is interactionMode "emotional_support" then emotionalSupportSubprocess
  else if mode_is interactionMode "brainstorming" then brainstormingSubprocess
  else explorationSubprocess.

(** [/my name is (\w+)|i'm (\w+)|call me (\w+)/i]. *)
Definition namePattern : RegExp.regex :=
  let word i := RegExp.Group i (RegExp.plus true (RegExp.Chr RegExp.is_word)) in
  RegExp.alts
    [ RegExp.Seq (RegExp.lit_i "my name is ") (word 1%nat);
      RegExp.Seq (RegExp.lit_i "i'm ") (word 2%nat);
      RegExp.Seq (RegExp.lit_i "call me ") (word 3%nat) ].

(** [nameMatch[1] || nameMatch[2] || nameMatch[3]]. *)
Definition first_capture (c : RegExp.Captures) : option string :=
  match RegExp.capture 1 c with
  | Some n => Some n
  | None =>
      match RegExp.capture 2 c with
      | Some n => Some n
      | None => RegExp.capture 3 c
      end
  end.

(** [s.includes(needle)]. *)
Fixpoint includes (needle s : string) : bool :=
  String.prefix needle s ||
  match s with
  | EmptyString => false
  | String _ s' => includes needle s'
  end.

Definition extractAndStoreUserInfo : M Runner unit :=
  let! wm := require_memory in
  let userMessages :=
    String.concat " "
      (map content (filter (fun m => role m = User) (memories wm))) in
  do! match RegExp.exec namePattern userMessages with
      | Some (_, captures) =>
          match first_capture captures with
          | Some name => setSoulMemory "userName" (JStr name)
          | None => ret tt
          end
      | None => ret tt
      end in
  let! stored := getSoulMemory "userInterests" in
  if includes "love" userMessages || includes "interested" userMessages then
    let! interests :=
      await (Engine.push_onto stored (JStr "general_conversation")) in
    setSoulMemory "userInterests" interests
  else ret tt.

Definition reflectionPhase : M Runner unit :=
  do! run_step_if_loaded "reflect"
    [ ("topic", Engine.OStr
         "this conversation and what I've learned about the user");
      ("depth", Engine.OStr "deep");
      ("focus", Engine.OStr "learning") ] in
  extractAndStoreUserInfo.

(** [runCognitiveProcess]: the five phases inside one [try]; the [catch]
    logs and calls [handleCognitiveError]. *)
Definition runCognitiveProcess : M Runner unit :=
  try_catch
    (do! perceptionPhase in
     do! memoryPhase in
     let! interactionMode := decisionPhase in
     do! subprocessPhase interactionMode in
     reflectionPhase)
    (fun _ => handleCognitiveError).

Definition processMessage (message : string) : M Runner unit :=
  let! busy := gets isProcessing in
  if busy : bool then ret tt
  else
    do! modify (set_isProcessing true) in
    try_finally
      (try_catch
         (let! wm := require_memory in
          do! modify (set_workingMemory
                (withMemory wm [plain User message])) in
          do! ensureEntityName in
          runCognitiveProcess)
         (fun _ => ret tt))
      (modify (set_isProcessing false)).

(** The steps a run has called, by name. *)
Definition called (r : Runner) : list string := map callee (calls r).

End DemoRunner.

(** ** src/direct-demo.ts, first part: the demonstrations *)

Module DirectDemo.
Import Core.

(** [demonstrateWorkingMemory]: the initial memory and the one returned. *)
Definition demonstrateWorkingMemory (blueprint : string)
  : WorkingMemory * WorkingMemory :=
  let initialMemory :=
    new_WorkingMemory "Scholar"
      [ plain System blueprint;
        plain System
          "You are participating in a demonstration of your cognitive architecture." ]
      (Some "openai") in
  let withUserMessage :=
    withMemory initialMemory
      [ plain User "Hello Scholar! Can you explain how your memory works?" ] in
  (initialMemory, withUserMessage).

(** [demonstrateCognitiveTransformation]: the response is appended. *)
Definition demonstrateCognitiveTransformation (simulatedResponse : string)
  (workingMemory : WorkingMemory) : WorkingMemory :=
  withMemory workingMemory [plain Assistant simulatedResponse].

End DirectDemo.

(** ** JavaScript arrays and coercions, as the remaining steps use them *)

Module Js.
Import Core.

(** The line feed of the template literals. *)
Definition nl : string := String (ascii_of_nat 10) EmptyString.

(** The values of [ChatMessageRoleEnum], as the sources compare and print
    them. *)
Definition role_name (r : Role) : string :=
  match r with
  | System => "system"
  | User => "user"
  | Assistant => "assistant"
  end.

(** [xs.slice(start)] for an integer [start]: a negative start counts
    from the end, and both ends are clamped. *)
Definition slice {A : Type} (start : Z) (xs : list A) : list A :=
  let len := Z.of_nat (length xs) in
  let k := if start <? 0 then Z.max (len + start) 0 else Z.min start len in
  drop (Z.to_nat k) xs.

(** [xs.join(sep)] on an array of JSON values: null is the empty text,
    anything else its [String(x)]. *)
Definition element_text (j : JSON) : string :=
  match j with
  | JNull => ""
  | _ => to_string j
  end.

Definition join (sep : string) (items : list JSON) : string :=
  String.concat sep (map element_text items).

(** [v.name] for a [v] that is neither null nor undefined: an object
    made by [JSON.parse] has the properties of its text; an array and a
    string have a length. *)
Definition prop (name : string) (v : JSON) : option JSON :=
  match v with
  | JObj fields => field name fields
  | JArr items =>
      if String.eqb name "length"
      then Some (JNum (Z.of_nat (length items))) else None
  | JStr s =>
      if String.eqb name "length"
      then Some (JNum (Z.of_nat (String.length s))) else None
  | _ => None
  end.

(** *** [StringToNumber(s) > 0]

    The text of a number, as the comparison [>] reads a string: blanks
    around it, then "Infinity", a decimal literal with an optional sign,
    or an unsigned literal in base 16, 8 or 2.  A text that is none of
    these is NaN, and no comparison with NaN holds.  A decimal literal
    is positive when it has a digit other than 0 and does not round to
    zero, that is, when it exceeds 2^-1075. *)

Definition is_digit (a : ascii) : bool :=
  let n := RegExp.code a in ((48 <=? n) && (n <=? 57))%nat.

Definition digit_of (a : ascii) : Z :=
  let n := Z.of_nat (RegExp.code a) in
  if (48 <=? n) && (n <=? 57) then n - 48
  else if (97 <=? n) && (n <=? 102) then n - 87
  else if (65 <=? n) && (n <=? 70) then n - 55
  else 99.

Definition is_base (base : Z) (a : ascii) : bool := digit_of a <? base.

Definition value_of (base : Z) (ds : list ascii) : Z :=
  foldl (fun acc d => acc * base + digit_of d) 0 ds.

Fixpoint span (p : ascii -> bool) (s : list ascii)
  : list ascii * list ascii :=
  match s with
  | a :: s' =>
      if p a then let '(taken, rest) := span p s' in (a :: taken, rest)
      else ([], s)
  | [] => ([], [])
  end.

Fixpoint drop_blanks (s : list ascii) : list ascii :=
  match s with
  | a :: s' => if RegExp.is_space a then drop_blanks s' else s
  | [] => []
  end.

Definition trim (s : list ascii) : list ascii :=
  rev (drop_blanks (rev (drop_blanks s))).

(** The exponent part, which must reach the end of the text. *)
Definition exponent (s : list ascii) : option Z :=
  match s with
  | [] => Some 0
  | e :: s' =>
      if ((RegExp.code e =? 101) || (RegExp.code e =? 69))%nat then
        let '(negative, s'') :=
          match s' with
          | sign :: rest =>
              if (RegExp.code sign =? 45)%nat then (true, rest)
              else if (RegExp.code sign =? 43)%nat then (false, rest)
              else (false, s')
          | [] => (false, s')
          end in
        match span is_digit s'' with
        | (d :: ds, []) =>
            let n := value_of 10 (d :: ds) in
            Some (if negative : bool then - n else n)
        | _ => None
        end
      else None
  end.

(** An unsigned decimal literal: is it a number above zero? *)
Definition decimal_positive (s : list ascii) : bool :=
  let '(whole, rest) := span is_digit s in
  let '(fraction, rest') :=
    match rest with
    | dot :: rest' =>
        if (RegExp.code dot =? 46)%nat then span is_digit rest' else ([], rest)
    | [] => ([], rest)
    end in
  match whole ++ fraction with
  | [] => false
  | digits =>
      match exponent rest' with
      | Some e =>
          let mantissa := value_of 10 digits in
          let scale := e - Z.of_nat (length fraction) in
          (0 <? mantissa)
          && ((0 <=? scale) || (10 ^ (- scale) <? mantissa * 2 ^ 1075))
      | None => false
      end
  end.

(** An unsigned literal with the prefix of a base. *)
Definition based_positive (base : Z) (ds : list ascii) : bool :=
  match ds with
  | [] => false
  | _ => forallb (is_base base) ds && (0 <? value_of base ds)
  end.

Definition text_positive (s : string) : bool :=
  let t := trim (list_ascii_of_string s) in
  if bool_decide (t = list_ascii_of_string "Infinity")
     || bool_decide (t = list_ascii_of_string "+Infinity") then true
  else
    match t with
    | zero :: x :: ds =>
        let z := RegExp.code zero in
        let c := RegExp.code x in
        if ((z =? 48) && ((c =? 120) || (c =? 88)))%nat then based_positive 16 ds
        else if ((z =? 48) && ((c =? 111) || (c =? 79)))%nat then based_positive 8 ds
        else if ((z =? 48) && ((c =? 98) || (c =? 66)))%nat then based_positive 2 ds
        else if (z =? 43)%nat then decimal_positive (x :: ds)
        else decimal_positive t
    | _ => decimal_positive t
    end.

(** [v > 0] for a JSON value or undefined: ToNumber, then the comparison. *)
Definition positive (v : option JSON) : bool :=
  match v with
  | Some (JNum n) => 0 <? n
  | Some (JBool b) => b
  | Some (JStr s) => text_positive s
  | Some (JArr items) => text_positive (join "," items)
  | Some JNull | Some (JObj _) | None => false
  end.

End Js.

(** ** soul/cognitiveSteps/mentalQuery.ts *)

Module MentalQuery.
Import Core.

(** [structuredResponse] is read for its truth only; an absent one is
    [false]. *)
Record MentalQueryOptions := mkMentalQueryOptions {
  query : string;
  verb : option string;
  structuredResponse : bool;
  modelClassOption : option string
}.

(** [(memory as any).entityName || memory.soulName]. *)
Definition entityName_or_soulName (memory : WorkingMemory) : string :=
  or_default (entityName memory) (soulName memory).

(** [relevantMemories] of the command: the entries of more than 50
    characters, the last ten of them, numbered from 0 and joined by an
    empty line. *)
Definition relevantMemories (memory : WorkingMemory) : string :=
  String.concat (Js.nl +:+ Js.nl)
    (imap
       (fun i m =>
          "[" +:+ pretty.pretty (Z.of_nat i) +:+ "] "
            +:+ Js.role_name (role m) +:+ ": " +:+ content m)
       (Js.slice (-10)
          (filter (fun m => (50 < String.length (content m))%nat)
                  (memories memory)))).

Definition z_string_array (v : option JSON) : bool :=
  match v with
  | Some (JArr items) => forallb (fun j => is_string (Some j)) items
  | _ => false
  end.

(** The schema of a structured response; [sources] is optional. *)
Definition z_findings (v : JSON) : bool :=
  match v with
  | JObj fields =>
      is_string (field "summary" fields)
      && z_string_array (field "details" fields)
      && match field "confidence" fields with
         | Some c => z_enum ["high"; "medium"; "low"] c
         | None => false
         end
      && match field "sources" fields with
         | Some _ => z_string_array (field "sources" fields)
         | None => true
         end
  | _ => false
  end.

(** [formattedResponse]: [details] must have a [map], which only an
    array has; a truthy [sources] must have a [join]. *)
Definition formattedResponse (fields : list (string * JSON)) : Settled string :=
  match field "details" fields with
  | Some (JArr details) =>
      match
        match field "sources" fields with
        | Some (JArr sources) =>
            Fulfilled (Js.nl +:+ "Sources: " +:+ Js.join ", " sources)
        | sources =>
            if Engine.truthy sources then Rejected TypeError else Fulfilled ""
        end
      with
      | Fulfilled sourcesLine =>
          Fulfilled
            (String.concat Js.nl
               ([ "Summary: " +:+ show (field "summary" fields);
                  Js.nl +:+ "Key Points:" ]
                ++ imap
                     (fun i d =>
                        pretty.pretty (Z.of_nat i + 1) +:+ ". " +:+ to_string d)
                     details
                ++ [ Js.nl +:+ "Confidence: " +:+ show (field "confidence" fields);
                     sourcesLine ]))
      | Rejected e => Rejected e
      end
  | _ => Rejected TypeError
  end.

(** A property whose value is undefined is left out of the metadata. *)
Definition structuredMemory (options : MentalQueryOptions) (now : string)
  (memory : WorkingMemory) (fields : list (string * JSON))
  (formatted : string) : Memory :=
  {| role := Assistant;
     content :=
       entityName_or_soulName memory +:+ " "
         +:+ or_default (verb options) "considers" +:+ ": " +:+ formatted;
     metadata := Some
       ([ ("type", JStr "mental_query");
          ("query", JStr (query options));
          ("structured", JBool true) ]
        ++ match field "confidence" fields with
           | Some c => [("confidence", c)]
           | None => []
           end
        ++ [("timestamp", JStr now)]) |}.

Definition unstructuredMemory (options : MentalQueryOptions) (now : string)
  (memory : WorkingMemory) (response : JSON) : Memory :=
  {| role := Assistant;
     content :=
       entityName_or_soulName memory +:+ " "
         +:+ or_default (verb options) "considers" +:+ ": "
         +:+ to_string response;
     metadata := Some
       [ ("type", JStr "mental_query");
         ("query", JStr (query options));
         ("structured", JBool false);
         ("timestamp", JStr now) ] |}.

(** [postProcess] of the step.  In the structured branch the first log
    line reads a property of the response, which null does not allow,
    and an array has no [details]; in the other branch the log line
    reads [response.length], which null does not allow either. *)
Definition postProcess (options : MentalQueryOptions) (now : string)
  (memory : WorkingMemory) (response : JSON)
  : Settled (list Memory * option JSON) :=
  if structuredResponse options && ExternalDialog.typeof_object response then
    match response with
    | JObj fields =>
        match formattedResponse fields with
        | Fulfilled formatted =>
            Fulfilled
              ([structuredMemory options now memory fields formatted],
               Some response)
        | Rejected e => Rejected e
        end
    | _ => Rejected TypeError
    end
  else
    match response with
    | JNull => Rejected TypeError
    | _ => Fulfilled ([unstructuredMemory options now memory response],
                      Some response)
    end.

Definition mentalQuery (options : MentalQueryOptions) (now : string)
  : TransformationOptions :=
  {| schema := if structuredResponse options then Some z_findings else None;
     Core.postProcess := Some (postProcess options now);
     streams := false;
     modelClass := modelClassOption options |}.

End MentalQuery.

(** ** soul/cognitiveSteps/perceive.ts *)

Module Perceive.
Import Core.

(** The two flags are read for their truth only. *)
Record PerceiveOptions := mkPerceiveOptions {
  stimulus : string;
  type : string;
  analyzeEmotions : bool;
  detectPatterns : bool
}.

(** [m.metadata?.type === "perception"]. *)
Definition is_perception (m : Memory) : bool :=
  match metadata m with
  | Some fields =>
      match field "type" fields with
      | Some (JStr t) => String.eqb t "perception"
      | _ => false
      end
  | None => false
  end.

(** [recentPerceptions] of the command. *)
Definition recentPerceptions (memory : WorkingMemory) : string :=
  String.concat Js.nl
    (map content
       (Js.slice (-3)
          (filter (fun m => is_perception m = true) (memories memory)))).

Definition z_emotion (v : option JSON) : bool :=
  match v with
  | Some (JObj fields) =>
      is_string (field "primary" fields)
      && match field "intensity" fields with
         | Some i => z_enum ["subtle"; "moderate"; "strong"] i
         | None => false
         end
      && match field "valence" fields with
         | Some i => z_enum ["positive"; "negative"; "neutral"; "mixed"] i
         | None => false
         end
  | _ => false
  end.

(** The schema, which the step has when one of the flags is set; a
    property that a flag does not ask for may hold anything. *)
Definition z_perception (options : PerceiveOptions) (v : JSON) : bool :=
  match v with
  | JObj fields =>
      is_string (field "initialImpression" fields)
      && MentalQuery.z_string_array (field "details" fields)
      && (if analyzeEmotions options
          then z_emotion (field "emotionalResponse" fields) else true)
      && (if detectPatterns options
          then MentalQuery.z_string_array (field "patterns" fields) else true)
      && MentalQuery.z_string_array (field "associations" fields)
  | _ => false
  end.

(** [xs.length > 0 ? `${prefix}${xs.join(", ")}` : ""] for an [xs] that
    is neither null nor undefined: only an array has a [join]. *)
Definition listed (prefix : string) (xs : JSON) : Settled string :=
  if Js.positive (Js.prop "length" xs) then
    match xs with
    | JArr items => Fulfilled (prefix +:+ Js.join ", " items)
    | _ => Rejected TypeError
    end
  else Fulfilled "".

(** The same behind [xs.length], which null and undefined do not have. *)
Definition listed_strict (prefix : string) (xs : option JSON)
  : Settled string :=
  match xs with
  | None | Some JNull => Rejected TypeError
  | Some v => listed prefix v
  end.

(** The same behind [xs?.length]. *)
Definition listed_if_any (prefix : string) (xs : option JSON)
  : Settled string :=
  match xs with
  | None | Some JNull => Fulfilled ""
  | Some v => listed prefix v
  end.

(** The line about the emotional response, when there is a truthy one. *)
Definition feeling (emotionalResponse : option JSON) : string :=
  match emotionalResponse with
  | Some e =>
      if Engine.truthy emotionalResponse then
        Js.nl +:+ "This makes me feel " +:+ show (Js.prop "primary" e)
          +:+ " (" +:+ show (Js.prop "intensity" e) +:+ ", "
          +:+ show (Js.prop "valence" e) +:+ ")"
      else ""
  | None => ""
  end.

(** [perceptionContent] for a response that is an object of properties:
    the five parts, the falsy ones dropped, joined by nothing. *)
Definition perceptionContent (fields : list (string * JSON)) : Settled string :=
  match listed_strict (Js.nl +:+ "I notice: ") (field "details" fields) with
  | Rejected e => Rejected e
  | Fulfilled noticed =>
      match listed_if_any (Js.nl +:+ "Patterns: ") (field "patterns" fields) with
      | Rejected e => Rejected e
      | Fulfilled patterns =>
          match
            listed_strict (Js.nl +:+ "This reminds me of: ")
              (field "associations" fields)
          with
          | Rejected e => Rejected e
          | Fulfilled reminded =>
              Fulfilled
                (String.concat ""
                   (map show
                      (filter (fun v => Engine.truthy v = true)
                         [ field "initialImpression" fields;
                           Some (JStr noticed);
                           Some (JStr (feeling (field "emotionalResponse" fields)));
                           Some (JStr patterns);
                           Some (JStr reminded) ])))
          end
      end
  end.

Definition perceptionMemory (options : PerceiveOptions) (now : string)
  (memory : WorkingMemory) (perceptionContent : string) : Memory :=
  {| role := Assistant;
     content :=
       MentalQuery.entityName_or_soulName memory +:+ " perceives: "
         +:+ perceptionContent;
     metadata := Some
       [ ("type", JStr "perception");
         ("stimulusType", JStr (type options));
         ("timestamp", JStr now);
         ("analyzedEmotions", JBool (analyzeEmotions options));
         ("detectedPatterns", JBool (detectPatterns options)) ] |}.

(** [postProcess] of the step.  Null and an array are objects to
    [typeof]: the one has no properties at all, the other no [details]. *)
Definition postProcess (options : PerceiveOptions) (now : string)
  (memory : WorkingMemory) (response : JSON)
  : Settled (list Memory * option JSON) :=
  if ExternalDialog.typeof_object response then
    match response with
    | JObj fields =>
        match perceptionContent fields with
        | Fulfilled text =>
            Fulfilled ([perceptionMemory options now memory text],
                       Some response)
        | Rejected e => Rejected e
        end
    | _ => Rejected TypeError
    end
  else
    Fulfilled ([perceptionMemory options now memory (to_string response)],
               Some response).

Definition perceive (options : PerceiveOptions) (now : string)
  : TransformationOptions :=
  {| schema :=
       if analyzeEmotions options || detectPatterns options
       then Some (z_perception options) else None;
     Core.postProcess := Some (postProcess options now);
     streams := false;
     modelClass := None |}.

End Perceive.

(** ** soul/cognitiveSteps/reflect.ts *)

Module Reflect.
Import Core.

Record ReflectOptions := mkReflectOptions {
  topic : string;
  depth : string;
  timeframe : option string;
  focusOn : option string
}.

(** [timeframe === "recent" ? -10 : timeframe === "session" ? -30 : 0]. *)
Definition window (options : ReflectOptions) : Z :=
  match timeframe options with
  | Some t =>
      if String.eqb t "recent" then -10
      else if String.eqb t "session" then -30
      else 0
  | None => 0
  end.

Definition relevantMemories (options : ReflectOptions)
  (memory : WorkingMemory) : list Memory :=
  Js.slice (window options) (memories memory).

(** [m.metadata?.type] and [m.metadata.choice]. *)
Definition metadata_of (name : string) (m : Memory) : option JSON :=
  fields ← metadata m; field name fields.

Definition type_is (m : Memory) (t : string) : bool :=
  match metadata_of "type" m with
  | Some (JStr s) => String.eqb s t
  | _ => false
  end.

(** [keyEvents] of the command: the entries that have a type or are the
    user's, each under its heading, the last fifteen of them. *)
Definition keyEvents (options : ReflectOptions) (memory : WorkingMemory)
  : string :=
  String.concat Js.nl
    (Js.slice (-15)
       (map
          (fun m =>
             if bool_decide (role m = User) then "User said: " +:+ content m
             else if type_is m "decision"
             then "I decided: " +:+ show (metadata_of "choice" m)
             else if type_is m "internal_monologue"
             then "I thought: " +:+ content m
             else content m)
          (filter
             (fun m =>
                Engine.truthy (metadata_of "type" m) || bool_decide (role m = User)
                = true)
             (relevantMemories options memory)))).

Definition z_insight (v : JSON) : bool :=
  match v with
  | JObj fields =>
      is_string (field "insight" fields)
      && match field "significance" fields with
         | Some s => z_enum ["minor"; "moderate"; "major"] s
         | None => false
         end
  | _ => false
  end.

(** The schema of a deep reflection. *)
Definition z_reflection (v : JSON) : bool :=
  match v with
  | JObj fields =>
      match field "insights" fields with
      | Some (JArr insights) => forallb z_insight insights
      | _ => false
      end
      && MentalQuery.z_string_array (field "questions" fields)
      && match field "emotions" fields with
         | Some (JObj emotions) =>
             is_string (field "during" emotions)
             && is_string (field "now" emotions)
         | _ => false
         end
      && is_string (field "growth" fields)
      && MentalQuery.z_string_array (field "futureIntentions" fields)
  | _ => false
  end.

Section Arrow.

(** The arrow of the "Emotional journey" line is the code unit U+2192,
    which is none of the units below 256: the text that stands for it is
    left open. *)
Variable arrow : string.

(** One line of the insights; a property of null cannot be read. *)
Definition insight_line (i : JSON) : Settled string :=
  match i with
  | JNull => Rejected TypeError
  | _ =>
      Fulfilled
        ("- " +:+ show (Js.prop "insight" i) +:+ " ["
           +:+ show (Js.prop "significance" i) +:+ "]")
  end.

Fixpoint insight_lines (insights : list JSON) : Settled (list string) :=
  match insights with
  | [] => Fulfilled []
  | i :: rest =>
      match insight_line i with
      | Rejected e => Rejected e
      | Fulfilled line =>
          match insight_lines rest with
          | Rejected e => Rejected e
          | Fulfilled lines => Fulfilled (line :: lines)
          end
      end
  end.

(** [reflectionContent] of a deep reflection: each of [insights],
    [questions] and [futureIntentions] must have a [map], which only an
    array has, and [emotions] must have properties. *)
Definition deepReflection (fields : list (string * JSON)) : Settled string :=
  match field "insights" fields, field "questions" fields,
        field "emotions" fields, field "futureIntentions" fields with
  | Some (JArr insights), Some (JArr questions), Some emotions,
    Some (JArr futureIntentions) =>
      match emotions with
      | JNull => Rejected TypeError
      | _ =>
          match insight_lines insights with
          | Rejected e => Rejected e
          | Fulfilled lines =>
              Fulfilled
                (String.concat Js.nl
                   ([ "Deep Reflection:"; Js.nl +:+ "Insights:" ]
                    ++ lines
                    ++ [ Js.nl +:+ "Questions that arose:" ]
                    ++ map (fun q => "- " +:+ to_string q) questions
                    ++ [ Js.nl +:+ "Emotional journey: "
                           +:+ show (Js.prop "during" emotions) +:+ " "
                           +:+ arrow +:+ " "
                           +:+ show (Js.prop "now" emotions);
                         Js.nl +:+ "Growth observed: "
                           +:+ show (field "growth" fields);
                         Js.nl +:+ "Future intentions:" ]
                    ++ map (fun i => "- " +:+ to_string i) futureIntentions))
          end
      end
  | _, _, _, _ => Rejected TypeError
  end.

Definition reflectionMemory (options : ReflectOptions) (now : string)
  (memory : WorkingMemory) (reflectionContent : string) : Memory :=
  {| role := Assistant;
     content :=
       show_name (entityName memory) +:+ " reflects: " +:+ reflectionContent;
     metadata := Some
       ([ ("type", JStr "reflection");
          ("topic", JStr (topic options));
          ("depth", JStr (depth options)) ]
        ++ match focusOn options with
           | Some f => [("focus", JStr f)]
           | None => []
           end
        ++ [("timestamp", JStr now)]) |}.

(** [postProcess] of the step.  Outside the deep branch the summary that
    is logged at the end calls [reflectionContent.split], which only a
    string has. *)
Definition postProcess (options : ReflectOptions) (now : string)
  (memory : WorkingMemory) (response : JSON)
  : Settled (list Memory * option JSON) :=
  if ExternalDialog.typeof_object response && String.eqb (depth options) "deep"
  then
    match response with
    | JObj fields =>
        match deepReflection fields with
        | Fulfilled text =>
            Fulfilled ([reflectionMemory options now memory text],
                       Some response)
        | Rejected e => Rejected e
        end
    | _ => Rejected TypeError
    end
  else
    match response with
    | JStr text =>
        Fulfilled ([reflectionMemory options now memory text], Some response)
    | _ => Rejected TypeError
    end.

Definition reflect (options : ReflectOptions) (now : string)
  : TransformationOptions :=
  {| schema :=
       if String.eqb (depth options) "deep" then Some z_reflection else None;
     Core.postProcess := Some (postProcess options now);
     streams := false;
     modelClass :=
       if String.eqb (depth options) "deep" then Some "quality" else None |}.

End Arrow.

End Reflect.

(** ** Predicates and examples used by the properties *)

Section StandaloneExamples.
Import StandaloneDemo.

Definition demo_system : Memory := plain System "You are Scholar.".

Definition demo_a : Memory := plain User "a".

Definition demo_b : Memory := plain User "b".

(** The heap after [const M = new SimpleWorkingMemory([system])]. *)
Definition demo_heap : nat * Heap :=
  let '(arr, h0) := alloc_array [demo_system] empty_heap in
  new_SimpleWorkingMemory arr h0.

End StandaloneExamples.

Section DecisionExamples.
Import Core Decision.

(** A custom post-processor that exposes the choice it is given, as the
    one of the initial process does. *)
Definition exposes_its_choice (options : DecisionOptions) : Prop :=
  match customPostProcess options with
  | None => True
  | Some custom =>
      forall m choice entries v,
        custom m choice = Fulfilled (entries, v) -> v = Some choice
  end.

(** Scenario A: one system entry, the choices learning and teaching, a
    Processor that answers "learning". *)
Definition scenarioA_options : DecisionOptions :=
  {| question := "What next?"; choices := ["learning"; "teaching"];
     context := None; customPostProcess := None |}.

Definition scenarioA_memory : WorkingMemory :=
  new_WorkingMemory "Scholar" [plain System "You are Scholar."] None.

(** A custom post-processor that exposes a label of its own. *)
Definition stubborn_options : DecisionOptions :=
  {| question := "What next?"; choices := ["learning"; "teaching"];
     context := None;
     customPostProcess := Some (fun _ _ =>
       Fulfilled ([plain Assistant "I'll focus on exploring"],
                  Some (JStr "exploring"))) |}.

End DecisionExamples.

Section PostProcessExamples.
Import Core.

(** A memory on which the runner has defined the entity name. *)
Definition scholar_memory : WorkingMemory :=
  {| soulName := "Scholar"; memories := [plain System "You are Scholar."];
     processor := None; entityName := Some "Scholar" |}.

Definition plain_monologue : InternalMonologue.InternalMonologueOptions :=
  {| InternalMonologue.instructions := "Reflect on the user's message";
     InternalMonologue.verb := None;
     InternalMonologue.modelClassOption := None;
     InternalMonologue.customPostProcess := None |}.

Definition reasoning_dialog : ExternalDialog.ExternalDialogOptions :=
  {| ExternalDialog.instructions := "Respond thoughtfully";
     ExternalDialog.stream := false;
     ExternalDialog.model := Some "reasoning";
     ExternalDialog.customPostProcess := None |}.

(** A stand-in for [stripEntityAndVerb] that returns strings as they are. *)
Definition keep_text (v : option JSON) : Settled string :=
  match v with
  | Some (JStr s) => Fulfilled s
  | _ => Rejected TypeError
  end.

End PostProcessExamples.

Section StreamExamples.
Import Core ExternalDialog.

(** A generator is either running or has seen the end of its input. *)
Definition running_or_exhausted (g : ProcessStream) : Prop :=
  finished g = false \/ fragments (input g) = [].

(** How often a schedule pulls one of the two generators. *)
Fixpoint pulls (who : bool) (schedule : list bool) : nat :=
  match schedule with
  | [] => 0
  | b :: rest => ((if Bool.eqb b who then 1 else 0) + pulls who rest)%nat
  end.

Definition streaming_dialog : ExternalDialogOptions :=
  {| instructions := "Greet the user"; stream := true; model := None;
     customPostProcess := None |}.

Definition scenarioB : Source :=
  {| fragments := ["Hi "; "there"]; ending := None |}.

End StreamExamples.

Section ProcessPredicates.
Import Core Engine.

Definition count (f : Event -> bool) (evs : list Event) : nat :=
  length (filter (fun e => f e = true) evs).

(** [adds f n m]: a run of [m] only extends the trace, by events of which
    at most [n] satisfy [f]. *)
Definition adds {A : Type} (f : Event -> bool) (n : nat) (m : M World A)
  : Prop :=
  forall w r w', m w = (r, w') ->
    exists evs, trace w' = trace w ++ evs /\ (count f evs <= n)%nat.

(** [finishes m]: a run of [m] returns or throws. *)
Definition finishes {S A : Type} (m : M S A) : Prop :=
  forall w, exists w', (exists a, m w = (Returned a, w'))
                       \/ (exists e, m w = (Thrown e, w')).

(** A world in which every step resolves: the decision to "teaching", a
    dialog to a memory and a stream, any other step to the memory it was
    given. *)
Definition teaching_world : World :=
  {| steps := fun _ name memory _ =>
       if String.eqb name "decision" then Fulfilled (str "teaching")
       else if String.eqb name "externalDialog"
       then Fulfilled (VArray [memory; VStream ["Hello"]])
       else Fulfilled memory;
     clock := fun _ => "2024-01-01T00:00:00.000Z";
     trace := [];
     soulMemory := ∅ |}.

End ProcessPredicates.

Section RunnerPredicates.
Import Core LocalRunner.

(** [phase names m]: a run of [m] calls steps of [names] only, keeps the
    working memory defined once it is, and returns or throws. *)
Definition phase {A : Type} (names : list string) (m : M Runner A) : Prop :=
  forall r res r', m r = (res, r') ->
    (exists cs, calls r' = calls r ++ cs
                /\ Forall (fun c => callee c ∈ names) cs)
    /\ (is_Some (workingMemory r) -> is_Some (workingMemory r'))
    /\ ((exists a, res = Returned a) \/ (exists e, res = Thrown e)).

Definition pre_decision_steps : list string :=
  ["perceive"; "internalMonologue"; "mentalQuery"].

Definition all_steps : list string :=
  [ "perceive"; "internalMonologue"; "mentalQuery"; "decision";
    "externalDialog"; "brainstorm"; "reflect" ].

(** A host whose Processor fails every call. *)
Definition failing_host : Host :=
  {| blueprintFile := Some "You are Scholar.";
     stepExports := Some all_steps;
     behaviour := fun _ _ => Rejected ProcessorError;
     clock := fun _ => "2024-01-01T00:00:00.000Z" |}.

(** The phased runner, initialised, with the user's message committed. *)
Definition listening_runner : Runner :=
  (( do! DemoRunner.initialize in
     let! wm := require_memory in
     do! modify (set_workingMemory (withMemory wm [plain User "Hello"])) in
     ensureEntityName )
     (DemoRunner.new_LocalSoulRunner "Scholar" failing_host)).2.

Definition quiet_host : Host :=
  {| blueprintFile := Some "You are Scholar.";
     stepExports := Some all_steps;
     behaviour := fun _ c => Fulfilled (given c, Some (JStr "Hello"));
     clock := fun _ => "2024-01-01T00:00:00.000Z" |}.

Definition fresh_disk : Disk := {| memoryFile := None; writable := true |}.

Definition locked_disk : Disk := {| memoryFile := None; writable := false |}.

(** The runner of local-soul-runner.ts after [initialize]. *)
Definition scholar_runner : Runner :=
  (initialize (new_LocalSoulRunner "Scholar" fresh_disk quiet_host)).2.

(** The runner in the middle of a message. *)
Definition busy_runner : Runner := set_isProcessing true scholar_runner.

End RunnerPredicates.

Section StepExamples.
Import Core.

Definition structured_query : MentalQuery.MentalQueryOptions :=
  {| MentalQuery.query := "What did we discuss?";
     MentalQuery.verb := Some "recalls";
     MentalQuery.structuredResponse := true;
     MentalQuery.modelClassOption := None |}.

Definition findings : JSON :=
  JObj [ ("summary", JStr "We spoke of stars.");
         ("details", JArr [JStr "Orion"; JStr "Vega"]);
         ("confidence", JStr "high") ].

Definition attentive : Perceive.PerceiveOptions :=
  {| Perceive.stimulus := "Hello";
     Perceive.type := "textual";
     Perceive.analyzeEmotions := true;
     Perceive.detectPatterns := true |}.

Definition emotions_only : Perceive.PerceiveOptions :=
  {| Perceive.stimulus := "Hello";
     Perceive.type := "textual";
     Perceive.analyzeEmotions := true;
     Perceive.detectPatterns := false |}.

Definition joy : JSON :=
  JObj [ ("primary", JStr "joy"); ("intensity", JStr "subtle");
         ("valence", JStr "positive") ].

Definition perception : list (string * JSON) :=
  [ ("initialImpression", JStr "A greeting.");
    ("details", JArr [JStr "warm"]);
    ("emotionalResponse", joy);
    ("patterns", JArr []);
    ("associations", JArr [JStr "mornings"]) ].

(** The same with a text where the list of patterns should be. *)
Definition perception_with_a_text : list (string * JSON) :=
  [ ("initialImpression", JStr "A greeting.");
    ("details", JArr [JStr "warm"]);
    ("emotionalResponse", joy);
    ("patterns", JStr "none");
    ("associations", JArr [JStr "mornings"]) ].

Definition deep_reflection : Reflect.ReflectOptions :=
  {| Reflect.topic := "this conversation";
     Reflect.depth := "deep";
     Reflect.timeframe := None;
     Reflect.focusOn := Some "learning" |}.

Definition reflection : JSON :=
  JObj [ ("insights",
          JArr [ JObj [ ("insight", JStr "Names matter.");
                        ("significance", JStr "major") ] ]);
         ("questions", JArr [JStr "What next?"]);
         ("emotions", JObj [("during", JStr "curious"); ("now", JStr "calm")]);
         ("growth", JStr "More patient.");
         ("futureIntentions", JArr [JStr "Ask more."]) ].

End StepExamples.

Section ProcessExamples.
Import Core Engine.

(** What the process says aloud. *)
Definition is_speak (e : Event) : bool :=
  match e with
  | Speak _ => true
  | _ => false
  end.

(** A world in which every step resolves and no decision ends the
    learning loop: a dialog yields a memory and a stream, any other step
    the memory it was given. *)
Definition patient_world : World :=
  {| steps := fun _ name memory _ =>
       if String.eqb name "externalDialog"
       then Fulfilled (VArray [memory; VStream ["Hello"]])
       else Fulfilled memory;
     clock := fun _ => "2024-01-01T00:00:00.000Z";
     trace := [];
     soulMemory := ∅ |}.

Definition learning_args : ProcessArgs Learning.LearningParams :=
  {| workingMemory := VMemory (new_WorkingMemory "Scholar" [] None);
     params := Some {| Learning.focusArea := Some "user_interests";
                       Learning.depth := Some "comprehensive" |} |}.

Definition emotional_args : ProcessArgs Emotional.EmotionalParams :=
  {| workingMemory := VMemory (new_WorkingMemory "Scholar" [] None);
     params := Some {| Emotional.mode := Some "supportive";
                       Emotional.intensity := Some "moderate" |} |}.

Definition teaching_args : ProcessArgs Teaching.TeachingParams :=
  {| workingMemory := VMemory (new_WorkingMemory "Scholar" [] None);
     params := Some {| Teaching.adaptiveStyle := true;
                       Teaching.checkUnderstanding := true |} |}.

End ProcessExamples.

Section RunnerRelations.
Import Core LocalRunner.

(** [keeps I m]: whatever the outcome, the state after [m] is related by
    [I] to the state before it. *)
Definition keeps {A : Type} (I : Runner -> Runner -> Prop) (m : M Runner A)
  : Prop :=
  forall r, I r (m r).2.

(** The store still holds [u] under "userName", when it did. *)
Definition name_stays (u : option JSON) (r r' : Runner) : Prop :=
  soulMemoryStore r !! "userName" = u -> soulMemoryStore r' !! "userName" = u.

(** The facts that the store holds about the user: an absent entry
    stands for none, as the [|| []] of the source reads it. *)
Definition facts (r : Runner) (known : list string) : Prop :=
  (soulMemoryStore r !! "userFacts" = None /\ known = [])
  \/ soulMemoryStore r !! "userFacts" = Some (JArr (map JStr known)).

(** Facts without duplicates stay so, and none is lost or moved. *)
Definition facts_grow (r r' : Runner) : Prop :=
  forall known, facts r known -> NoDup known ->
    exists known', facts r' known' /\ NoDup known' /\ known `prefix_of` known'.

(** Nothing was said, and what the reply depends on is as it was: the
    registry of steps, the host, the counter of conversations and its
    milestones; a working memory that was there is still there. *)
Definition unspoken (r r' : Runner) : Prop :=
  spoken r' = spoken r
  /\ cognitiveSteps r' = cognitiveSteps r
  /\ host r' = host r
  /\ isProcessing r' = isProcessing r
  /\ (is_Some (workingMemory r) -> is_Some (workingMemory r'))
  /\ soulMemoryStore r' !! "conversationCount"
     = soulMemoryStore r !! "conversationCount"
  /\ soulMemoryStore r' !! "conversationSummaries"
     = soulMemoryStore r !! "conversationSummaries".

(** The store holds a number, or nothing, where the counter is read, and
    an array, or nothing, where the milestones are read: the values that
    the casts of the source expect. *)
Definition counter_as_cast (r : Runner) : Prop :=
  match soulMemoryStore r !! "conversationCount" with
  | None | Some (JNum _) => True
  | _ => False
  end
  /\ match soulMemoryStore r !! "conversationSummaries" with
     | None | Some (JArr _) => True
     | _ => False
     end.

(** What the soul memory of the phased runner may hold: a counter above
    zero, one or more interests, each of them "general_conversation",
    and a text for the name; or nothing. *)
Definition demo_typed (r : Runner) : Prop :=
  match soulMemoryStore r !! "conversationCount" with
  | None => True
  | Some (JNum n) => 0 < n
  | Some _ => False
  end
  /\ match soulMemoryStore r !! "userInterests" with
     | None => True
     | Some (JArr items) =>
         items <> [] /\ Forall (fun j => j = JStr "general_conversation") items
     | Some _ => False
     end
  /\ match soulMemoryStore r !! "userName" with
     | None | Some (JStr _) => True
     | Some _ => False
     end.

Definition stays_typed (r r' : Runner) : Prop := demo_typed r -> demo_typed r'.

(** Nothing was said, the registry of steps is as it was, and a working
    memory that was there is still there. *)
Definition hushed (r r' : Runner) : Prop :=
  spoken r' = spoken r
  /\ cognitiveSteps r' = cognitiveSteps r
  /\ (is_Some (workingMemory r) -> is_Some (workingMemory r')).

(** How the five phases may end, seen from the state [r] before them:
    they return and one thing was said, or they throw and nothing or
    one thing was said. *)
Definition replied_or_failed (r : Runner) (run : Outcome unit * Runner)
  : Prop :=
  is_Some (workingMemory run.2)
  /\ cognitiveSteps run.2 = cognitiveSteps r
  /\ match run.1 with
     | Returned _ => exists reply, spoken run.2 = spoken r ++ [reply]
     | Thrown _ =>
         spoken run.2 = spoken r
         \/ exists reply, spoken run.2 = spoken r ++ [reply]
     | OutOfFuel => False
     end.

(** What the store holds of the user, name and facts, is as it was. *)
Definition profile_stays (r r' : Runner) : Prop :=
  soulMemoryStore r' !! "userName" = soulMemoryStore r !! "userName"
  /\ soulMemoryStore r' !! "userFacts" = soulMemoryStore r !! "userFacts".

(** The monologue step is not loaded, or it is and rejects. *)
Definition monologue_fails (r : Runner) : Prop :=
  "internalMonologue" ∉ cognitiveSteps r
  \/ forall c, callee c = "internalMonologue" ->
       exists e, behaviour (host r) (calls r) c = Rejected e.

(** The monologue step resolves, and the memory that it returns ends
    with the same user message as the memory that it was given. *)
Definition monologue_keeps_the_message (r : Runner) : Prop :=
  forall c, callee c = "internalMonologue" ->
    exists m v,
      behaviour (host r) (calls r) c = Fulfilled (m, v)
      /\ lastUserMessage m = lastUserMessage (given c).

(** The state of the phased runner after a list of messages. *)
Definition demo_session (messages : list string) (r : Runner) : Runner :=
  foldl (fun r message => (DemoRunner.processMessage message r).2) r messages.

End RunnerRelations.

Section RunnerExamples.
Import Core LocalRunner.

(** The local runner after the user has given a name. *)
Definition introduced_runner : Runner :=
  (LocalRunner.processMessage "my name is Ada" scholar_runner).2.

(** The local runner after the user has told a fact. *)
Definition informed_runner : Runner :=
  (LocalRunner.processMessage "I like chess" scholar_runner).2.

(** The phased runner after [initialize]. *)
Definition phased_runner : Runner :=
  (DemoRunner.initialize (DemoRunner.new_LocalSoulRunner "Scholar" quiet_host)).2.

End RunnerExamples.

Section MessagePredicates.
Import RegExp.

(** [text] reads as [pattern] when the case of the letters is left
    aside, as the [i] flag does. *)
Fixpoint reads_as (pattern text : string) : bool :=
  match pattern, text with
  | EmptyString, EmptyString => true
  | String c pattern', String a text' =>
      (canonicalize a =? canonicalize c)%nat && reads_as pattern' text'
  | _, _ => false
  end.

(** One of the four openings of the name pattern, in any case. *)
Definition introduces (text : string) : bool :=
  existsb (fun opening => reads_as opening text)
    ["my name is"; "i'm"; "i am"; "call me"].

(** One or more characters of a class. *)
Definition all_of (p : ascii -> bool) (text : string) : bool :=
  match text with
  | EmptyString => false
  | _ => forallb p (list_ascii_of_string text)
  end.

(** The text is empty or starts outside the class. *)
Definition leaves (p : ascii -> bool) (text : string) : bool :=
  match text with
  | EmptyString => true
  | String a _ => negb (p a)
  end.

(** What a literal leaves of the input under the [i] flag. *)
Fixpoint after_literal (pattern : string) (s : list ascii)
  : option (list ascii) :=
  match pattern, s with
  | EmptyString, _ => Some s
  | String c pattern', a :: s' =>
      if (canonicalize a =? canonicalize c)%nat
      then after_literal pattern' s' else None
  | String _ _, [] => None
  end.

(** Two literals that differ before either of them ends. *)
Fixpoint clash (q p : string) : bool :=
  match q, p with
  | String a q', String b p' =>
      negb (canonicalize a =? canonicalize b)%nat || clash q' p'
  | _, _ => false
  end.

End MessagePredicates.

(** * Properties *)

(** ** [SimpleWorkingMemory.addMemory] *)

Section StandaloneFacts.
Import StandaloneDemo.

Lemma memories_of_new (a : nat) (l : list Memory) (h : Heap) :
  arrays h !! a = Some l ->
  memories_of (new_SimpleWorkingMemory a h).1 (new_SimpleWorkingMemory a h).2
  = Some l.
Proof.
  intros Ha. unfold memories_of, new_SimpleWorkingMemory. simpl.
  rewrite lookup_insert_eq. simpl. exact Ha.
Qed.

(** The array that an object reads is shared by every object built on it. *)
Lemma addMemory_shared (h h' : Heap) (o o' r : nat) (e : Memory) :
  addMemory o e h = Some (r, h') ->
  objects h !! o' = objects h !! o ->
  memories_of o' h' = memories_of o h'.
Proof.
  unfold addMemory, memories_of. intros H Hsame.
  destruct (objects h !! o) as [a|] eqn:Ho; simpl in H; [|discriminate].
  destruct (arrays h !! a) as [l|] eqn:Ha; simpl in H; [|discriminate].
  injection H as <- <-. simpl. rewrite Hsame, Ho. reflexivity.
Qed.

Lemma addMemory_frame (h h' : Heap) (o o' r a a' : nat) (e : Memory) :
  addMemory o e h = Some (r, h') ->
  objects h !! o = Some a ->
  objects h !! o' = Some a' ->
  a' <> a ->
  memories_of o' h' = memories_of o' h.
Proof.
  unfold addMemory, memories_of. intros H Ho Ho' Hne.
  rewrite Ho in H. simpl in H.
  destruct (arrays h !! a) as [l|] eqn:Ha; simpl in H; [|discriminate].
  injection H as <- <-. simpl. rewrite Ho'. simpl.
  rewrite lookup_insert_ne by congruence. reflexivity.
Qed.

Lemma addMemory_appends (h : Heap) (o : nat) (l : list Memory) (e : Memory) :
  memories_of o h = Some l ->
  exists h', addMemory o e h = Some (o, h')
             /\ memories_of o h' = Some (l ++ [e])
             /\ objects h' = objects h.
Proof.
  unfold addMemory, memories_of. intros H.
  destruct (objects h !! o) as [a|] eqn:Ho; simpl in *; [|discriminate].
  rewrite H. simpl. eexists. split; [reflexivity|]. simpl.
  rewrite Ho. simpl. rewrite lookup_insert_eq. auto.
Qed.

(** C1, as the demo has it.  [addMemory] is no fork: it appends to the
    receiver's own list and returns the receiver.  After
    [M.addMemory(a)] and [M.addMemory(b)] both results are [M], and [M]
    reads its former entries followed by [a] and [b]; so does every object
    built on the same array, and no other object changes. *)
Theorem addMemory_in_place (h : Heap) (M : nat) (l : list Memory)
  (a b : Memory) :
  memories_of M h = Some l ->
  exists h1 h2,
    addMemory M a h = Some (M, h1)
    /\ addMemory M b h1 = Some (M, h2)
    /\ memories_of M h1 = Some (l ++ [a])
    /\ memories_of M h2 = Some (l ++ [a; b])
    /\ (forall o, objects h !! o = objects h !! M ->
                  memories_of o h2 = Some (l ++ [a; b]))
    /\ (forall o x y, objects h !! M = Some x -> objects h !! o = Some y ->
                      y <> x -> memories_of o h2 = memories_of o h).
Proof.
  intros Hl.
  destruct (addMemory_appends h M l a Hl) as (h1 & H1 & Hm1 & Ho1).
  destruct (addMemory_appends h1 M (l ++ [a]) b Hm1) as (h2 & H2 & Hm2 & Ho2).
  rewrite <- app_assoc in Hm2. simpl in Hm2.
  exists h1, h2. repeat split; try assumption.
  - intros o Ho.
    rewrite (addMemory_shared h1 h2 M o M b H2); [assumption|].
    rewrite Ho1. exact Ho.
  - intros o x y Hx Hy Hne.
    rewrite (addMemory_frame h1 h2 M o M x y b H2); try congruence.
    apply (addMemory_frame h h1 M o M x y a H1); assumption.
Qed.

Lemma demo_heap_reads : memories_of demo_heap.1 demo_heap.2 = Some [demo_system].
Proof. vm_compute. reflexivity. Qed.

Lemma addMemory_in_place_witness :
  memories_of demo_heap.1 demo_heap.2 = Some [demo_system]
  /\ exists h1 h2,
       addMemory demo_heap.1 demo_a demo_heap.2 = Some (demo_heap.1, h1)
       /\ addMemory demo_heap.1 demo_b h1 = Some (demo_heap.1, h2)
       /\ memories_of demo_heap.1 h2 = Some [demo_system; demo_a; demo_b].
Proof.
  split; [exact demo_heap_reads|].
  destruct (addMemory_in_place demo_heap.2 demo_heap.1 [demo_system]
              demo_a demo_b demo_heap_reads)
    as (h1 & h2 & H1 & H2 & _ & H4 & _).
  exists h1, h2. auto.
Defined.

(** C1 fails for [addMemory]: after [M1 = M.addMemory(a)] and
    [M2 = M.addMemory(b)] the receiver no longer reads what it read
    before, and the two results are one object. *)
Lemma addMemory_changes_the_receiver :
  exists M1 h1 M2 h2,
    addMemory demo_heap.1 demo_a demo_heap.2 = Some (M1, h1)
    /\ addMemory demo_heap.1 demo_b h1 = Some (M2, h2)
    /\ memories_of demo_heap.1 demo_heap.2 = Some [demo_system]
    /\ memories_of demo_heap.1 h2 = Some [demo_system; demo_a; demo_b]
    /\ M1 = demo_heap.1 /\ M2 = demo_heap.1
    /\ memories_of M1 h2 = memories_of M2 h2.
Proof.
  destruct (addMemory_appends demo_heap.2 demo_heap.1 [demo_system] demo_a
              demo_heap_reads) as (h1 & H1 & Hm1 & _).
  destruct (addMemory_appends h1 demo_heap.1 _ demo_b Hm1)
    as (h2 & H2 & Hm2 & _).
  exists demo_heap.1, h1, demo_heap.1, h2.
  repeat split; auto using demo_heap_reads.
Qed.

End StandaloneFacts.

(** ** The decision step *)

Section DecisionFacts.
Import Core Decision.

Lemma z_enum_true (choices : list string) (v : JSON) :
  z_enum choices v = true <-> exists s, v = JStr s /\ s ∈ choices.
Proof.
  destruct v; simpl; split; try discriminate;
    try (intros (s' & Hs & _); discriminate).
  - intros H. apply bool_decide_eq_true in H. eauto.
  - intros (s' & Hs & Hin). injection Hs as ->. apply bool_decide_eq_true. exact Hin.
Qed.

(** A response that the schema refuses never reaches post-processing. *)
Lemma decision_refuses (options : DecisionOptions) (now : string)
  (m : WorkingMemory) (response : JSON) :
  z_enum (choices options) response = false ->
  transform (decision options now) m (Resolved response)
  = Rejected ValidationError.
Proof. intros H. unfold transform, decision. simpl. rewrite H. reflexivity. Qed.

(** C2, amended.  Whatever the options, a response outside the choice list
    fails the step with ValidationError.  When the options carry no custom
    post-processor, or one that exposes the choice it is given, a step
    that succeeds exposes a label of the list, which is the response
    itself; with no custom post-processor the new memory is the old one
    with the single decision entry appended. *)
Theorem decision_exposes_a_choice (options : DecisionOptions) (now : string)
  (m : WorkingMemory) :
  (forall response,
      z_enum (choices options) response = false ->
      transform (decision options now) m (Resolved response)
      = Rejected ValidationError)
  /\ (exposes_its_choice options ->
      forall reply wm' v,
        transform (decision options now) m reply = Fulfilled (wm', v) ->
        exists s, reply = Resolved (JStr s) /\ v = Some (JStr s)
                  /\ s ∈ choices options
                  /\ (customPostProcess options = None ->
                      wm' = withMemory m
                              [decisionMemory options now m (JStr s)])).
Proof.
  split.
  - intros response. apply decision_refuses.
  - intros Hexp [response|e] wm' v; simpl; [|discriminate].
    destruct (z_enum (choices options) response) eqn:Hz; [|discriminate].
    apply z_enum_true in Hz. destruct Hz as (s & -> & Hin).
    unfold postProcess, exposes_its_choice in *.
    destruct (customPostProcess options) as [custom|] eqn:Hc.
    + destruct (custom m (JStr s)) as [[entries value]|e] eqn:Hr; [|discriminate].
      intros H. injection H as <- <-.
      exists s. rewrite (Hexp _ _ _ _ Hr). repeat split; auto. discriminate.
    + intros H. injection H as <- <-. exists s. repeat split; auto.
Qed.

Lemma decision_exposes_a_choice_witness :
  exposes_its_choice scenarioA_options
  /\ transform (decision scenarioA_options "2024-01-01T00:00:00.000Z")
       scenarioA_memory (Resolved (JStr "other"))
     = Rejected ValidationError
  /\ exists wm',
       transform (decision scenarioA_options "2024-01-01T00:00:00.000Z")
         scenarioA_memory (Resolved (JStr "learning"))
       = Fulfilled (wm', Some (JStr "learning"))
       /\ length (memories wm') = 2%nat.
Proof.
  assert (He : exposes_its_choice scenarioA_options) by exact I.
  split; [exact He|].
  destruct (decision_exposes_a_choice scenarioA_options
              "2024-01-01T00:00:00.000Z" scenarioA_memory) as [Href Hok].
  split; [apply Href; reflexivity|].
  destruct (Hok He (Resolved (JStr "learning")) _ _ eq_refl)
    as (s & _ & _ & _ & Hwm).
  eexists. split; [reflexivity|reflexivity].
Defined.

(** C2 fails as stated: with a custom post-processor the exposed value
    is what that function returns, and need not be of the list. *)
Lemma decision_custom_value_outside_choices :
  (exists wm',
     transform (decision stubborn_options "2024-01-01T00:00:00.000Z")
       scenarioA_memory (Resolved (JStr "learning"))
     = Fulfilled (wm', Some (JStr "exploring")))
  /\ "exploring" ∉ choices stubborn_options.
Proof.
  split.
  - eexists. reflexivity.
  - simpl. intros H. repeat (apply elem_of_cons in H as [H|H]; [discriminate|]).
    inversion H.
Qed.

End DecisionFacts.

(** ** Regular expressions: a match consumes a prefix *)

Section RegExpFacts.
Import RegExp.

Lemma run_suffix {X : Type} (r : regex) :
  forall (s : list ascii) (c : Captures)
         (k : list ascii -> Captures -> option X) (x : X),
    run r s c k = Some x ->
    exists s' c', s' `suffix_of` s /\ k s' c' = Some x.
Proof.
  induction r as [p| |r1 IH1 r2 IH2|r1 IH1 r2 IH2|g r1 IH1|i r1 IH1|];
    intros s c k x H; simpl in H.
  - destruct s as [|a s]; [discriminate|].
    destruct (p a); [|discriminate].
    exists s, c. split; [apply suffix_cons_r; reflexivity|exact H].
  - exists s, c. split; [reflexivity|exact H].
  - apply IH1 in H as (s1 & c1 & Hs1 & H).
    apply IH2 in H as (s2 & c2 & Hs2 & H).
    exists s2, c2. split; [etransitivity; eassumption|exact H].
  - destruct (run r1 s c k) eqn:H1.
    + injection H as ->. eapply IH1; eassumption.
    + eapply IH2; eassumption.
  - revert H. generalize (length s). intros n. revert s c.
    induction n as [|n IHn]; intros s c H.
    + exists s, c. split; [reflexivity|exact H].
    + match type of H with
      | context [run r1 s c ?k'] => destruct (run r1 s c k') eqn:Hmore
      end.
      * assert (Hx : exists s' c', s' `suffix_of` s /\ k s' c' = Some x).
        { destruct g.
          - injection H as ->.
            apply IH1 in Hmore as (s1 & c1 & Hs1 & Hmore).
            destruct (length s1 <? length s)%nat; [|discriminate].
            apply IHn in Hmore as (s2 & c2 & Hs2 & Hmore).
            exists s2, c2. split; [etransitivity; eassumption|exact Hmore].
          - destruct (k s c) eqn:Hk.
            + injection H as ->. exists s, c. split; [reflexivity|exact Hk].
            + injection H as ->.
              apply IH1 in Hmore as (s1 & c1 & Hs1 & Hmore).
              destruct (length s1 <? length s)%nat; [|discriminate].
              apply IHn in Hmore as (s2 & c2 & Hs2 & Hmore).
              exists s2, c2. split; [etransitivity; eassumption|exact Hmore]. }
        exact Hx.
      * destruct g.
        -- exists s, c. split; [reflexivity|exact H].
        -- destruct (k s c) eqn:Hk; [|discriminate].
           exists s, c. split; [reflexivity|congruence].
  - apply IH1 in H as (s1 & c1 & Hs1 & H).
    eexists _, _. split; [exact Hs1|exact H].
  - destruct s; [|discriminate]. exists [], c. split; [reflexivity|exact H].
Qed.

Lemma string_of_list_ascii_app (a b : list ascii) :
  string_of_list_ascii (a ++ b)
  = string_of_list_ascii a +:+ string_of_list_ascii b.
Proof. induction a as [|x a IH]; simpl; [reflexivity|]. rewrite IH. reflexivity. Qed.

(** What [strip_prefix] returns is the end of what it is given. *)
Lemma strip_prefix_suffix (r : regex) (s : string) :
  exists p, s = p +:+ strip_prefix r s.
Proof.
  unfold strip_prefix, match_here.
  destruct (run r (list_ascii_of_string s) [] _) as [[[m c] rest]|] eqn:H.
  - apply run_suffix in H as (s' & c' & [p Hp] & H).
    injection H as _ _ <-.
    exists (string_of_list_ascii p).
    rewrite <- string_of_list_ascii_app, <- Hp.
    symmetry. apply string_of_list_ascii_of_string.
  - exists "". reflexivity.
Qed.

End RegExpFacts.

(** ** Post-processing without a custom function *)

Section PostProcessFacts.
Import Core.

Lemma internalMonologue_default (options : InternalMonologue.InternalMonologueOptions)
  (now : string) (m : WorkingMemory) (thought : string) :
  InternalMonologue.customPostProcess options = None ->
  transform (InternalMonologue.internalMonologue options now) m
    (Resolved (JStr thought))
  = Fulfilled
      (withMemory m [InternalMonologue.internalMemory options now m thought],
       Some (JStr (InternalMonologue.cleanThought m thought))).
Proof.
  intros Hc. unfold transform. simpl.
  unfold InternalMonologue.postProcess. rewrite Hc. reflexivity.
Qed.

Lemma externalDialog_plain (strip : option JSON -> Settled string)
  (options : ExternalDialog.ExternalDialogOptions) (m : WorkingMemory)
  (response : JSON) (clean : string) :
  ExternalDialog.customPostProcess options = None ->
  ExternalDialog.is_reasoning options = false ->
  strip (Some response) = Fulfilled clean ->
  transform (ExternalDialog.externalDialog strip options) m (Resolved response)
  = Fulfilled (withMemory m [plain Assistant clean], Some (JStr clean)).
Proof.
  intros Hc Hr Hs. unfold transform, ExternalDialog.externalDialog. simpl.
  rewrite Hr. unfold ExternalDialog.postProcess. rewrite Hr. simpl.
  rewrite Hs, Hc. reflexivity.
Qed.

Lemma externalDialog_reasoned (strip : option JSON -> Settled string)
  (options : ExternalDialog.ExternalDialogOptions) (m : WorkingMemory)
  (fields : list (string * JSON)) (thought spoken clean : string) :
  ExternalDialog.is_reasoning options = true ->
  field "thought" fields = Some (JStr thought) ->
  field "response" fields = Some (JStr spoken) ->
  strip (Some (JStr spoken)) = Fulfilled clean ->
  transform (ExternalDialog.externalDialog strip options) m
    (Resolved (JObj fields))
  = Fulfilled
      (withMemory m
         [ plain Assistant ("[Internal: " +:+ thought +:+ "]");
           plain Assistant clean ],
       Some (JStr spoken)).
Proof.
  intros Hr Ht Hsp Hs. unfold transform, ExternalDialog.externalDialog. simpl.
  rewrite Hr. simpl. rewrite Ht, Hsp. simpl.
  unfold ExternalDialog.postProcess. rewrite Hr. simpl.
  rewrite Ht, Hsp, Hs. reflexivity.
Qed.




End PostProcessFacts.

(** ** The stream processor of [externalDialog] *)

Section StreamFacts.
Import Core ExternalDialog.

Lemma next_chunk (f : string) (fs : list string) (e : option Error) (n : Z) :
  exists out,
    next {| input := {| fragments := f :: fs; ending := e |};
            chunkCount := n; finished := false |}
    = (Chunk f, out,
       {| input := {| fragments := fs; ending := e |};
          chunkCount := n + 1; finished := false |}).
Proof. unfold next. simpl. eexists. reflexivity. Qed.

Lemma drain_all (fs : list string) :
  forall (e : option Error) (n : Z) (seen : list string) (fuel : nat),
    (length fs < fuel)%nat ->
    drain fuel
      {| input := {| fragments := fs; ending := e |};
         chunkCount := n; finished := false |} seen
    = Some (seen ++ fs, e).
Proof.
  induction fs as [|f fs IH]; intros e n seen fuel Hfuel.
  - destruct fuel as [|fuel]; [simpl in Hfuel; lia|].
    simpl. unfold next. simpl. rewrite app_nil_r. destruct e; reflexivity.
  - destruct fuel as [|fuel]; [simpl in Hfuel; lia|].
    simpl in Hfuel. cbn [drain].
    destruct (next_chunk f fs e n) as [out ->].
    rewrite IH by lia. rewrite <- app_assoc. reflexivity.
Qed.

Lemma next_keeps (g : ProcessStream) :
  running_or_exhausted g ->
  match next g with
  | (Chunk f, _, g') =>
      fragments (input g) = f :: fragments (input g')
      /\ running_or_exhausted g'
  | (_, _, g') =>
      fragments (input g) = [] /\ fragments (input g') = []
      /\ running_or_exhausted g'
  end.
Proof.
  intros Hg. unfold next.
  destruct g as [[fs e] n fin]. simpl in *.
  destruct fin.
  - destruct Hg as [Hg|Hg]; [discriminate|]. simpl in Hg. subst fs.
    simpl. repeat split; right; reflexivity.
  - unfold pull. simpl. destruct fs as [|f fs]; simpl.
    + destruct e; simpl; repeat split; right; reflexivity.
    + split; [reflexivity|]. left. reflexivity.
Qed.

Lemma pull_both_prefixes (schedule : list bool) :
  forall (g1 g2 : ProcessStream) (seen1 seen2 : list string),
    running_or_exhausted g1 -> running_or_exhausted g2 ->
    pull_both schedule g1 g2 seen1 seen2
    = (seen1 ++ take (pulls true schedule) (fragments (input g1)),
       seen2 ++ take (pulls false schedule) (fragments (input g2))).
Proof.
  induction schedule as [|who schedule IH]; intros g1 g2 seen1 seen2 H1 H2.
  - simpl. rewrite !take_0, !app_nil_r. reflexivity.
  - destruct who; simpl.
    + pose proof (next_keeps g1 H1) as Hn.
      destruct (next g1) as [[[f| |e] out] g1']; simpl.
      * destruct Hn as [Hf Hg]. rewrite IH by assumption.
        rewrite Hf. simpl. rewrite <- app_assoc. reflexivity.
      * destruct Hn as (Hf & Hf' & Hg). rewrite IH by assumption.
        rewrite Hf, Hf'. rewrite !take_nil. reflexivity.
      * destruct Hn as (Hf & Hf' & Hg). rewrite IH by assumption.
        rewrite Hf, Hf'. rewrite !take_nil. reflexivity.
    + pose proof (next_keeps g2 H2) as Hn.
      destruct (next g2) as [[[f| |e] out] g2']; simpl.
      * destruct Hn as [Hf Hg]. rewrite IH by assumption.
        rewrite Hf. simpl. rewrite <- app_assoc. reflexivity.
      * destruct Hn as (Hf & Hf' & Hg). rewrite IH by assumption.
        rewrite Hf, Hf'. rewrite !take_nil. reflexivity.
      * destruct Hn as (Hf & Hf' & Hg). rewrite IH by assumption.
        rewrite Hf, Hf'. rewrite !take_nil. reflexivity.
Qed.

Lemma append_empty (s : string) : s +:+ "" = s.
Proof.
  induction s as [|a s IH]; [reflexivity|].
  change (String a (s +:+ "") = String a s). rewrite IH. reflexivity.
Qed.

Lemma accumulate_concat (fs : list string) :
  accumulate fs = String.concat "" fs.
Proof.
  induction fs as [|f fs IH]; [reflexivity|].
  change (accumulate (f :: fs)) with (f +:+ accumulate fs).
  rewrite IH. destruct fs; simpl; [apply append_empty|reflexivity].
Qed.

Lemma streamProcessor_some (options : ExternalDialogOptions)
  (memory : WorkingMemory) (s : Source) (g : ProcessStream) :
  streamProcessor options memory s = Some g ->
  g = {| input := s; chunkCount := 0; finished := false |}.
Proof.
  unfold streamProcessor. destruct (stream options); [|discriminate].
  intros H. injection H as <-. reflexivity.
Qed.

(** C7.  A generator made by [streamProcessor] yields the fragments of its
    input, all of them, in their order, and ends as the input ends; the
    accumulated text is their concatenation.  Two generators pulled in any
    alternation each yield a prefix of their own input: nothing of one
    shows up in the other. *)
Theorem stream_adapter_passes_through (options : ExternalDialogOptions)
  (memory : WorkingMemory) (frags : list string) (e : option Error)
  (g : ProcessStream) :
  streamProcessor options memory {| fragments := frags; ending := e |} = Some g ->
  drain (S (length frags)) g [] = Some (frags, e)
  /\ (forall fuel, (length frags < fuel)%nat -> drain fuel g [] = Some (frags, e))
  /\ (forall yielded r, drain (S (length frags)) g [] = Some (yielded, r) ->
                        accumulate yielded = String.concat "" frags)
  /\ (forall options' memory' frags' e' g' schedule,
        streamProcessor options' memory' {| fragments := frags'; ending := e' |}
        = Some g' ->
        pull_both schedule g g' [] []
        = (take (pulls true schedule) frags, take (pulls false schedule) frags')).
Proof.
  intros Hg. apply streamProcessor_some in Hg. subst g.
  assert (Hall : forall fuel, (length frags < fuel)%nat ->
            drain fuel
              {| input := {| fragments := frags; ending := e |};
                 chunkCount := 0; finished := false |} []
            = Some (frags, e)).
  { intros fuel Hfuel. rewrite drain_all by exact Hfuel. reflexivity. }
  split; [apply Hall; lia|]. split; [exact Hall|]. split.
  - intros yielded r H. rewrite Hall in H by lia. injection H as <- <-.
    apply accumulate_concat.
  - intros options' memory' frags' e' g' schedule Hg'.
    apply streamProcessor_some in Hg'. subst g'.
    rewrite pull_both_prefixes by (left; reflexivity). reflexivity.
Qed.

(** Scenario B: the fragments "Hi " and "there" accumulate to "Hi there". *)
Lemma stream_adapter_passes_through_witness :
  exists g,
    streamProcessor streaming_dialog scenarioA_memory scenarioB = Some g
    /\ drain 3 g [] = Some (["Hi "; "there"], None)
    /\ accumulate ["Hi "; "there"] = "Hi there".
Proof.
  exists {| input := scenarioB; chunkCount := 0; finished := false |}.
  split; [reflexivity|].
  split; [|reflexivity].
  exact (proj1 (stream_adapter_passes_through streaming_dialog
                  scenarioA_memory ["Hi "; "there"] None _ eq_refl)).
Defined.

End StreamFacts.

(** ** Mental processes: what a run adds to the trace *)

Section TraceFacts.
Import Core Engine.

Lemma count_app (f : Event -> bool) (a b : list Event) :
  count f (a ++ b) = (count f a + count f b)%nat.
Proof. unfold count. rewrite filter_app, length_app. reflexivity. Qed.

Lemma adds_weaken {A : Type} (f : Event -> bool) (n n' : nat) (m : M World A) :
  (n <= n')%nat -> adds f n m -> adds f n' m.
Proof.
  intros Hle H w r w' Hm. destruct (H w r w' Hm) as (evs & Ht & Hc).
  exists evs. split; [exact Ht|lia].
Qed.

Lemma adds_bind {A B : Type} (f : Event -> bool) (n k : nat)
  (m : M World A) (g : A -> M World B) :
  adds f n m -> (forall a, adds f k (g a)) -> adds f (n + k) (bind m g).
Proof.
  intros Hm Hg w r w' H. unfold bind in H.
  destruct (m w) as [[a|e|] w1] eqn:Hmw.
  - destruct (Hm w _ _ Hmw) as (evs1 & Ht1 & Hc1).
    destruct (Hg a w1 r w' H) as (evs2 & Ht2 & Hc2).
    exists (evs1 ++ evs2). rewrite Ht2, Ht1, app_assoc, count_app.
    split; [reflexivity|lia].
  - injection H as <- <-.
    destruct (Hm w _ _ Hmw) as (evs1 & Ht1 & Hc1).
    exists evs1. split; [exact Ht1|lia].
  - injection H as <- <-.
    destruct (Hm w _ _ Hmw) as (evs1 & Ht1 & Hc1).
    exists evs1. split; [exact Ht1|lia].
Qed.

Lemma adds_bind0 {A B : Type} (f : Event -> bool)
  (m : M World A) (g : A -> M World B) :
  adds f 0 m -> (forall a, adds f 0 (g a)) -> adds f 0 (bind m g).
Proof. intros Hm Hg. apply (adds_bind f 0 0); assumption. Qed.

Lemma adds_pure {A : Type} (f : Event -> bool) (m : M World A) :
  (forall w, exists r, m w = (r, w)) -> adds f 0 m.
Proof.
  intros H w r w' Hm. destruct (H w) as [r' Hr]. rewrite Hr in Hm.
  injection Hm as <- <-. exists []. rewrite app_nil_r. split; [reflexivity|].
  unfold count. simpl. lia.
Qed.

Lemma adds_ret {A : Type} (f : Event -> bool) (a : A) : adds f 0 (ret a).
Proof. apply adds_pure. intros w. eexists. reflexivity. Qed.

Lemma adds_throw {A : Type} (f : Event -> bool) (e : Error) :
  adds f 0 (@throw World A e).
Proof. apply adds_pure. intros w. eexists. reflexivity. Qed.

Lemma adds_out_of_fuel {A : Type} (f : Event -> bool) :
  adds f 0 (@out_of_fuel World A).
Proof. apply adds_pure. intros w. eexists. reflexivity. Qed.

Lemma adds_await {A : Type} (f : Event -> bool) (p : Settled A) :
  adds f 0 (@await World A p).
Proof. destruct p; [apply adds_ret|apply adds_throw]. Qed.

Lemma adds_get (f : Event -> bool) (key : string) : adds f 0 (get key).
Proof. apply adds_pure. intros w. eexists. reflexivity. Qed.

Lemma adds_now (f : Event -> bool) : adds f 0 now.
Proof. apply adds_pure. intros w. eexists. reflexivity. Qed.

Lemma adds_set (f : Event -> bool) (key : string) (v : JSON) :
  adds f 0 (set key v).
Proof.
  intros w r w' H. unfold set, modify in H. injection H as <- <-.
  exists []. simpl. rewrite app_nil_r. split; [reflexivity|].
  unfold count. simpl. lia.
Qed.

Lemma adds_destructure (f : Event -> bool) (v : Value) :
  adds f 0 (destructure v).
Proof.
  unfold destructure.
  destruct v as [|[]| | |]; first [apply adds_ret|apply adds_throw].
Qed.

Lemma count_one (f : Event -> bool) (e : Event) :
  count f [e] = if f e then 1%nat else 0%nat.
Proof.
  unfold count. simpl. destruct (f e) eqn:He.
  - rewrite filter_cons_True by exact He. reflexivity.
  - rewrite filter_cons_False by congruence. reflexivity.
Qed.

Lemma adds_emit (f : Event -> bool) (e : Event) :
  adds f (if f e then 1 else 0) (modify (emit e)).
Proof.
  intros w r w' H. unfold modify in H. injection H as <- <-.
  exists [e]. split; [reflexivity|]. rewrite count_one. lia.
Qed.

Lemma adds_step (f : Event -> bool) (name : string) (memory : Value)
  (options : StepOptions) :
  adds f (if f (Step name memory options) then 1 else 0)
    (step name memory options).
Proof.
  intros w r w' H. unfold step in H.
  exists [Step name memory options]. rewrite count_one.
  destruct (steps w (trace w) name memory options); simpl in H;
    injection H as <- <-; split; solve [reflexivity|lia].
Qed.

Lemma adds_step0 (f : Event -> bool) (name : string) (memory : Value)
  (options : StepOptions) :
  f (Step name memory options) = false -> adds f 0 (step name memory options).
Proof. intros H. pose proof (adds_step f name memory options) as Hs. rewrite H in Hs. exact Hs. Qed.

Lemma adds_speak (f : Event -> bool) (v : Value) :
  f (Speak v) = false -> adds f 0 (speak v).
Proof. intros H. pose proof (adds_emit f (Speak v)) as Hs. rewrite H in Hs. exact Hs. Qed.

Lemma adds_log (f : Event -> bool) (text : string) (args : list Value) :
  f (Log text args) = false -> adds f 0 (log text args).
Proof. intros H. pose proof (adds_emit f (Log text args)) as Hs. rewrite H in Hs. exact Hs. Qed.

(** The same for termination. *)
Lemma finishes_bind {S A B : Type} (m : M S A) (g : A -> M S B) :
  finishes m -> (forall a, finishes (g a)) -> finishes (bind m g).
Proof.
  intros Hm Hg w. unfold bind.
  destruct (Hm w) as (w1 & [[a Ha]|[e He]]).
  - rewrite Ha. apply Hg.
  - rewrite He. exists w1. right. eauto.
Qed.

Lemma finishes_ret {S A : Type} (a : A) : finishes (@ret S A a).
Proof. intros w. exists w. left. eauto. Qed.

Lemma finishes_throw {S A : Type} (e : Error) : finishes (@throw S A e).
Proof. intros w. exists w. right. eauto. Qed.

Lemma finishes_await {S A : Type} (p : Settled A) :
  finishes (@await S A p).
Proof. destruct p; [apply finishes_ret|apply finishes_throw]. Qed.

Lemma finishes_gets {S A : Type} (f : S -> A) : finishes (gets f).
Proof. intros w. exists w. left. eauto. Qed.

Lemma finishes_modify {S : Type} (f : S -> S) : finishes (modify f).
Proof. intros w. exists (f w). left. eauto. Qed.

Lemma finishes_step (name : string) (memory : Value) (options : StepOptions) :
  finishes (step name memory options).
Proof.
  intros w. unfold step.
  destruct (steps w (trace w) name memory options) as [v|e]; simpl;
    eexists; [left|right]; eauto.
Qed.

Lemma finishes_destructure (v : Value) : finishes (destructure v).
Proof.
  unfold destructure.
  destruct v as [|[]| | |]; first [apply finishes_ret|apply finishes_throw].
Qed.

End TraceFacts.

Ltac quiet :=
  repeat first
    [ apply adds_ret | apply adds_throw | apply adds_await | apply adds_get
    | apply adds_set | apply adds_now | apply adds_destructure
    | apply adds_out_of_fuel
    | apply adds_step0; reflexivity
    | apply adds_speak; reflexivity
    | apply adds_log; reflexivity
    | apply adds_bind0; [|intros ?]
    | match goal with
      | |- adds _ _ (match ?x with _ => _ end) => destruct x
      end ].

Ltac ends :=
  repeat first
    [ apply finishes_ret | apply finishes_throw | apply finishes_await
    | apply finishes_gets | apply finishes_modify | apply finishes_step
    | apply finishes_destructure
    | apply finishes_bind; [|intros ?]
    | match goal with
      | |- finishes (match ?x with _ => _ end) => destruct x
      end ].

(** ** The learning process *)

Section LearningFacts.
Import Core Engine Learning.

Lemma maxQuestions_cases (params : option LearningParams) :
  (depth_of params = Some "exhaustive" /\ maxQuestions params = 10)
  \/ (depth_of params = Some "comprehensive" /\ maxQuestions params = 5)
  \/ (depth_of params <> Some "exhaustive"
      /\ depth_of params <> Some "comprehensive"
      /\ maxQuestions params = 3).
Proof.
  unfold maxQuestions. destruct (depth_of params) as [d|].
  - destruct (String.eqb d "exhaustive") eqn:H1.
    + apply String.eqb_eq in H1. subst d. left. auto.
    + destruct (String.eqb d "comprehensive") eqn:H2.
      * apply String.eqb_eq in H2. subst d. right. left. auto.
      * apply String.eqb_neq in H1, H2. right. right.
        repeat split; congruence.
  - right. right. repeat split; discriminate.
Qed.

Lemma maxQuestions_range (params : option LearningParams) :
  3 <= maxQuestions params <= 10.
Proof.
  destruct (maxQuestions_cases params) as [[_ ->]|[[_ ->]|(_ & _ & ->)]]; lia.
Qed.

(** One turn asks one question. *)
Lemma learning_turn_asks_once (params : option LearningParams)
  (maxQ q : Z) (memory : Value) :
  adds is_question 1 (learning_turn params maxQ q memory).
Proof.
  unfold learning_turn.
  apply (adds_weaken _ (0 + (1 + 0))); [lia|].
  apply adds_bind; [unfold mentalQuery; quiet|intros memory1].
  apply adds_bind.
  - eapply adds_weaken; [|apply adds_step]. simpl. lia.
  - intros answer. unfold perceive, internalMonologue, decision. quiet.
Qed.

Lemma learning_turn_finishes (params : option LearningParams)
  (maxQ q : Z) (memory : Value) :
  finishes (learning_turn params maxQ q memory).
Proof.
  unfold learning_turn, mentalQuery, externalDialog, perceive,
    internalMonologue, decision, speak, log.
  ends.
Qed.

Lemma learning_loop_asks (params : option LearningParams) (maxQ : Z)
  (fuel : nat) :
  forall (q : Z) (memory : Value),
    adds is_question (Z.to_nat (maxQ - q))
      (learning_loop fuel params maxQ q memory).
Proof.
  induction fuel as [|fuel IH]; intros q memory; simpl;
    destruct (q <? maxQ) eqn:Hq;
    try (eapply adds_weaken; [|first [apply adds_ret|apply adds_out_of_fuel]]; lia).
  apply Z.ltb_lt in Hq.
  apply (adds_weaken _ (1 + Z.to_nat (maxQ - (q + 1)))); [lia|].
  apply adds_bind; [apply learning_turn_asks_once|].
  intros [memory' broke]. destruct broke.
  - eapply adds_weaken; [|apply adds_ret]. lia.
  - apply IH.
Qed.

Lemma learning_loop_finishes (params : option LearningParams) (maxQ : Z)
  (fuel : nat) :
  forall (q : Z) (memory : Value),
    (Z.to_nat (maxQ - q) <= fuel)%nat ->
    finishes (learning_loop fuel params maxQ q memory).
Proof.
  induction fuel as [|fuel IH]; intros q memory Hfuel; simpl;
    destruct (q <? maxQ) eqn:Hq; try apply finishes_ret.
  - apply Z.ltb_lt in Hq. lia.
  - apply Z.ltb_lt in Hq.
    apply finishes_bind; [apply learning_turn_finishes|].
    intros [memory' broke]. destruct broke; [apply finishes_ret|].
    apply IH. lia.
Qed.

Lemma bind_ext {S A B : Type} (m : M S A) (g g' : A -> M S B) (s : S) :
  (forall a s', g a s' = g' a s') -> bind m g s = bind m g' s.
Proof.
  intros H. unfold bind. destruct (m s) as [[a|e|] s']; auto.
Qed.

(** With enough fuel the loop does not depend on the fuel. *)
Lemma learning_loop_fuel (params : option LearningParams) (maxQ : Z)
  (fuel : nat) :
  forall (fuel' : nat) (q : Z) (memory : Value) (w : World),
    (Z.to_nat (maxQ - q) <= fuel)%nat ->
    (Z.to_nat (maxQ - q) <= fuel')%nat ->
    learning_loop fuel params maxQ q memory w
    = learning_loop fuel' params maxQ q memory w.
Proof.
  induction fuel as [|fuel IH]; intros fuel' q memory w Hf Hf';
    destruct fuel' as [|fuel']; simpl;
    destruct (q <? maxQ) eqn:Hq; try reflexivity;
    apply Z.ltb_lt in Hq; try lia.
  apply bind_ext. intros [memory' broke] w'.
  destruct broke; [reflexivity|]. apply IH; lia.
Qed.

Lemma learningProcess_asks (fuel : nat) (args : ProcessArgs LearningParams) :
  adds is_question (Z.to_nat (maxQuestions (params args)))
    (learningProcess_body fuel args).
Proof.
  unfold learningProcess_body.
  apply (adds_weaken _ (0 + (Z.to_nat (maxQuestions (params args) - 0) + 0)));
    [lia|].
  apply adds_bind; [unfold internalMonologue; quiet|intros memory].
  apply adds_bind; [apply learning_loop_asks|].
  intros [memory' asked]. unfold mentalQuery, externalDialog. quiet.
Qed.

Lemma learningProcess_finishes (fuel : nat)
  (args : ProcessArgs LearningParams) :
  (Z.to_nat (maxQuestions (params args)) <= fuel)%nat ->
  finishes (learningProcess_body fuel args).
Proof.
  intros Hfuel. unfold learningProcess_body.
  apply finishes_bind; [apply finishes_step|intros memory].
  apply finishes_bind;
    [apply learning_loop_finishes; rewrite Z.sub_0_r; exact Hfuel|].
  intros [memory' asked].
  unfold mentalQuery, externalDialog, get, set, now, speak, log. ends.
Qed.

Lemma bind_ext_l {S A B : Type} (m m' : M S A) (g : A -> M S B) (s : S) :
  m s = m' s -> bind m g s = bind m' g s.
Proof. intros H. unfold bind. rewrite H. reflexivity. Qed.

Lemma learningProcess_fuel (fuel fuel' : nat)
  (args : ProcessArgs LearningParams) (w : World) :
  (Z.to_nat (maxQuestions (params args)) <= fuel)%nat ->
  (Z.to_nat (maxQuestions (params args)) <= fuel')%nat ->
  learningProcess_body fuel args w = learningProcess_body fuel' args w.
Proof.
  intros Hf Hf'. unfold learningProcess_body. cbv zeta.
  apply bind_ext. intros memory w1.
  apply bind_ext_l.
  apply learning_loop_fuel; rewrite Z.sub_0_r; assumption.
Qed.

(** C10.  The bound of the loop is 10 for the depth "exhaustive", 5 for
    "comprehensive" and 3 otherwise.  Run with that much fuel or more,
    the learning process returns or throws, whatever the steps do; the
    result is the same for every such fuel; and the run puts at most that
    many questions to the user. *)
Theorem learning_loop_is_bounded (extra : nat)
  (args : ProcessArgs LearningParams) (w : World) :
  let bound := maxQuestions (params args) in
  let run := learningProcess_body (Z.to_nat bound + extra) args w in
  ((depth_of (params args) = Some "exhaustive" /\ bound = 10)
   \/ (depth_of (params args) = Some "comprehensive" /\ bound = 5)
   \/ (depth_of (params args) <> Some "exhaustive"
       /\ depth_of (params args) <> Some "comprehensive" /\ bound = 3))
  /\ ((exists v, run.1 = Returned v) \/ (exists e, run.1 = Thrown e))
  /\ run = learningProcess_body (Z.to_nat bound) args w
  /\ exists evs,
       trace run.2 = trace w ++ evs
       /\ Z.of_nat (questions evs) <= bound.
Proof.
  intros bound run. split; [apply maxQuestions_cases|]. split; [|split].
  - destruct (learningProcess_finishes (Z.to_nat bound + extra) args
                ltac:(subst bound; lia) w) as (w' & [[v H]|[e H]]);
      subst run; rewrite H; simpl; eauto.
  - subst run bound. apply learningProcess_fuel; lia.
  - destruct (learningProcess_asks (Z.to_nat bound + extra) args w run.1 run.2)
      as (evs & Ht & Hc).
    { subst run. destruct (learningProcess_body _ args w). reflexivity. }
    exists evs. split; [exact Ht|].
    pose proof (maxQuestions_range (params args)).
    unfold questions. unfold count in Hc. subst bound. lia.
Qed.

End LearningFacts.

(** ** The initial process and its branches *)

Section InitialFacts.
Import Core Engine Initial.

Lemma learning_loop_invokes_nothing (params : option Learning.LearningParams)
  (maxQ : Z) (fuel : nat) :
  forall (q : Z) (memory : Value),
    adds is_invoke 0 (Learning.learning_loop fuel params maxQ q memory).
Proof.
  induction fuel as [|fuel IH]; intros q memory; simpl;
    destruct (q <? maxQ); try apply adds_ret; try apply adds_out_of_fuel.
  apply adds_bind0.
  - unfold Learning.learning_turn, mentalQuery, externalDialog, perceive,
      internalMonologue, decision. quiet.
  - intros [memory' broke]. destruct broke; [apply adds_ret|apply IH].
Qed.

Lemma learning_invokes_nothing (fuel : nat)
  (args : ProcessArgs Learning.LearningParams) :
  adds is_invoke 0 (Learning.learningProcess_body fuel args).
Proof.
  unfold Learning.learningProcess_body. cbv zeta.
  apply adds_bind0; [unfold internalMonologue; quiet|intros memory].
  apply adds_bind0; [apply learning_loop_invokes_nothing|].
  intros [memory' asked]. unfold mentalQuery, externalDialog. quiet.
Qed.

Lemma teaching_invokes_nothing (args : ProcessArgs Teaching.TeachingParams) :
  adds is_invoke 0 (Teaching.teachingProcess_body args).
Proof.
  unfold Teaching.teachingProcess_body, internalMonologue, externalDialog,
    brainstorm, decision, reflect.
  cbv zeta. quiet.
Qed.

Lemma emotional_invokes_nothing (args : ProcessArgs Emotional.EmotionalParams) :
  adds is_invoke 0 (Emotional.emotionalProcess_body args).
Proof.
  unfold Emotional.emotionalProcess_body, internalMonologue, externalDialog,
    perceive, mentalQuery, reflect.
  cbv zeta. quiet.
Qed.

Lemma exploration_invokes_nothing (workingMemory : Value) :
  adds is_invoke 0 (exploration workingMemory).
Proof. unfold exploration, mentalQuery, externalDialog. quiet. Qed.

Lemma prelude_invokes_nothing (initialMemory : WorkingMemory) :
  adds is_invoke 0 (scholar_prelude initialMemory).
Proof.
  unfold scholar_prelude, internalMonologue, externalDialog, mentalQuery,
    decision.
  cbv zeta. quiet.
Qed.

Lemma invocations_app (a b : list Event) :
  invocations (a ++ b) = invocations a ++ invocations b.
Proof. unfold invocations. apply filter_app. Qed.

Lemma quiet_run {A : Type} (m : M World A) (w w' : World) (r : Outcome A) :
  adds is_invoke 0 m -> m w = (r, w') ->
  invocations (trace w') = invocations (trace w).
Proof.
  intros Hm H. destruct (Hm w r w' H) as (evs & Ht & Hc).
  rewrite Ht, invocations_app.
  unfold count in Hc. fold (invocations evs) in Hc.
  destruct (invocations evs); [apply app_nil_r|simpl in Hc; lia].
Qed.

Lemma strict_eq_true (v : Value) (s : string) :
  strict_eq v s = true -> v = str s.
Proof.
  destruct v as [|[]| | |]; simpl; try discriminate.
  intros H. apply String.eqb_eq in H. subst. reflexivity.
Qed.

(** A subprocess called in tail position: the parent's run is the
    child's run, and the trace gains exactly that invocation. *)
Lemma invoked_alone {P : Type} (child : MentalProcess P)
  (args : ProcessArgs P) (text : string) (w0 w1 : World) :
  adds is_invoke 0 (body child args) ->
  invocations (trace w1) = invocations (trace w0) ->
  let run := (do! log text [] in invokeMentalProcess child args) w1 in
  run = body child args (emit (Invoke (processName child)) (emit (Log text []) w1))
  /\ invocations (trace run.2)
     = invocations (trace w0) ++ [Invoke (processName child)].
Proof.
  intros Hq Hw run. split; [reflexivity|].
  subst run.
  change ((do! log text [] in invokeMentalProcess child args) w1)
    with (body child args
            (emit (Invoke (processName child)) (emit (Log text []) w1))).
  destruct (body child args
              (emit (Invoke (processName child)) (emit (Log text []) w1)))
    as [r w2] eqn:Hrun.
  cbn [snd]. rewrite (quiet_run _ _ _ _ Hq Hrun). simpl.
  rewrite !invocations_app, Hw. simpl.
  rewrite <- !app_assoc. reflexivity.
Qed.


End InitialFacts.

Section InitialExample.
Import Core Engine Initial.


End InitialExample.

(** ** The runners: what a method calls and keeps *)

Section RunnerFacts.
Import Core LocalRunner.

Lemma phase_still {A : Type} (names : list string) (m : M Runner A) :
  (forall r, exists res r',
      m r = (res, r') /\ calls r' = calls r
      /\ (is_Some (workingMemory r) -> is_Some (workingMemory r'))
      /\ ((exists a, res = Returned a) \/ (exists e, res = Thrown e))) ->
  phase names m.
Proof.
  intros H r res r' Hm. destruct (H r) as (res0 & r0 & Hr & Hc & Hw & Ho).
  rewrite Hr in Hm. injection Hm as <- <-.
  split; [|split; assumption].
  exists []. rewrite app_nil_r. split; [exact Hc|constructor].
Qed.

Lemma phase_ret {A : Type} (names : list string) (a : A) :
  phase names (ret a).
Proof. apply phase_still. intros r. exists (Returned a), r. eauto 10. Qed.

Lemma phase_throw {A : Type} (names : list string) (e : Error) :
  phase names (@throw Runner A e).
Proof. apply phase_still. intros r. exists (Thrown e), r. eauto 10. Qed.

Lemma phase_await {A : Type} (names : list string) (p : Settled A) :
  phase names (@await Runner A p).
Proof. destruct p; [apply phase_ret|apply phase_throw]. Qed.

Lemma phase_gets {A : Type} (names : list string) (f : Runner -> A) :
  phase names (gets f).
Proof. apply phase_still. intros r. exists (Returned (f r)), r. eauto 10. Qed.

Lemma phase_modify (names : list string) (f : Runner -> Runner) :
  (forall r, calls (f r) = calls r) ->
  (forall r, is_Some (workingMemory r) -> is_Some (workingMemory (f r))) ->
  phase names (modify f).
Proof.
  intros Hc Hw. apply phase_still. intros r.
  exists (Returned tt), (f r). eauto 10.
Qed.

Lemma phase_bind {A B : Type} (names : list string) (m : M Runner A)
  (g : A -> M Runner B) :
  phase names m -> (forall a, phase names (g a)) -> phase names (bind m g).
Proof.
  intros Hm Hg r res r' H. unfold bind in H.
  destruct (m r) as [[a|e|] r1] eqn:Hmr;
    destruct (Hm r _ _ Hmr) as ((cs1 & Hc1 & Hf1) & Hw1 & Ho1).
  - destruct (Hg a r1 res r' H) as ((cs2 & Hc2 & Hf2) & Hw2 & Ho2).
    split; [|split; [intros Hs; apply Hw2, Hw1, Hs|exact Ho2]].
    exists (cs1 ++ cs2). rewrite Hc2, Hc1, app_assoc.
    split; [reflexivity|apply Forall_app; auto].
  - injection H as <- <-.
    split; [|split; [exact Hw1|right; eauto]]. exists cs1. auto.
  - destruct Ho1 as [[a Ha]|[e He]]; discriminate.
Qed.

Lemma phase_try_catch {A : Type} (names : list string) (m : M Runner A)
  (h : Error -> M Runner A) :
  phase names m -> (forall e, phase names (h e)) ->
  phase names (try_catch m h).
Proof.
  intros Hm Hh r res r' H. unfold try_catch in H.
  destruct (m r) as [[a|e|] r1] eqn:Hmr;
    destruct (Hm r _ _ Hmr) as ((cs1 & Hc1 & Hf1) & Hw1 & Ho1).
  - injection H as <- <-. split; [|split; auto]. exists cs1. auto.
  - destruct (Hh e r1 res r' H) as ((cs2 & Hc2 & Hf2) & Hw2 & Ho2).
    split; [|split; [intros Hs; apply Hw2, Hw1, Hs|exact Ho2]].
    exists (cs1 ++ cs2). rewrite Hc2, Hc1, app_assoc.
    split; [reflexivity|apply Forall_app; auto].
  - destruct Ho1 as [[a Ha]|[e He]]; discriminate.
Qed.

Lemma phase_weaken {A : Type} (names names' : list string) (m : M Runner A) :
  names ⊆ names' -> phase names m -> phase names' m.
Proof.
  intros Hsub Hm r res r' H.
  destruct (Hm r res r' H) as ((cs & Hc & Hf) & Hw & Ho).
  split; [|split; auto]. exists cs. split; [exact Hc|].
  eapply Forall_impl; [exact Hf|]. intros c Hcn. apply Hsub. exact Hcn.
Qed.

Lemma phase_require_memory (names : list string) : phase names require_memory.
Proof.
  apply phase_still. intros r. unfold require_memory.
  destruct (workingMemory r) as [wm|] eqn:Hw.
  - exists (Returned wm), r. eauto 10.
  - exists (Thrown TypeError), r.
    repeat split; eauto. intros [? ?]. discriminate.
Qed.

Lemma phase_call (names : list string) (name : string)
  (opts : Engine.StepOptions) :
  name ∈ names -> phase names (call name opts).
Proof.
  intros Hin. unfold call. apply phase_bind; [apply phase_require_memory|].
  intros wm r res r' H.
  set (c := {| callee := name; given := wm; options := opts |}) in *.
  assert (Hr' : r' = add_call c r /\
                ((exists a, res = Returned a) \/ (exists e, res = Thrown e))).
  { destruct (behaviour (host r) (calls r) c); simpl in H;
      injection H as <- <-; eauto. }
  destruct Hr' as [-> Ho]. split; [|split; auto].
  exists [c]. split; [reflexivity|]. constructor; [exact Hin|constructor].
Qed.

Lemma phase_set_workingMemory (names : list string) (wm : WorkingMemory) :
  phase names (modify (set_workingMemory wm)).
Proof. apply phase_modify; intros r; simpl; eauto. Qed.

Lemma phase_ensureEntityName (names : list string) :
  phase names ensureEntityName.
Proof.
  unfold ensureEntityName. apply phase_bind; [apply phase_require_memory|].
  intros wm. destruct (entityName wm); [apply phase_ret|].
  apply phase_bind; [apply phase_gets|]. intros name.
  apply phase_set_workingMemory.
Qed.

Lemma phase_has (names : list string) (name : string) : phase names (has name).
Proof. apply phase_gets. Qed.

Lemma phase_emit_speaks (names : list string) (content : option JSON) :
  phase names (emit_speaks content).
Proof. apply phase_modify; intros r; simpl; auto. Qed.

Lemma phase_set (names : list string) (key : string) (value : JSON) :
  phase names (set key value).
Proof.
  unfold set, saveMemoriesToFile. apply phase_bind.
  - apply phase_modify; intros r; simpl; auto.
  - intros _. apply phase_modify; intros r; destruct (writable (disk r));
      simpl; auto.
Qed.

Lemma phase_setSoulMemory (names : list string) (key : string) (value : JSON) :
  phase names (DemoRunner.setSoulMemory key value).
Proof. apply phase_modify; intros r; simpl; auto. Qed.

Lemma phase_set_isProcessing (names : list string) (b : bool) :
  phase names (modify (set_isProcessing b)).
Proof. apply phase_modify; intros r; simpl; auto. Qed.

End RunnerFacts.

Ltac listed :=
  repeat first [apply list_elem_of_here | apply list_elem_of_further].

Ltac runs :=
  repeat first
    [ apply phase_ret | apply phase_throw | apply phase_await
    | apply phase_require_memory | apply phase_ensureEntityName
    | apply phase_has | apply phase_emit_speaks | apply phase_set
    | apply phase_setSoulMemory | apply phase_set_workingMemory
    | apply phase_set_isProcessing
    | apply phase_gets
    | apply phase_call; solve [listed]
    | apply phase_bind; [|intros ?]
    | apply phase_try_catch; [|intros ?]
    | match goal with
      | |- phase _ (match ?x with _ => _ end) => destruct x
      end ].

(** ** The runners never throw to the host *)

Section HostFacts.
Import Core LocalRunner.

Lemma pre_decision_among_all : pre_decision_steps ⊆ all_steps.
Proof.
  intros x Hx. unfold pre_decision_steps in Hx.
  repeat (apply elem_of_cons in Hx as [->|Hx]; [unfold all_steps; listed|]).
  inversion Hx.
Qed.

Lemma perceptionPhase_phase : phase pre_decision_steps DemoRunner.perceptionPhase.
Proof.
  unfold DemoRunner.perceptionPhase, DemoRunner.run_step_if_loaded,
    pre_decision_steps.
  runs.
Qed.

Lemma memoryPhase_phase : phase pre_decision_steps DemoRunner.memoryPhase.
Proof.
  unfold DemoRunner.memoryPhase, DemoRunner.run_step_if_loaded,
    DemoRunner.getSoulMemory, pre_decision_steps.
  runs.
Qed.

Lemma handleCognitiveError_phase (names : list string) :
  phase names DemoRunner.handleCognitiveError.
Proof. unfold DemoRunner.handleCognitiveError. runs. Qed.

Lemma generateResponse_phase (instructions : string) :
  phase all_steps (DemoRunner.generateResponse instructions).
Proof.
  unfold DemoRunner.generateResponse, all_steps. runs.
Qed.

Lemma demo_runCognitiveProcess_phase :
  phase all_steps DemoRunner.runCognitiveProcess.
Proof.
  unfold DemoRunner.runCognitiveProcess.
  apply phase_try_catch; [|intros e; apply handleCognitiveError_phase].
  apply phase_bind;
    [eapply phase_weaken; [apply pre_decision_among_all|];
     apply perceptionPhase_phase|intros _].
  apply phase_bind;
    [eapply phase_weaken; [apply pre_decision_among_all|];
     apply memoryPhase_phase|intros _].
  apply phase_bind.
  { unfold DemoRunner.decisionPhase, DemoRunner.run_step_if_loaded, all_steps.
    runs. }
  intros interactionMode. apply phase_bind.
  { unfold DemoRunner.subprocessPhase, DemoRunner.learningSubprocess,
      DemoRunner.teachingSubprocess, DemoRunner.emotionalSupportSubprocess,
      DemoRunner.brainstormingSubprocess, DemoRunner.explorationSubprocess,
      DemoRunner.run_step_if_loaded.
    repeat match goal with
           | |- phase _ (if ?b then _ else _) => destruct b
           end;
      (apply phase_bind; [unfold all_steps; runs|intros ?;
                          apply generateResponse_phase]). }
  intros _. unfold DemoRunner.reflectionPhase, DemoRunner.run_step_if_loaded,
    DemoRunner.extractAndStoreUserInfo, DemoRunner.getSoulMemory, all_steps.
  runs.
Qed.

Lemma learn_facts_phase (names : list string) (text : string)
  (patterns : list RegExp.regex) :
  phase names (learn_facts patterns text).
Proof.
  induction patterns as [|p rest IH]; simpl; [apply phase_ret|].
  apply phase_bind; [|intros _; exact IH].
  unfold get. runs.
Qed.

Lemma local_runCognitiveProcess_phase :
  phase all_steps LocalRunner.runCognitiveProcess.
Proof.
  unfold LocalRunner.runCognitiveProcess, get.
  apply phase_bind; [apply phase_gets|intros userName].
  apply phase_bind; [apply phase_gets|intros storedCount].
  apply phase_bind; [apply phase_gets|intros storedFacts].
  apply phase_bind.
  { apply phase_bind; [apply phase_has|intros loaded].
    destruct loaded; [|apply phase_ret].
    apply phase_try_catch; [|intros e; apply phase_ret].
    unfold reflection_step, learn_name, all_steps.
    apply phase_bind; [runs|intros [newMemory thought]].
    apply phase_bind; [runs|intros _].
    apply phase_bind; [runs|intros _].
    apply phase_bind; [runs|intros wm].
    apply phase_bind; [runs|intros _].
    destruct (lastUserMessage wm); [|apply phase_ret].
    destruct (nonempty _); [apply learn_facts_phase|apply phase_ret]. }
  intros _.
  apply phase_bind; [apply phase_has|intros loaded].
  destruct loaded; [|apply phase_ret].
  apply phase_try_catch.
  - unfold response_step, now, get, all_steps. runs.
  - intros e. unfold response_fallback. runs.
Qed.

(** A method whose body is wrapped in [try { } catch { log } finally { }]
    returns normally. *)
Lemma guarded_returns (names : list string) (body : M Runner unit)
  (after : Runner -> Runner) (r : Runner) :
  phase names body ->
  exists r',
    try_finally (try_catch body (fun _ => ret tt)) (modify after) r
    = (Returned tt, r').
Proof.
  intros Hb. unfold try_finally, try_catch, modify.
  destruct (body r) as [[[]|e|] r1] eqn:Hr; simpl; eauto.
  destruct (Hb r _ _ Hr) as (_ & _ & [[a Ha]|[e He]]); discriminate.
Qed.

Lemma bind_gets {S A B : Type} (f : S -> A) (k : A -> M S B) (s : S) :
  bind (gets f) k s = k (f s) s.
Proof. reflexivity. Qed.

Lemma bind_modify {S B : Type} (f : S -> S) (k : unit -> M S B) (s : S) :
  bind (modify f) k s = k tt (f s).
Proof. reflexivity. Qed.

Lemma guarded_method (names : list string) (body : M Runner unit)
  (r : Runner) :
  phase names body ->
  ((let! busy := gets isProcessing in
    if busy : bool then ret tt
    else
      do! modify (set_isProcessing true) in
      try_finally (try_catch body (fun _ => ret tt))
        (modify (set_isProcessing false))) r).1
  = Returned tt.
Proof.
  intros Hb. rewrite bind_gets.
  destruct (isProcessing r); [reflexivity|]. rewrite bind_modify.
  destruct (guarded_returns names body (set_isProcessing false)
              (set_isProcessing true r) Hb) as [r' ->].
  reflexivity.
Qed.

Lemma demo_processMessage_returns (message : string) (r : Runner) :
  (DemoRunner.processMessage message r).1 = Returned tt.
Proof.
  apply (guarded_method all_steps).
  apply phase_bind; [apply phase_require_memory|intros wm].
  apply phase_bind; [apply phase_set_workingMemory|intros _].
  apply phase_bind; [apply phase_ensureEntityName|intros _].
  apply demo_runCognitiveProcess_phase.
Qed.

Lemma local_processMessage_returns (message : string) (r : Runner) :
  (LocalRunner.processMessage message r).1 = Returned tt.
Proof.
  apply (guarded_method all_steps).
  apply phase_bind; [apply phase_require_memory|intros wm].
  apply phase_bind; [apply phase_set_workingMemory|intros _].
  apply phase_bind; [apply phase_ensureEntityName|intros _].
  apply local_runCognitiveProcess_phase.
Qed.

End HostFacts.

(** ** A failure before the decision *)

Section FailureFacts.
Import Core LocalRunner.

Lemma handleCognitiveError_commits (r : Runner) (wm : WorkingMemory) :
  workingMemory r = Some wm ->
  exists r',
    DemoRunner.handleCognitiveError r = (Returned tt, r')
    /\ calls r' = calls r
    /\ spoken r' = spoken r ++ [Some (JStr DemoRunner.fallbackResponse)]
    /\ workingMemory r'
       = Some (define_entityName (soulName r)
                 (withMemory wm [plain Assistant DemoRunner.fallbackResponse]))
    /\ soulMemoryStore r' = soulMemoryStore r.
Proof.
  intros Hwm. unfold DemoRunner.handleCognitiveError, emit_speaks.
  rewrite bind_modify. unfold bind at 1. unfold require_memory at 1.
  simpl. rewrite Hwm. rewrite bind_modify.
  unfold ensureEntityName, bind, require_memory, gets, modify. simpl.
  eexists. split; [reflexivity|]. simpl. auto.
Qed.

Lemma thrown_before (A : Type) (first second : M Runner unit)
  (rest : M Runner A) (r r1 : Runner) (e : Error) :
  (do! first in second) r = (Thrown e, r1) ->
  (do! first in do! second in rest) r = (Thrown e, r1).
Proof.
  unfold bind.
  destruct (first r) as [[[]|e1|] r2];
    [|intros H; injection H as <- <-; reflexivity|discriminate].
  destruct (second r2) as [[[]|e2|] r3];
    [discriminate|intros H; injection H as <- <-; reflexivity|discriminate].
Qed.

(** C5, amended.  When a step of the pre-decision chain (the perception
    and memory phases) fails in [runCognitiveProcess] of the phased
    runner, no step is called after it: neither the decision nor any
    step of a branch.  The failure is not passed on: the [catch] of
    [runCognitiveProcess] speaks the fixed fallback reply, commits it as
    an assistant entry and returns normally.  And [processMessage] of
    either runner returns normally whatever its steps do. *)
Theorem failure_before_decision_is_caught (r r1 : Runner) (e : Error) :
  is_Some (workingMemory r) ->
  (do! DemoRunner.perceptionPhase in DemoRunner.memoryPhase) r
  = (Thrown e, r1) ->
  let done := DemoRunner.runCognitiveProcess r in
  done = DemoRunner.handleCognitiveError r1
  /\ done.1 = Returned tt
  /\ calls done.2 = calls r1
  /\ (exists cs, calls r1 = calls r ++ cs
                 /\ Forall (fun c => callee c ∈ pre_decision_steps) cs
                 /\ "decision" ∉ map callee cs)
  /\ spoken done.2 = spoken r1 ++ [Some (JStr DemoRunner.fallbackResponse)]
  /\ (exists wm,
        workingMemory r1 = Some wm
        /\ workingMemory done.2
           = Some (define_entityName (soulName r1)
                     (withMemory wm
                        [plain Assistant DemoRunner.fallbackResponse])))
  /\ (forall message r0,
        (DemoRunner.processMessage message r0).1 = Returned tt
        /\ (LocalRunner.processMessage message r0).1 = Returned tt).
Proof.
  intros Hmem Hpre done.
  assert (Hphase : phase pre_decision_steps
                     (do! DemoRunner.perceptionPhase in DemoRunner.memoryPhase)).
  { apply phase_bind; [apply perceptionPhase_phase|].
    intros _. apply memoryPhase_phase. }
  destruct (Hphase r _ _ Hpre) as ((cs & Hcs & Hall) & Hkeep & _).
  destruct (Hkeep Hmem) as [wm Hwm].
  destruct (handleCognitiveError_commits r1 wm Hwm)
    as (r' & Hh & Hc & Hs & Hw & _).
  assert (Hdone : done = DemoRunner.handleCognitiveError r1).
  { subst done. unfold DemoRunner.runCognitiveProcess, try_catch.
    rewrite (thrown_before _ _ _ _ r r1 e Hpre). reflexivity. }
  rewrite Hdone, Hh. simpl.
  repeat split; auto.
  - exists cs. repeat split; auto.
    intros Hin. apply list_elem_of_fmap in Hin as (c & Hd & Hc').
    rewrite Forall_forall in Hall. specialize (Hall c Hc').
    rewrite <- Hd in Hall. unfold pre_decision_steps in Hall.
    repeat (apply elem_of_cons in Hall as [Hall|Hall]; [discriminate|]).
    inversion Hall.
  - exists wm. auto.
  - apply demo_processMessage_returns.
  - apply local_processMessage_returns.
Qed.

Lemma listening_runner_fails_at_once :
  (do! DemoRunner.perceptionPhase in DemoRunner.memoryPhase) listening_runner
  = (Thrown ProcessorError,
     ((do! DemoRunner.perceptionPhase in DemoRunner.memoryPhase)
        listening_runner).2).
Proof. vm_compute. reflexivity. Qed.

Lemma failure_before_decision_is_caught_witness :
  is_Some (workingMemory listening_runner)
  /\ (DemoRunner.runCognitiveProcess listening_runner).1 = Returned tt
  /\ DemoRunner.called (DemoRunner.runCognitiveProcess listening_runner).2
     = ["perceive"].
Proof.
  assert (Hmem : is_Some (workingMemory listening_runner))
    by (eexists; vm_compute; reflexivity).
  split; [exact Hmem|].
  destruct (failure_before_decision_is_caught listening_runner _ _ Hmem
              listening_runner_fails_at_once) as (_ & Hret & _).
  split; [exact Hret|]. vm_compute. reflexivity.
Defined.

(** C5 fails as stated: the failure of the first step does not reach the
    host.  [runCognitiveProcess], and [processMessage] around it, return
    normally, with the fallback reply spoken and committed. *)
Lemma failure_is_consumed_by_the_runner :
  (DemoRunner.perceptionPhase listening_runner).1 = Thrown ProcessorError
  /\ (DemoRunner.runCognitiveProcess listening_runner).1 = Returned tt
  /\ spoken (DemoRunner.runCognitiveProcess listening_runner).2
     = [Some (JStr DemoRunner.fallbackResponse)]
  /\ (DemoRunner.processMessage "Hello"
        (DemoRunner.initialize
           (DemoRunner.new_LocalSoulRunner "Scholar" failing_host)).2).1
     = Returned tt.
Proof. vm_compute. repeat split; reflexivity. Qed.

End FailureFacts.

(** ** The soul memory store and its file *)

Section StoreFacts.
Import Core LocalRunner.

Lemma set_result (key : string) (value : JSON) (r : Runner) :
  set key value r
  = (Returned tt,
     (saveMemoriesToFile
        (set_store (<[key := value]> (soulMemoryStore r)) r)).2).
Proof. reflexivity. Qed.

Lemma store_after_save (r : Runner) :
  soulMemoryStore (saveMemoriesToFile r).2 = soulMemoryStore r.
Proof.
  unfold saveMemoriesToFile, modify. simpl.
  destruct (writable (disk r)); reflexivity.
Qed.

Lemma saved_when_writable (r : Runner) :
  writable (disk r) = true ->
  (saveMemoriesToFile r).2
  = set_disk
      {| memoryFile := Some (ObjectText (as_object (soulMemoryStore r)));
         writable := true |} r.
Proof. intros Hw. unfold saveMemoriesToFile, modify. simpl. rewrite Hw. reflexivity. Qed.

Lemma restart_reads_file (name : string) (members : gmap string JSON)
  (w : bool) (h : Host) :
  soulMemoryStore
    (new_LocalSoulRunner name
       {| memoryFile := Some (ObjectText members); writable := w |} h)
  = members.
Proof.
  unfold new_LocalSoulRunner, loadMemoriesFromFile, modify. simpl.
  apply map_eq. intros k. rewrite lookup_union, lookup_empty.
  destruct (members !! k); reflexivity.
Qed.

(** C6, amended.  [set(k, v)] always returns normally, and [get(k)] then
    yields [v].  Before it returns it writes the whole store to the
    memory file; when that write succeeds, a runner started afresh on the
    same disk reads [v] under [k], for every key but ["__proto__"], and
    with it every other entry of the store.  When the write throws, the
    error is caught and logged: [set] still returns normally and the disk
    is as it was. *)
Theorem soul_memory_round_trip (r : Runner) (key : string) (value : JSON) :
  let r' := (set key value r).2 in
  (set key value r).1 = Returned tt
  /\ get key r' = (Returned (Some value), r')
  /\ (writable (disk r) = true ->
        memoryFile (disk r')
        = Some (ObjectText (as_object (<[key := value]> (soulMemoryStore r))))
        /\ forall h,
             let restarted := new_LocalSoulRunner (soulName r) (disk r') h in
             (key <> "__proto__" ->
                get key restarted = (Returned (Some value), restarted))
             /\ (forall k, k <> "__proto__" ->
                   soulMemoryStore restarted !! k = soulMemoryStore r' !! k))
  /\ (writable (disk r) = false -> disk r' = disk r).
Proof.
  intros r'. subst r'. rewrite set_result. cbn [fst snd].
  split; [reflexivity|]. split.
  - unfold get, gets. rewrite store_after_save. cbn [soulMemoryStore set_store].
    rewrite lookup_insert_eq. reflexivity.
  - split.
    + intros Hw.
      rewrite (saved_when_writable
                 (set_store (<[key := value]> (soulMemoryStore r)) r) Hw).
      cbn [disk set_disk memoryFile soulMemoryStore set_store].
      split; [reflexivity|].
      intros h. unfold get, gets. rewrite restart_reads_file. split.
      * intros Hk. unfold as_object.
        rewrite lookup_delete_ne by congruence.
        rewrite lookup_insert_eq. reflexivity.
      * intros k Hk. unfold as_object.
        rewrite lookup_delete_ne by congruence. reflexivity.
    + intros Hw. unfold saveMemoriesToFile, modify.
      cbn [snd disk set_store]. rewrite Hw. reflexivity.
Qed.

(** The round trip of the spec: ["userName"] set to ["Ada"], a restart,
    and [get("userName")]. *)
Lemma soul_memory_round_trip_witness :
  let r := new_LocalSoulRunner "Scholar" fresh_disk quiet_host in
  let r' := (set "userName" (JStr "Ada") r).2 in
  let restarted := new_LocalSoulRunner "Scholar" (disk r') quiet_host in
  writable (disk r) = true
  /\ (get "userName" restarted).1 = Returned (Some (JStr "Ada")).
Proof.
  intros r r' restarted. split; [reflexivity|].
  destruct (soul_memory_round_trip r "userName" (JStr "Ada"))
    as (_ & _ & Hdisk & _).
  destruct (Hdisk eq_refl) as [_ Hrestart].
  destruct (Hrestart quiet_host) as [Hget _].
  subst restarted r'. fold r. change (soulName r) with "Scholar" in Hget.
  rewrite Hget by discriminate. reflexivity.
Defined.

(** C6 fails as stated: on a disk that refuses the write, [set] returns
    normally, and after a restart the value is gone. *)
Lemma set_survives_no_restart_on_a_locked_disk :
  let r := new_LocalSoulRunner "Scholar" locked_disk quiet_host in
  let r' := (set "userName" (JStr "Ada") r).2 in
  let restarted := new_LocalSoulRunner "Scholar" (disk r') quiet_host in
  (set "userName" (JStr "Ada") r).1 = Returned tt
  /\ (get "userName" r').1 = Returned (Some (JStr "Ada"))
  /\ (get "userName" restarted).1 = Returned None.
Proof. vm_compute. repeat split; reflexivity. Qed.

(** The key ["__proto__"] never reaches the memory file.  [set] keeps it
    in the store of the running process, but the object that
    [saveMemoriesToFile] serialises has no such property of its own, so a
    runner started afresh on the written file does not find it. *)
Theorem proto_key_is_not_saved (r : Runner) (value : JSON) (h : Host) :
  writable (disk r) = true ->
  let r' := (set "__proto__" value r).2 in
  let restarted := new_LocalSoulRunner (soulName r) (disk r') h in
  (get "__proto__" r').1 = Returned (Some value)
  /\ (get "__proto__" restarted).1 = Returned None.
Proof.
  intros Hw r'. subst r'. rewrite set_result. cbn [fst snd]. split.
  - unfold get, gets. rewrite store_after_save. cbn [fst soulMemoryStore set_store].
    rewrite lookup_insert_eq. reflexivity.
  - rewrite (saved_when_writable
               (set_store (<["__proto__" := value]> (soulMemoryStore r)) r) Hw).
    cbn [disk set_disk]. unfold get, gets. rewrite restart_reads_file.
    cbn [fst]. unfold as_object. rewrite lookup_delete_eq. reflexivity.
Qed.

Lemma proto_key_is_not_saved_witness :
  let r := new_LocalSoulRunner "Scholar" fresh_disk quiet_host in
  let r' := (set "__proto__" (JStr "Ada") r).2 in
  let restarted := new_LocalSoulRunner "Scholar" (disk r') quiet_host in
  writable (disk r) = true
  /\ (get "__proto__" r').1 = Returned (Some (JStr "Ada"))
  /\ (get "__proto__" restarted).1 = Returned None.
Proof.
  intros r r' restarted. split; [reflexivity|].
  exact (proto_key_is_not_saved r (JStr "Ada") quiet_host eq_refl).
Defined.

End StoreFacts.

(** ** The entity name *)

Section IdentityFacts.
Import Core LocalRunner.

(** C8, amended.  [withMemory] carries [soulName] forward, but not the
    [entityName] property, which the runner defines on the object it
    holds: the clone has none.  The runner defines it again by
    [ensureEntityName] after each transformation, after which it reads the
    runner's [soulName]; an object that has the property is left as it
    is.  After [initialize] both names are the runner's. *)
Theorem identity_is_reattached (r : Runner) (wm : WorkingMemory)
  (entries : list Memory) :
  Core.soulName (withMemory wm entries) = Core.soulName wm
  /\ entityName (withMemory wm entries) = None
  /\ (let r1 := set_workingMemory (withMemory wm entries) r in
      ensureEntityName r1
      = (Returned tt,
         set_workingMemory
           (define_entityName (soulName r) (withMemory wm entries)) r1)
      /\ entityName (define_entityName (soulName r) (withMemory wm entries))
         = Some (soulName r)
      /\ Core.soulName (define_entityName (soulName r) (withMemory wm entries))
         = Core.soulName wm)
  /\ (forall name, entityName wm = Some name ->
        ensureEntityName (set_workingMemory wm r)
        = (Returned tt, set_workingMemory wm r))
  /\ (forall blueprint, blueprintFile (host r) = Some blueprint ->
        exists wm0,
          workingMemory (initialize r).2 = Some wm0
          /\ Core.soulName wm0 = soulName r
          /\ entityName wm0 = Some (soulName r)).
Proof.
  split; [reflexivity|]. split; [reflexivity|]. split; [|split].
  - repeat split; reflexivity.
  - intros name Hname. unfold ensureEntityName, bind, require_memory. simpl.
    rewrite Hname. reflexivity.
  - intros blueprint Hb. unfold initialize, bind, gets. simpl.
    rewrite Hb. simpl. unfold loadCognitiveSteps, modify. simpl.
    destruct (stepExports (host r)); simpl; eexists; repeat split; reflexivity.
Qed.

Lemma identity_is_reattached_witness :
  blueprintFile (host (new_LocalSoulRunner "Scholar" fresh_disk quiet_host))
  = Some "You are Scholar."
  /\ exists wm0,
       workingMemory scholar_runner = Some wm0
       /\ Core.soulName wm0 = "Scholar"
       /\ entityName wm0 = Some "Scholar".
Proof.
  split; [reflexivity|].
  destruct (identity_is_reattached
              (new_LocalSoulRunner "Scholar" fresh_disk quiet_host)
              scenarioA_memory [])
    as (_ & _ & _ & _ & Hinit).
  exact (Hinit "You are Scholar." eq_refl).
Defined.

(** C8 fails as stated: the memory that [initialize] builds reads the
    entity name "Scholar"; its fork by [withMemory] reads none, until
    [ensureEntityName] has run. *)
Lemma fork_has_no_entity_name :
  exists wm,
    workingMemory scholar_runner = Some wm
    /\ entityName wm = Some "Scholar"
    /\ entityName (withMemory wm [plain User "Hello"]) = None
    /\ entityName (withMemory wm [plain User "Hello"]) <> entityName wm.
Proof.
  eexists. split; [vm_compute; reflexivity|].
  split; [reflexivity|]. split; [reflexivity|]. discriminate.
Qed.

End IdentityFacts.

(** ** The reentrancy guard *)

Section GuardFacts.
Import Core LocalRunner.

(** C9, amended.  A message delivered while the runner is busy is dropped:
    [processMessage] returns at once and normally, no error is raised, and
    nothing of the runner changes, in either runner. *)
Theorem busy_runner_drops_the_message (r : Runner) (message : string) :
  isProcessing r = true ->
  LocalRunner.processMessage message r = (Returned tt, r)
  /\ DemoRunner.processMessage message r = (Returned tt, r).
Proof.
  intros Hbusy.
  unfold LocalRunner.processMessage, DemoRunner.processMessage.
  rewrite !bind_gets, Hbusy. split; reflexivity.
Qed.

Lemma busy_runner_drops_the_message_witness :
  isProcessing busy_runner = true
  /\ LocalRunner.processMessage "Are you there?" busy_runner
     = (Returned tt, busy_runner).
Proof.
  split; [reflexivity|].
  exact (proj1 (busy_runner_drops_the_message busy_runner "Are you there?"
                  eq_refl)).
Defined.

(** C9 fails as stated: the rejected call does not throw. *)
Lemma busy_runner_raises_no_error :
  (LocalRunner.processMessage "Are you there?" busy_runner).1 = Returned tt
  /\ forall e,
       (LocalRunner.processMessage "Are you there?" busy_runner).1 <> Thrown e.
Proof. split; [reflexivity|]. intros e. discriminate. Qed.

End GuardFacts.

(** ** The guard flag of [processMessage] *)

Section ReleaseFacts.
Import Core LocalRunner.

(** The [finally] block runs on every way out of the body, so the flag
    is lowered again; a call that found it raised leaves it raised. *)
Lemma guarded_flag (body : M Runner unit) (r : Runner) :
  isProcessing
    ((let! busy := gets isProcessing in
      if busy : bool then ret tt
      else
        do! modify (set_isProcessing true) in
        try_finally (try_catch body (fun _ => ret tt))
          (modify (set_isProcessing false))) r).2
  = isProcessing r.
Proof.
  rewrite bind_gets. destruct (isProcessing r) eqn:Hbusy; [exact Hbusy|].
  rewrite bind_modify. unfold try_finally, try_catch, modify.
  destruct (body _) as [[[]|e|] r1]; reflexivity.
Qed.

(** [processMessage], in both runners and whatever the steps do, returns
    normally and leaves [isProcessing] as it found it: an idle runner is
    idle again, so that the next message is not dropped. *)
Theorem processMessage_returns_and_releases (message : string) (r : Runner) :
  ((LocalRunner.processMessage message r).1 = Returned tt
   /\ isProcessing (LocalRunner.processMessage message r).2 = isProcessing r)
  /\ ((DemoRunner.processMessage message r).1 = Returned tt
      /\ isProcessing (DemoRunner.processMessage message r).2 = isProcessing r).
Proof.
  split; split.
  - apply local_processMessage_returns.
  - unfold LocalRunner.processMessage. apply guarded_flag.
  - apply demo_processMessage_returns.
  - unfold DemoRunner.processMessage. apply guarded_flag.
Qed.

End ReleaseFacts.

(** ** [StandaloneSoul.processMessage] *)

Section StandaloneSoulFacts.
Import StandaloneDemo.

(** One message adds two entries to the memory of the soul, the user's
    message and the response that is returned, in this order, in place:
    [getMemoryCount] grows by two. *)
Theorem standalone_processMessage_adds_two (soul : StandaloneSoul)
  (pick : nat) (message : string) (h : Heap) (l : list Memory) :
  memories_of (memory soul) h = Some l ->
  exists response h',
    processMessage soul pick message h = Some (response, h')
    /\ memories_of (memory soul) h'
       = Some (l ++ [plain User message; plain Assistant response])
    /\ getMemoryCount soul h' = Some (length l + 2)%nat.
Proof.
  intros Hl.
  destruct (addMemory_appends h (memory soul) l (plain User message) Hl)
    as (h1 & H1 & Hm1 & _).
  unfold processMessage. rewrite H1. cbn [mbind option_bind].
  match goal with
  | |- context [addMemory _ (plain Assistant ?response) h1] =>
      destruct (addMemory_appends h1 (memory soul) _
                  (plain Assistant response) Hm1) as (h2 & H2 & Hm2 & _);
      exists response, h2
  end.
  rewrite H2. cbn [mbind option_bind]. rewrite <- app_assoc in Hm2.
  split; [reflexivity|]. split; [exact Hm2|].
  unfold getMemoryCount. rewrite Hm2. cbn [fmap option_fmap option_map].
  rewrite length_app. reflexivity.
Qed.

Lemma standalone_processMessage_adds_two_witness :
  let soul := (new_StandaloneSoul "You are Scholar." empty_heap).1 in
  let h := (new_StandaloneSoul "You are Scholar." empty_heap).2 in
  memories_of (memory soul) h = Some [plain System "You are Scholar."]
  /\ exists response h',
       processMessage soul 0 "Hello" h = Some (response, h')
       /\ getMemoryCount soul h' = Some 3%nat.
Proof.
  intros soul h.
  assert (Hl : memories_of (memory soul) h
               = Some [plain System "You are Scholar."])
    by (vm_compute; reflexivity).
  split; [exact Hl|].
  destruct (standalone_processMessage_adds_two soul 0 "Hello" h _ Hl)
    as (response & h' & Hp & _ & Hc).
  exists response, h'. split; [exact Hp|exact Hc].
Defined.

End StandaloneSoulFacts.

(** ** The remaining cognitive steps *)

Section ArrayFacts.
Import Core.

Lemma slice_last {A : Type} (n : nat) (xs : list A) :
  (0 < n)%nat ->
  Js.slice (- Z.of_nat n) xs = drop (length xs - n) xs.
Proof.
  intros Hn. unfold Js.slice.
  destruct (- Z.of_nat n <? 0) eqn:Hneg; [|apply Z.ltb_ge in Hneg; lia].
  f_equal. lia.
Qed.

Lemma slice_zero {A : Type} (xs : list A) : Js.slice 0 xs = xs.
Proof.
  unfold Js.slice. simpl. rewrite Z.min_l by lia. reflexivity.
Qed.

Lemma slice_last_snoc {A : Type} (n : nat) (xs : list A) (x : A) :
  Js.slice (- Z.of_nat (S n)) (xs ++ [x]) = drop (length xs - n) xs ++ [x].
Proof.
  rewrite slice_last by lia. rewrite length_app. simpl.
  replace (length xs + 1 - S n)%nat with (length xs - n)%nat by lia.
  rewrite drop_app_le by lia. reflexivity.
Qed.

Lemma string_array_strings (items : list JSON) :
  forallb (fun j => is_string (Some j)) items = true ->
  exists texts, items = map JStr texts.
Proof.
  induction items as [|j items IH]; simpl; intros H.
  - exists []. reflexivity.
  - apply andb_true_iff in H as [Hj Hrest].
    destruct (IH Hrest) as [texts ->].
    destruct j; try discriminate. exists (s :: texts). reflexivity.
Qed.

Lemma z_string_array_strings (v : option JSON) :
  MentalQuery.z_string_array v = true ->
  exists texts, v = Some (JArr (map JStr texts)).
Proof.
  destruct v as [[]|]; try discriminate. simpl. intros H.
  destruct (string_array_strings _ H) as [texts ->]. eauto.
Qed.

Lemma join_strings (sep : string) (texts : list string) :
  Js.join sep (map JStr texts) = String.concat sep texts.
Proof.
  unfold Js.join. rewrite map_map. simpl. rewrite map_id. reflexivity.
Qed.

Lemma is_string_text (v : option JSON) :
  is_string v = true -> exists s, v = Some (JStr s).
Proof. destruct v as [[]|]; try discriminate. eauto. Qed.

Lemma z_enum_text (choices : list string) (v : JSON) :
  z_enum choices v = true -> exists s, v = JStr s /\ s ∈ choices.
Proof.
  destruct v; try discriminate. simpl. intros H.
  apply bool_decide_eq_true in H. eauto.
Qed.

End ArrayFacts.

Section MentalQueryFacts.
Import Core MentalQuery.

(** The context of a mental query quotes memories of more than 50
    characters only, at most ten of them, the latest ones, in the order
    of the memory; a memory of 50 characters or fewer is never quoted. *)
Theorem mentalQuery_quotes_the_last_ten_long_memories
  (memory : WorkingMemory) :
  let long :=
    filter (fun m => (50 < String.length (content m))%nat) (memories memory) in
  exists quoted,
    relevantMemories memory
    = String.concat (Js.nl +:+ Js.nl)
        (imap
           (fun i m =>
              "[" +:+ pretty.pretty (Z.of_nat i) +:+ "] "
                +:+ Js.role_name (role m) +:+ ": " +:+ content m)
           quoted)
    /\ quoted `suffix_of` long
    /\ length quoted = (10 `min` length long)%nat
    /\ quoted `sublist_of` memories memory
    /\ Forall (fun m => (50 < String.length (content m))%nat) quoted.
Proof.
  intros long. exists (drop (length long - 10) long).
  split.
  { unfold relevantMemories. change (-10) with (- Z.of_nat 10).
    rewrite slice_last by lia. reflexivity. }
  split; [apply suffix_drop|].
  split; [rewrite length_drop; lia|]. split.
  - transitivity long; [apply sublist_drop|apply sublist_filter].
  - apply Forall_forall. intros m Hm.
    apply elem_of_suffix with (l2 := long) in Hm; [|apply suffix_drop].
    apply list_elem_of_filter in Hm as [Hlong _]. exact Hlong.
Qed.



End MentalQueryFacts.

Section PerceiveFacts.
Import Core Perceive.

Lemma listed_strings (prefix : string) (texts : list string) :
  listed prefix (JArr (map JStr texts))
  = Fulfilled
      (match texts with
       | [] => ""
       | _ => prefix +:+ String.concat ", " texts
       end).
Proof.
  unfold listed. cbn [Js.prop String.eqb Ascii.eqb Bool.eqb Js.positive].
  rewrite length_map, join_strings. destruct texts; reflexivity.
Qed.

(** Falsy parts are empty texts: dropping them changes nothing. *)
Lemma join_truthy (parts : list string) :
  String.concat ""
    (map show
       (filter (fun v => Engine.truthy v = true)
               (map (fun s => Some (JStr s)) parts)))
  = String.concat "" parts.
Proof.
  rewrite <- !accumulate_concat.
  induction parts as [|s parts IH]; [reflexivity|].
  rewrite map_cons. destruct s as [|a s].
  - rewrite filter_cons_False by (simpl; discriminate). exact IH.
  - rewrite filter_cons_True by reflexivity. rewrite map_cons.
    unfold ExternalDialog.accumulate in *. cbn [foldr]. rewrite IH.
    reflexivity.
Qed.

Lemma concat_nothing (a : string) (rest : list string) :
  String.concat "" (a :: rest) = a +:+ String.concat "" rest.
Proof. rewrite <- !accumulate_concat. reflexivity. Qed.

Lemma feeling_of_emotion (options : PerceiveOptions)
  (emotionalResponse : option JSON) :
  (if analyzeEmotions options then z_emotion emotionalResponse else true)
  = true ->
  analyzeEmotions options = true ->
  exists primary intensity valence,
    feeling emotionalResponse
    = Js.nl +:+ "This makes me feel " +:+ primary +:+ " ("
        +:+ intensity +:+ ", " +:+ valence +:+ ")"
    /\ intensity ∈ ["subtle"; "moderate"; "strong"]
    /\ valence ∈ ["positive"; "negative"; "neutral"; "mixed"].
Proof.
  intros Hz Hflag. rewrite Hflag in Hz.
  destruct emotionalResponse as [[| | | | |emotion]|]; try discriminate.
  cbn [z_emotion] in Hz.
  apply andb_true_iff in Hz as [Hz Hvalence].
  apply andb_true_iff in Hz as [Hprimary Hintensity].
  apply is_string_text in Hprimary as [primary Hprimary].
  destruct (field "intensity" emotion) as [i|] eqn:Hi; [|discriminate].
  destruct (field "valence" emotion) as [v|] eqn:Hv; [|discriminate].
  apply z_enum_text in Hintensity as (intensity & -> & Hin1).
  apply z_enum_text in Hvalence as (valence & -> & Hin2).
  exists primary, intensity, valence. split; [|auto].
  unfold feeling. cbn [Engine.truthy Js.prop]. rewrite Hprimary, Hi, Hv.
  reflexivity.
Qed.

(** The entry that [perceive] builds is found again by the next
    [perceive]: whatever the response, a post-processing that succeeds
    yields one assistant entry, and a memory that ends with it recalls
    it as the last of its recent perceptions, after at most two earlier
    ones. *)
Theorem perception_is_recalled (options : PerceiveOptions) (now : string)
  (memory later : WorkingMemory) (response : JSON)
  (entries earlier : list Memory) (value : option JSON) :
  postProcess options now memory response = Fulfilled (entries, value) ->
  memories later = earlier ++ entries ->
  exists e before,
    entries = [e]
    /\ value = Some response
    /\ role e = Assistant
    /\ is_perception e = true
    /\ before `suffix_of` filter (fun m => is_perception m = true) earlier
    /\ (length before <= 2)%nat
    /\ recentPerceptions later
       = String.concat Js.nl (map content (before ++ [e])).
Proof.
  intros Hp Hlater.
  assert (exists text,
            entries = [perceptionMemory options now memory text]
            /\ value = Some response) as (text & -> & ->).
  { unfold postProcess in Hp.
    destruct (ExternalDialog.typeof_object response).
    - destruct response; try discriminate.
      destruct (perceptionContent fields); [|discriminate].
      injection Hp as <- <-. eauto.
    - injection Hp as <- <-. eauto. }
  set (e := perceptionMemory options now memory text).
  set (seen := filter (fun m => is_perception m = true) earlier).
  exists e, (drop (length seen - 2) seen).
  split; [reflexivity|]. split; [reflexivity|]. split; [reflexivity|].
  split; [reflexivity|]. split; [apply suffix_drop|].
  split; [rewrite length_drop; lia|].
  unfold recentPerceptions. rewrite Hlater, filter_app. fold seen.
  rewrite filter_cons_True by reflexivity. rewrite filter_nil.
  change (-3) with (- Z.of_nat 3). rewrite slice_last_snoc. reflexivity.
Qed.


(** Without [detectPatterns] the schema lets any [patterns] pass, and
    the post-processing joins whatever has a positive length: a response
    that the schema accepts and whose [patterns] is a text of one
    character or more makes it throw a TypeError. *)
Theorem perceive_schema_leaves_patterns_unguarded (options : PerceiveOptions)
  (now : string) (memory : WorkingMemory) (fields : list (string * JSON))
  (a : ascii) (text : string) :
  detectPatterns options = false ->
  z_perception options (JObj fields) = true ->
  field "patterns" fields = Some (JStr (String a text)) ->
  postProcess options now memory (JObj fields) = Rejected TypeError.
Proof.
  intros Hflag Hz Hpatterns. cbn [z_perception] in Hz. rewrite Hflag in Hz.
  apply andb_true_iff in Hz as [Hz _].
  apply andb_true_iff in Hz as [Hz _].
  apply andb_true_iff in Hz as [Hz _].
  apply andb_true_iff in Hz as [_ Hdetails].
  apply z_string_array_strings in Hdetails as [details Hdetails].
  unfold postProcess. cbn [ExternalDialog.typeof_object].
  unfold perceptionContent. rewrite Hdetails, Hpatterns.
  cbn [listed_strict listed_if_any]. rewrite listed_strings.
  unfold listed. cbn [Js.prop String.eqb Ascii.eqb Bool.eqb Js.positive].
  cbn [String.length]. rewrite Nat2Z.inj_succ.
  destruct (0 <? Z.succ (Z.of_nat (String.length text))) eqn:Hpos;
    [reflexivity|apply Z.ltb_ge in Hpos; lia].
Qed.

Lemma perception_is_recalled_witness :
  exists e,
    postProcess attentive "2024-01-01" scholar_memory (JStr "A greeting.")
    = Fulfilled ([e], Some (JStr "A greeting."))
    /\ recentPerceptions (withMemory scholar_memory [e]) = content e.
Proof.
  destruct (perception_is_recalled attentive "2024-01-01" scholar_memory
              (withMemory scholar_memory
                 [perceptionMemory attentive "2024-01-01" scholar_memory
                    "A greeting."])
              (JStr "A greeting.") _ (memories scholar_memory) _
              eq_refl eq_refl)
    as (e & before & He & _ & _ & _ & _ & _ & _).
  exists e. injection He as <-. split; reflexivity.
Defined.


Lemma perceive_schema_leaves_patterns_unguarded_witness :
  detectPatterns emotions_only = false
  /\ z_perception emotions_only (JObj perception_with_a_text) = true
  /\ postProcess emotions_only "2024-01-01" scholar_memory
       (JObj perception_with_a_text)
     = Rejected TypeError.
Proof.
  split; [reflexivity|]. split; [reflexivity|].
  exact (perceive_schema_leaves_patterns_unguarded emotions_only "2024-01-01"
           scholar_memory perception_with_a_text "n"%char "one"
           eq_refl eq_refl eq_refl).
Defined.

End PerceiveFacts.

Section ReflectFacts.
Import Core Reflect.

Lemma insight_lines_of_schema (insights : list JSON) :
  forallb z_insight insights = true ->
  exists found : list (string * string),
    insight_lines insights
    = Fulfilled
        (map (fun i => "- " +:+ i.1 +:+ " [" +:+ i.2 +:+ "]") found)
    /\ length found = length insights
    /\ Forall (fun i => i.2 ∈ ["minor"; "moderate"; "major"]) found.
Proof.
  induction insights as [|i insights IH]; intros Hz.
  - exists []. split; [reflexivity|]. split; [reflexivity|constructor].
  - cbn [forallb] in Hz. apply andb_true_iff in Hz as [Hi Hrest].
    destruct (IH Hrest) as (found & Hlines & Hlen & Hall).
    destruct i as [| | | | |fields]; try discriminate.
    cbn [z_insight] in Hi. apply andb_true_iff in Hi as [Hinsight Hsig].
    apply is_string_text in Hinsight as [insight Hinsight].
    destruct (field "significance" fields) as [s|] eqn:Hs; [|discriminate].
    apply z_enum_text in Hsig as (significance & -> & Hin).
    exists ((insight, significance) :: found).
    cbn [insight_lines insight_line Js.prop]. rewrite Hinsight, Hs, Hlines.
    split; [reflexivity|]. split; [simpl; lia|].
    constructor; assumption.
Qed.



(** [reflect] reads what the other steps wrote.  Its key events are the
    headings of the memories of its window, the last fifteen of them:
    a user's entry under "User said", the entry of a decision under
    "I decided" with the choice, the entry of an internal monologue under
    "I thought", any other entry that has a type as it is.  An entry
    with no metadata that is not the user's has no heading: the
    blueprint and what [externalDialog] committed, that is, what the
    soul said aloud, are left out. *)
Theorem reflect_reads_what_the_steps_wrote (options : ReflectOptions)
  (memory : WorkingMemory) :
  let heading (m : Memory) : option string :=
    if bool_decide (role m = User) then Some ("User said: " +:+ content m)
    else
      match metadata_of "type" m with
      | Some t =>
          if Engine.truthy (Some t) then
            Some
              (if type_is m "decision"
               then "I decided: " +:+ show (metadata_of "choice" m)
               else if type_is m "internal_monologue"
               then "I thought: " +:+ content m
               else content m)
          else None
      | None => None
      end in
  keyEvents options memory
  = String.concat Js.nl
      (Js.slice (-15) (omap heading (relevantMemories options memory)))
  /\ (forall text, heading (plain User text) = Some ("User said: " +:+ text))
  /\ (forall o now m choice,
        heading (Decision.decisionMemory o now m choice)
        = Some ("I decided: " +:+ to_string choice))
  /\ (forall o now m thought,
        heading (InternalMonologue.internalMemory o now m thought)
        = Some
            ("I thought: "
               +:+ content (InternalMonologue.internalMemory o now m thought)))
  /\ (forall o now m text,
        heading (Perceive.perceptionMemory o now m text)
        = Some (content (Perceive.perceptionMemory o now m text)))
  /\ (forall text, heading (plain Assistant text) = None)
  /\ (forall text, heading (plain System text) = None)
  /\ (forall strip o m response entries value,
        ExternalDialog.customPostProcess o = None ->
        ExternalDialog.postProcess strip o m response
        = Fulfilled (entries, value) ->
        Forall (fun e => heading e = None) entries).
Proof.
  intros heading. split; [|repeat split; intros; try reflexivity].
  2:{ match goal with
      | Hcustom : ExternalDialog.customPostProcess _ = None,
        Hpost : ExternalDialog.postProcess _ _ _ _ = _ |- _ =>
          unfold ExternalDialog.postProcess in Hpost; rewrite Hcustom in Hpost;
          repeat match type of Hpost with
                 | context [if ?b then _ else _] => destruct b
                 | context [match ?x with _ => _ end] => destruct x
                 end;
          try discriminate; injection Hpost as <- <-;
          repeat constructor
      end. }
  unfold keyEvents. do 2 f_equal.
  induction (relevantMemories options memory) as [|m l IH]; [reflexivity|].
  cbn [omap list_omap]. fold (omap heading l). subst heading. cbv beta.
  destruct (bool_decide (role m = User)) eqn:Huser.
  - rewrite filter_cons_True by (rewrite Huser, orb_true_r; reflexivity).
    rewrite map_cons, Huser, IH. reflexivity.
  - destruct (metadata_of "type" m) as [t|] eqn:Ht.
    + destruct (Engine.truthy (Some t)) eqn:Htruthy.
      * rewrite filter_cons_True by (rewrite Ht, Htruthy; reflexivity).
        rewrite map_cons, Huser, IH. reflexivity.
      * rewrite filter_cons_False
          by (rewrite Ht, Htruthy, Huser; simpl; discriminate).
        exact IH.
    + rewrite filter_cons_False
        by (rewrite Ht, Huser; simpl; discriminate).
      exact IH.
Qed.

End ReflectFacts.

(** ** The name pattern of the local runner *)

Section NamePatternFacts.
Import RegExp.

Lemma run_lit_i {X : Type} (pattern : string) :
  forall (s : list ascii) (c : Captures)
         (k : list ascii -> Captures -> option X),
    run (lit_i pattern) s c k
    = match after_literal pattern s with
      | Some s' => k s' c
      | None => None
      end.
Proof.
  induction pattern as [|a pattern IH]; intros s c k; [reflexivity|].
  cbn [lit_i run chr_i after_literal].
  destruct s as [|b s]; [reflexivity|].
  destruct (canonicalize b =? canonicalize a)%nat; [apply IH|reflexivity].
Qed.

Lemma after_literal_reads (pattern : string) :
  forall (text : string) (rest : list ascii),
    reads_as pattern text = true ->
    after_literal pattern (list_ascii_of_string text ++ rest) = Some rest.
Proof.
  induction pattern as [|a pattern IH]; intros [|b text] rest H;
    try discriminate; [reflexivity|].
  cbn [reads_as] in H. apply andb_true_iff in H as [Hb H].
  cbn [list_ascii_of_string app after_literal]. rewrite Hb. apply IH, H.
Qed.

Lemma after_literal_clash (q : string) :
  forall (p text : string) (rest : list ascii),
    clash q p = true -> reads_as p text = true ->
    after_literal q (list_ascii_of_string text ++ rest) = None.
Proof.
  induction q as [|a q IH]; intros [|b p] [|x text] rest Hc H;
    try discriminate.
  cbn [reads_as] in H. apply andb_true_iff in H as [Hx H].
  apply Nat.eqb_eq in Hx.
  cbn [clash] in Hc. cbn [list_ascii_of_string app after_literal].
  rewrite Hx.
  destruct (canonicalize b =? canonicalize a)%nat eqn:Hba.
  - rewrite Nat.eqb_sym, Hba in Hc. cbn in Hc. eapply IH; eassumption.
  - reflexivity.
Qed.

(** A greedy repetition of a class takes all of a run of the class that
    ends the input or ends outside the class, when what follows the
    repetition accepts the rest. *)
Lemma run_star_class {X : Type} (p : ascii -> bool) (xs s : list ascii)
  (c : Captures) (k : list ascii -> Captures -> option X) :
  forallb p xs = true ->
  match s with [] => True | a :: _ => p a = false end ->
  is_Some (k s c) ->
  run (Star true (Chr p)) (xs ++ s) c k = k s c.
Proof.
  intros Hxs Hs Hk. cbn [run].
  assert (Hn : (length xs <= length (xs ++ s))%nat)
    by (rewrite length_app; lia).
  revert Hn. generalize (length (xs ++ s)). intros n. revert xs Hxs.
  induction n as [|n IH]; intros xs Hxs Hn.
  - destruct xs; [reflexivity|cbn in Hn; lia].
  - destruct xs as [|x xs].
    + cbn [app]. destruct s as [|a s]; [reflexivity|]. rewrite Hs. reflexivity.
    + cbn [forallb] in Hxs. apply andb_true_iff in Hxs as [Hx Hxs].
      cbn [app]. rewrite Hx.
      assert (Hlt : (length (xs ++ s) <? length (x :: xs ++ s))%nat = true)
        by (apply Nat.ltb_lt; cbn; lia).
      rewrite Hlt. cbn in Hn. rewrite IH by (assumption || lia).
      destruct Hk as [y Hy]. rewrite Hy. reflexivity.
Qed.

Lemma run_plus_class {X : Type} (p : ascii -> bool) (text : string)
  (s : list ascii) (c : Captures) (k : list ascii -> Captures -> option X) :
  all_of p text = true ->
  match s with [] => True | a :: _ => p a = false end ->
  is_Some (k s c) ->
  run (plus true (Chr p)) (list_ascii_of_string text ++ s) c k = k s c.
Proof.
  intros Htext Hs Hk. destruct text as [|x text]; [discriminate|].
  cbn [all_of list_ascii_of_string forallb] in Htext.
  apply andb_true_iff in Htext as [Hx Htext].
  unfold plus. cbn [run list_ascii_of_string app]. rewrite Hx.
  apply (run_star_class p _ s c k Htext Hs Hk).
Qed.

Lemma word_is_no_space (a : ascii) : is_word a = true -> is_space a = false.
Proof.
  destruct a as [[] [] [] [] [] [] [] []]; vm_compute; congruence.
Qed.

Lemma list_ascii_of_string_app (a b : string) :
  list_ascii_of_string (a +:+ b)
  = list_ascii_of_string a ++ list_ascii_of_string b.
Proof.
  induction a as [|x a IH]; [reflexivity|].
  change (String x a +:+ b) with (String x (a +:+ b)).
  cbn [list_ascii_of_string app]. rewrite IH. reflexivity.
Qed.

Lemma take_written (a b : list ascii) :
  take (length (a ++ b) - length b) (a ++ b) = a.
Proof.
  rewrite length_app, Nat.add_sub. apply take_app_length.
Qed.

Lemma search_here (r : regex) (s rest : list ascii) (m : string)
  (c : Captures) :
  match_here r s = Some (m, c, rest) -> search r s = Some (m, c).
Proof. intros H. destruct s; cbn [search]; rewrite H; reflexivity. Qed.

(** The name pattern on a message that starts with an opening, blanks
    and a word: the match is these three, and the capture is the word. *)
Lemma namePattern_takes_the_word (opening blanks word rest : string) :
  introduces opening = true ->
  all_of is_space blanks = true ->
  all_of is_word word = true ->
  leaves is_word rest = true ->
  exec LocalRunner.namePattern (opening +:+ blanks +:+ word +:+ rest)
  = Some (opening +:+ blanks +:+ word, [(1%nat, word)]).
Proof.
  intros Hopening Hblanks Hword Hrest.
  unfold exec. rewrite !list_ascii_of_string_app.
  set (o := list_ascii_of_string opening).
  set (b := list_ascii_of_string blanks).
  set (w := list_ascii_of_string word).
  set (t := list_ascii_of_string rest).
  assert (Ht : match t with [] => True | a :: _ => is_word a = false end).
  { subst t. destruct rest as [|a rest]; [exact I|].
    cbn in Hrest |- *. destruct (is_word a); [discriminate|reflexivity]. }
  assert (Hwt : match w ++ t with [] => True | a :: _ => is_space a = false end).
  { subst w. destruct word as [|a word]; [discriminate|].
    cbn in Hword |- *. apply andb_true_iff in Hword as [Ha _].
    apply word_is_no_space, Ha. }
  set (s0 := o ++ b ++ w ++ t).
  set (k0 := fun (s' : list ascii) (c : Captures) =>
               Some (string_of_list_ascii (take (length s0 - length s') s0),
                     c, s')).
  assert (Hgroup :
            forall c,
              run (Group 1 (plus true (Chr is_word))) (w ++ t) c
                (fun s' c' => run Eps s' c' k0)
              = k0 t ((1%nat, word) :: c)).
  { intros c. cbn [run]. subst w.
    rewrite run_plus_class; [|exact Hword|exact Ht|eexists; reflexivity].
    rewrite take_written, string_of_list_ascii_of_string. reflexivity. }
  assert (Htail :
            run (seqs [ LocalRunner.spaces;
                        Group 1 (plus true (Chr is_word)) ]) (b ++ w ++ t) [] k0
            = k0 t [(1%nat, word)]).
  { change (run (plus true (Chr is_space)) (b ++ w ++ t) []
              (fun s' c' =>
                 run (Group 1 (plus true (Chr is_word))) s' c'
                   (fun s'' c'' => run Eps s'' c'' k0))
            = k0 t [(1%nat, word)]).
    subst b.
    rewrite run_plus_class; [apply Hgroup|exact Hblanks|exact Hwt|].
    rewrite Hgroup. eexists. reflexivity. }
  assert (Hhere :
            match_here LocalRunner.namePattern s0 = k0 t [(1%nat, word)]).
  { unfold match_here. fold k0. unfold LocalRunner.namePattern.
    cbn [seqs] in Htail |- *. cbn [run] in Htail |- *.
    unfold LocalRunner.words. cbn [map alts run].
    rewrite !run_lit_i. subst s0 o.
    unfold introduces in Hopening. cbn [existsb] in Hopening.
    rewrite orb_false_r in Hopening.
    destruct (reads_as "my name is" opening) eqn:H1.
    { rewrite (after_literal_reads _ _ _ H1), Htail. reflexivity. }
    destruct (reads_as "i'm" opening) eqn:H2.
    { rewrite (after_literal_clash "my name is" "i'm" _ _ eq_refl H2).
      rewrite (after_literal_reads _ _ _ H2), Htail. reflexivity. }
    destruct (reads_as "i am" opening) eqn:H3.
    { rewrite (after_literal_clash "my name is" "i am" _ _ eq_refl H3).
      rewrite (after_literal_clash "i'm" "i am" _ _ eq_refl H3).
      rewrite (after_literal_reads _ _ _ H3), Htail. reflexivity. }
    cbn [orb] in Hopening.
    rewrite (after_literal_clash "my name is" "call me" _ _ eq_refl Hopening).
    rewrite (after_literal_clash "i'm" "call me" _ _ eq_refl Hopening).
    rewrite (after_literal_clash "i am" "call me" _ _ eq_refl Hopening).
    rewrite (after_literal_reads _ _ _ Hopening), Htail. reflexivity. }
  apply search_here with (rest := t). rewrite Hhere. unfold k0.
  assert (Hwhole :
            string_of_list_ascii (take (length s0 - length t) s0)
            = opening +:+ blanks +:+ word).
  { subst s0.
    replace (o ++ b ++ w ++ t) with ((o ++ b ++ w) ++ t)
      by (rewrite <- !app_assoc; reflexivity).
    rewrite take_written, !string_of_list_ascii_app. subst o b w.
    rewrite !string_of_list_ascii_of_string. reflexivity. }
  rewrite Hwhole. reflexivity.
Qed.

End NamePatternFacts.

(** ** The runners: what a message leaves as it was *)

Section KeepFacts.
Import Core LocalRunner.

Context {I : Runner -> Runner -> Prop} `{!PreOrder I}.

Lemma keeps_ret {A : Type} (a : A) : keeps I (ret a).
Proof. intros r. reflexivity. Qed.

Lemma keeps_throw {A : Type} (e : Error) : keeps I (@throw Runner A e).
Proof. intros r. reflexivity. Qed.

Lemma keeps_await {A : Type} (p : Settled A) : keeps I (@await Runner A p).
Proof. destruct p; [apply keeps_ret|apply keeps_throw]. Qed.

Lemma keeps_gets {A : Type} (f : Runner -> A) : keeps I (gets f).
Proof. intros r. reflexivity. Qed.

Lemma keeps_modify (f : Runner -> Runner) :
  (forall r, I r (f r)) -> keeps I (modify f).
Proof. intros H r. apply H. Qed.

Lemma keeps_bind {A B : Type} (m : M Runner A) (g : A -> M Runner B) :
  keeps I m -> (forall a, keeps I (g a)) -> keeps I (bind m g).
Proof.
  intros Hm Hg r. unfold bind. specialize (Hm r).
  destruct (m r) as [[a|e|] r1]; simpl in *; try exact Hm.
  transitivity r1; [exact Hm|apply Hg].
Qed.

Lemma keeps_try_catch {A : Type} (m : M Runner A) (h : Error -> M Runner A) :
  keeps I m -> (forall e, keeps I (h e)) -> keeps I (try_catch m h).
Proof.
  intros Hm Hh r. unfold try_catch. specialize (Hm r).
  destruct (m r) as [[a|e|] r1]; simpl in *; try exact Hm.
  transitivity r1; [exact Hm|apply Hh].
Qed.

Lemma keeps_try_finally {A : Type} (m : M Runner A) (f : M Runner unit) :
  keeps I m -> keeps I f -> keeps I (try_finally m f).
Proof.
  intros Hm Hf r. unfold try_finally. specialize (Hm r).
  destruct (m r) as [res r1]. specialize (Hf r1).
  destruct (f r1) as [[[]|e|] r2]; simpl in *;
    (transitivity r1; [exact Hm|exact Hf]).
Qed.

Lemma keeps_bind_gets {A B : Type} (f : Runner -> A) (g : A -> M Runner B) :
  (forall r, I r (g (f r) r).2) -> keeps I (bind (gets f) g).
Proof. intros H r. rewrite bind_gets. apply H. Qed.

Lemma keeps_require_memory : keeps I require_memory.
Proof.
  intros r. unfold require_memory. destruct (workingMemory r); reflexivity.
Qed.

Lemma keeps_call (name : string) (opts : Engine.StepOptions) :
  (forall c r, I r (add_call c r)) -> keeps I (call name opts).
Proof.
  intros H. unfold call. apply keeps_bind; [apply keeps_require_memory|].
  intros wm r.
  destruct (behaviour (host r) (calls r)
              {| callee := name; given := wm; options := opts |});
    simpl; apply H.
Qed.

Lemma keeps_ensureEntityName :
  (forall wm r, I r (set_workingMemory wm r)) -> keeps I ensureEntityName.
Proof.
  intros H. unfold ensureEntityName.
  apply keeps_bind; [apply keeps_require_memory|]. intros wm.
  destruct (entityName wm); [apply keeps_ret|].
  apply keeps_bind; [apply keeps_gets|]. intros name.
  apply keeps_modify. intros r. apply H.
Qed.

End KeepFacts.

(** ** What holds of the state after a computation *)

Section AfterFacts.
Import Core LocalRunner.
Context (P : Runner -> Prop).

Lemma call_run (name : string) (opts : Engine.StepOptions) (r : Runner)
  (wm : WorkingMemory) :
  workingMemory r = Some wm ->
  let c := {| callee := name; given := wm; options := opts |} in
  call name opts r
  = (match behaviour (host r) (calls r) c with
     | Fulfilled x => Returned x
     | Rejected e => Thrown e
     end, add_call c r).
Proof.
  intros Hwm c. unfold call, bind, require_memory. rewrite Hwm.
  fold c. destruct (behaviour (host r) (calls r) c); reflexivity.
Qed.


Lemma after_bind {A B : Type} (m : M Runner A) (g : A -> M Runner B)
  (r : Runner) :
  P (m r).2 -> (forall a r', P r' -> P (g a r').2) -> P (bind m g r).2.
Proof.
  intros Hm Hg. unfold bind. destruct (m r) as [[a| |] r']; cbn [snd] in *;
    [apply Hg, Hm|exact Hm|exact Hm].
Qed.

Lemma after_try_catch {A : Type} (m : M Runner A) (h : Error -> M Runner A)
  (r : Runner) :
  P (m r).2 -> (forall e r', P r' -> P (h e r').2) -> P (try_catch m h r).2.
Proof.
  intros Hm Hh. unfold try_catch. destruct (m r) as [[a|e|] r']; cbn [snd] in *;
    [exact Hm|apply Hh, Hm|exact Hm].
Qed.

Lemma after_try_finally {A : Type} (m : M Runner A) (f : M Runner unit)
  (r : Runner) :
  P (m r).2 -> (forall r', P r' -> P (f r').2) -> P (try_finally m f r).2.
Proof.
  intros Hm Hf. unfold try_finally.
  destruct (m r) as [o r'] eqn:Hr. cbn [snd] in Hm.
  specialize (Hf r' Hm). destruct (f r') as [[[]|e|] r'']; cbn [snd] in *;
    try exact Hf; destruct o; exact Hf.
Qed.

End AfterFacts.

Ltac kept leaf :=
  repeat first
    [ apply keeps_ret | apply keeps_throw | apply keeps_await
    | apply keeps_gets | apply keeps_require_memory
    | apply keeps_ensureEntityName; solve [leaf]
    | apply keeps_call; solve [leaf]
    | apply keeps_modify; solve [leaf]
    | apply keeps_bind; [|intros ?]
    | apply keeps_try_catch; [|intros ?]
    | apply keeps_try_finally
    | match goal with
      | |- keeps _ (match ?x with _ => _ end) => destruct x
      | |- keeps _ (let '(_, _) := ?x in _) => destruct x
      end ].

Section NameFacts.
Import Core LocalRunner.

#[local] Instance name_stays_preorder (u : option JSON) :
  PreOrder (name_stays u).
Proof.
  split; [intros r H; exact H|]. intros a b c Hab Hbc H. apply Hbc, Hab, H.
Qed.

Lemma set_keeps_name (u : option JSON) (key : string) (value : JSON) :
  key <> "userName" -> keeps (name_stays u) (set key value).
Proof.
  intros Hkey r Hu. rewrite set_result. cbn [snd].
  rewrite store_after_save. cbn [soulMemoryStore set_store].
  rewrite lookup_insert_ne by congruence. exact Hu.
Qed.

Lemma learn_facts_keeps_name (u : option JSON) (text : string)
  (patterns : list RegExp.regex) :
  keeps (name_stays u) (learn_facts patterns text).
Proof.
  induction patterns as [|p rest IH]; simpl; [apply keeps_ret|].
  apply keeps_bind; [|intros _; exact IH].
  destruct (RegExp.exec p text) as [[fact c]|]; [|apply keeps_ret].
  apply keeps_bind; [apply keeps_gets|intros stored].
  destruct (bool_decide _); [apply keeps_ret|].
  apply set_keeps_name. discriminate.
Qed.

Lemma local_process_keeps_name (u : option JSON) (userFacts : list string)
  (conversationCount : Z) :
  Engine.truthy u = true ->
  keeps (name_stays u)
    (do! (let! loaded := has "internalMonologue" in
          if loaded : bool then
            try_catch (reflection_step u userFacts) (fun _ => ret tt)
          else ret tt) in
     let! loaded := has "externalDialog" in
     if loaded : bool then
       try_catch (response_step u conversationCount)
         (fun _ => response_fallback)
     else ret tt).
Proof.
  intros Htruthy.
  assert (Hlearn : forall message, keeps (name_stays u) (learn_name u message)).
  { intros message. unfold learn_name. rewrite Htruthy.
    destruct message; apply keeps_ret. }
  unfold reflection_step, response_step, response_fallback, has, now, get,
    emit_speaks.
  kept ltac:(first
    [ apply Hlearn | apply learn_facts_keeps_name
    | apply set_keeps_name; discriminate
    | intros; intros ?; assumption ]).
Qed.

(** A name that the runner remembers is never replaced: when the store
    holds a truthy "userName", a message leaves it as it is, whatever
    the message says and whatever the steps do. *)
Theorem known_name_is_never_replaced (message : string) (r : Runner) :
  Engine.truthy (soulMemoryStore r !! "userName") = true ->
  soulMemoryStore (LocalRunner.processMessage message r).2 !! "userName"
  = soulMemoryStore r !! "userName".
Proof.
  intros Htruthy.
  set (u := soulMemoryStore r !! "userName") in *.
  assert (Hrun : keeps (name_stays u) runCognitiveProcess).
  { intros r0 Hu. unfold runCognitiveProcess, get. rewrite !bind_gets.
    rewrite Hu.
    apply (local_process_keeps_name u _ _ Htruthy r0 Hu). }
  assert (Hall : keeps (name_stays u) (LocalRunner.processMessage message)).
  { unfold LocalRunner.processMessage.
    kept ltac:(first [ apply Hrun | intros; intros ?; assumption ]). }
  apply (Hall r). reflexivity.
Qed.

Lemma known_name_is_never_replaced_witness :
  soulMemoryStore (LocalRunner.processMessage "my name is Bob" introduced_runner).2
    !! "userName"
  = Some (JStr "Ada").
Proof.
  etransitivity.
  - apply known_name_is_never_replaced. vm_compute. reflexivity.
  - vm_compute. reflexivity.
Defined.

Lemma last_user_message (wm : WorkingMemory) (message : string) :
  lastUserMessage (withMemory wm [plain User message]) = Some message.
Proof.
  unfold lastUserMessage, withMemory. cbn [memories].
  rewrite filter_app, filter_cons_True by reflexivity.
  rewrite filter_nil, last_snoc. reflexivity.
Qed.

(** The user's name is learnt from an introduction.  A message that
    starts with "my name is", "i'm", "i am" or "call me" in any case,
    then blanks and a word makes this word the "userName" of the store,
    whatever follows the word, when the store holds no name yet and the
    monologue step is loaded and returns a memory with the same last
    user message. *)
Theorem name_is_learnt_from_the_introduction
  (opening blanks word rest : string) (r : Runner) :
  isProcessing r = false ->
  is_Some (workingMemory r) ->
  Engine.truthy (soulMemoryStore r !! "userName") = false ->
  "internalMonologue" ∈ cognitiveSteps r ->
  monologue_keeps_the_message r ->
  introduces opening = true ->
  all_of RegExp.is_space blanks = true ->
  all_of RegExp.is_word word = true ->
  leaves RegExp.is_word rest = true ->
  soulMemoryStore
    (LocalRunner.processMessage (opening +:+ blanks +:+ word +:+ rest) r).2
    !! "userName"
  = Some (JStr word).
Proof.
  intros Hidle [wm Hwm] Htruthy Hstep Hhost Hopening Hblanks Hword Hrest.
  set (message := opening +:+ blanks +:+ word +:+ rest).
  set (P := fun r' : Runner =>
              soulMemoryStore r' !! "userName" = Some (JStr word)).
  change (P (LocalRunner.processMessage message r).2).
  assert (Hkeep : forall A (m : M Runner A),
             keeps (name_stays (Some (JStr word))) m ->
             forall r', P r' -> P (m r').2).
  { intros A m Hm r' Hr'. apply (Hm r'), Hr'. }
  set (r1 :=
         set_workingMemory
           (define_entityName (soulName r) (withMemory wm [plain User message]))
           (set_workingMemory (withMemory wm [plain User message])
              (set_isProcessing true r))).
  assert (Hpre :
            (let! wm := require_memory in
             do! modify (set_workingMemory (withMemory wm [plain User message])) in
             do! ensureEntityName in
             runCognitiveProcess) (set_isProcessing true r)
            = runCognitiveProcess r1).
  { unfold bind, require_memory, ensureEntityName, modify, gets.
    cbn -[runCognitiveProcess]. rewrite Hwm. reflexivity. }
  unfold LocalRunner.processMessage.
  rewrite bind_gets, Hidle, bind_modify.
  apply after_try_finally; [|intros r' Hr'; exact Hr'].
  apply after_try_catch; [|intros _ r' Hr'; exact Hr'].
  rewrite Hpre. unfold runCognitiveProcess, get. rewrite !bind_gets.
  change (soulMemoryStore r1) with (soulMemoryStore r).
  set (u := soulMemoryStore r !! "userName") in *.
  apply after_bind.
  2:{ intros _. apply Hkeep.
      unfold response_step, response_fallback, has, now, get, emit_speaks.
      kept ltac:(first
        [ apply set_keeps_name; discriminate
        | intros; intros ?; assumption ]). }
  unfold has. rewrite bind_gets.
  change (cognitiveSteps r1) with (cognitiveSteps r).
  rewrite bool_decide_eq_true_2 by exact Hstep.
  apply after_try_catch; [|intros _ r' Hr'; exact Hr'].
  unfold reflection_step. unfold bind at 1.
  rewrite (call_run _ _ r1 _ eq_refl).
  match goal with
  | |- context [behaviour _ _ ?c] =>
      destruct (Hhost c eq_refl) as (m & v & Hcall & Hlast)
  end.
  change (host r1) with (host r). change (calls r1) with (calls r).
  rewrite Hcall. cbn [given] in Hlast.
  change (lastUserMessage m = lastUserMessage (withMemory wm [plain User message]))
    in Hlast.
  rewrite last_user_message in Hlast.
  rewrite bind_modify.
  set (r2 := set_workingMemory m _).
  assert (Hmem :
            exists m' r3,
              (do! ensureEntityName in require_memory) r2 = (Returned m', r3)
              /\ lastUserMessage m' = Some message
              /\ soulMemoryStore r3 = soulMemoryStore r).
  { unfold ensureEntityName, require_memory, bind, modify, gets. subst r2.
    cbn -[lastUserMessage]. destruct (entityName m) eqn:He; cbn -[lastUserMessage].
    - eexists _, _. split; [reflexivity|]. split; [exact Hlast|reflexivity].
    - eexists _, _. split; [reflexivity|]. split; [exact Hlast|reflexivity]. }
  destruct Hmem as (m' & r3 & Hrun & Hlast' & Hstore).
  change (P ((do! ensureEntityName in
              let! wm0 := require_memory in
              let message0 := lastUserMessage wm0 in
              do! learn_name u message0 in
              match message0 with
              | Some text =>
                  if nonempty message0 then learn_facts factPatterns text
                  else ret tt
              | None => ret tt
              end) r2).2).
  assert (Hassoc : forall (k : WorkingMemory -> M Runner unit),
             (do! ensureEntityName in let! wm0 := require_memory in k wm0) r2
             = k m' r3).
  { intros k. unfold bind in Hrun |- *.
    destruct (ensureEntityName r2) as [[[]|e|] r'];
      [|discriminate|discriminate].
    rewrite Hrun. reflexivity. }
  rewrite Hassoc. cbv zeta. rewrite Hlast'.
  apply after_bind.
  2:{ intros _. apply Hkeep.
      destruct (nonempty (Some message));
        [apply learn_facts_keeps_name|apply keeps_ret]. }
  unfold learn_name. rewrite Htruthy.
  assert (Hnonempty : nonempty (Some message) = true).
  { subst message. destruct opening; [discriminate|reflexivity]. }
  rewrite Hnonempty. cbn [negb andb]. subst message.
  rewrite (namePattern_takes_the_word _ _ _ _ Hopening Hblanks Hword Hrest).
  cbn [RegExp.capture Nat.eqb]. unfold P.
  rewrite set_result. cbn [snd]. rewrite store_after_save.
  cbn [soulMemoryStore set_store]. apply lookup_insert_eq.
Qed.

Lemma name_is_learnt_from_the_introduction_witness :
  soulMemoryStore
    (LocalRunner.processMessage "I am Ada, and I like chess" scholar_runner).2
    !! "userName"
  = Some (JStr "Ada").
Proof.
  apply (name_is_learnt_from_the_introduction "I am" " " "Ada"
           ", and I like chess" scholar_runner).
  - reflexivity.
  - vm_compute. eexists. reflexivity.
  - reflexivity.
  - apply (bool_decide_unpack _). vm_compute. exact I.
  - intros c _. exists (given c), (Some (JStr "Hello")).
    split; reflexivity.
  - reflexivity.
  - reflexivity.
  - reflexivity.
  - reflexivity.
Defined.

End NameFacts.

Section ProfileFacts.
Import Core LocalRunner.

#[local] Instance profile_stays_preorder : PreOrder profile_stays.
Proof.
  split; [intros r; split; reflexivity|].
  intros a b c [Hn Hf] [Hn' Hf']. split; congruence.
Qed.

Lemma set_keeps_profile (key : string) (value : JSON) :
  key <> "userName" -> key <> "userFacts" ->
  keeps profile_stays (set key value).
Proof.
  intros Hname Hfacts r. rewrite set_result. cbn [snd].
  unfold profile_stays. rewrite store_after_save.
  cbn [soulMemoryStore set_store].
  rewrite !lookup_insert_ne by congruence. split; reflexivity.
Qed.

(** The user is learnt about through the monologue step only.  When
    the step is not loaded, or rejects, a message leaves the "userName"
    and the "userFacts" of the store as they were, whatever it says. *)
Theorem nothing_is_learnt_without_the_monologue (message : string)
  (r : Runner) :
  monologue_fails r ->
  profile_stays r (LocalRunner.processMessage message r).2.
Proof.
  intros Hfails.
  set (P := fun r' : Runner => profile_stays r r').
  change (P (LocalRunner.processMessage message r).2).
  assert (Hsame : forall r', soulMemoryStore r' = soulMemoryStore r -> P r').
  { intros r' Hr'. unfold P, profile_stays. rewrite Hr'. split; reflexivity. }
  assert (Hkeep : forall A (m : M Runner A),
             keeps profile_stays m -> forall r', P r' -> P (m r').2).
  { intros A m Hm r' Hr'. unfold P. etransitivity; [exact Hr'|apply Hm]. }
  unfold LocalRunner.processMessage. rewrite bind_gets.
  destruct (isProcessing r); [apply Hsame; reflexivity|].
  rewrite bind_modify.
  apply after_try_finally; [|intros r' Hr'; exact Hr'].
  apply after_try_catch; [|intros _ r' Hr'; exact Hr'].
  destruct (workingMemory r) as [wm|] eqn:Hwm.
  2:{ unfold bind at 1, require_memory. cbn [workingMemory set_isProcessing].
      rewrite Hwm. apply Hsame. reflexivity. }
  set (r1 :=
         set_workingMemory
           (define_entityName (soulName r) (withMemory wm [plain User message]))
           (set_workingMemory (withMemory wm [plain User message])
              (set_isProcessing true r))).
  assert (Hpre :
            (let! wm := require_memory in
             do! modify (set_workingMemory (withMemory wm [plain User message])) in
             do! ensureEntityName in
             runCognitiveProcess) (set_isProcessing true r)
            = runCognitiveProcess r1).
  { unfold bind, require_memory, ensureEntityName, modify, gets.
    cbn -[runCognitiveProcess]. rewrite Hwm. reflexivity. }
  rewrite Hpre. unfold runCognitiveProcess, get. rewrite !bind_gets.
  apply after_bind.
  2:{ intros _. apply Hkeep.
      unfold response_step, response_fallback, has, now, get, emit_speaks.
      kept ltac:(first
        [ apply set_keeps_profile; discriminate
        | intros; split; reflexivity ]). }
  unfold has. rewrite bind_gets.
  change (cognitiveSteps r1) with (cognitiveSteps r).
  destruct (bool_decide ("internalMonologue" ∈ cognitiveSteps r)) eqn:Hloaded;
    [|apply Hsame; reflexivity].
  apply bool_decide_eq_true_1 in Hloaded.
  destruct Hfails as [Hmissing|Hrejects]; [contradiction|].
  apply after_try_catch; [|intros _ r' Hr'; exact Hr'].
  unfold reflection_step. unfold bind at 1.
  rewrite (call_run _ _ r1 _ eq_refl).
  match goal with
  | |- context [behaviour _ _ ?c] =>
      destruct (Hrejects c eq_refl) as (e & Hcall)
  end.
  change (host r1) with (host r). change (calls r1) with (calls r).
  rewrite Hcall. apply Hsame. reflexivity.
Qed.

Lemma nothing_is_learnt_without_the_monologue_witness :
  soulMemoryStore
    (LocalRunner.processMessage "my name is Ada"
       (set_cognitiveSteps {["externalDialog"]} scholar_runner)).2
    !! "userName"
  = None.
Proof.
  etransitivity.
  - apply nothing_is_learnt_without_the_monologue. left.
    cbn [cognitiveSteps set_cognitiveSteps]. intros H.
    apply elem_of_singleton in H. discriminate.
  - vm_compute. reflexivity.
Defined.

End ProfileFacts.

Section FactFacts.
Import Core LocalRunner.

#[local] Instance facts_grow_preorder : PreOrder facts_grow.
Proof.
  split.
  - intros r known Hf Hn. exists known. auto.
  - intros a b c Hab Hbc known Hf Hn.
    destruct (Hab known Hf Hn) as (known1 & Hf1 & Hn1 & Hp1).
    destruct (Hbc known1 Hf1 Hn1) as (known2 & Hf2 & Hn2 & Hp2).
    exists known2. split; [exact Hf2|]. split; [exact Hn2|].
    etransitivity; eassumption.
Qed.

Lemma facts_same_store (r r' : Runner) :
  soulMemoryStore r' !! "userFacts" = soulMemoryStore r !! "userFacts" ->
  facts_grow r r'.
Proof.
  intros Hsame known Hf Hn. exists known. split; [|auto].
  unfold facts in *. rewrite Hsame. exact Hf.
Qed.

Lemma set_keeps_facts (key : string) (value : JSON) :
  key <> "userFacts" -> keeps facts_grow (set key value).
Proof.
  intros Hkey r. apply facts_same_store. rewrite set_result. cbn [snd].
  rewrite store_after_save. cbn [soulMemoryStore set_store].
  rewrite lookup_insert_ne by congruence. reflexivity.
Qed.

Lemma as_strings_strings (known : list string) :
  as_strings (Some (JArr (map JStr known))) = known.
Proof.
  unfold as_strings. induction known as [|k known IH]; [reflexivity|].
  cbn [map omap list_omap]. fold (omap (fun j => match j with JStr s => Some s | _ => None end) (map JStr known)).
  rewrite IH. reflexivity.
Qed.

Lemma learn_facts_keeps_facts (text : string) (patterns : list RegExp.regex) :
  keeps facts_grow (learn_facts patterns text).
Proof.
  induction patterns as [|p rest IH]; simpl; [apply keeps_ret|].
  apply keeps_bind; [|intros _; exact IH].
  destruct (RegExp.exec p text) as [[fact c]|]; [|apply keeps_ret].
  apply keeps_bind_gets. intros r known Hf Hn.
  assert (Hread : as_strings (soulMemoryStore r !! "userFacts") = known).
  { destruct Hf as [[-> ->] | ->]; [reflexivity|apply as_strings_strings]. }
  rewrite Hread. destruct (bool_decide (fact ∈ known)) eqn:Hin.
  - exists known. auto.
  - apply bool_decide_eq_false in Hin.
    exists (known ++ [fact]). rewrite set_result. cbn [snd].
    split; [|split].
    + right. rewrite store_after_save. cbn [soulMemoryStore set_store].
      rewrite lookup_insert_eq. reflexivity.
    + apply NoDup_app. split; [exact Hn|]. split; [|apply NoDup_singleton].
      intros x Hx Hx'. apply list_elem_of_singleton in Hx'. subst x. auto.
    + apply prefix_app_r. reflexivity.
Qed.

(** The facts about the user are kept in order and without duplicates:
    when the store holds a list of facts that has none, a message leaves
    a list that starts with it and has none either, whatever the message
    says and whatever the steps do. *)
Theorem facts_are_kept_without_duplicates (message : string) (r : Runner)
  (known : list string) :
  facts r known -> NoDup known ->
  exists known',
    facts (LocalRunner.processMessage message r).2 known'
    /\ NoDup known'
    /\ known `prefix_of` known'.
Proof.
  assert (Hall : keeps facts_grow (LocalRunner.processMessage message)).
  { unfold LocalRunner.processMessage, runCognitiveProcess, reflection_step,
      response_step, response_fallback, learn_name, has, now, get,
      emit_speaks.
    kept ltac:(first
      [ apply learn_facts_keeps_facts
      | apply set_keeps_facts; discriminate
      | intros; apply facts_same_store; reflexivity ]). }
  apply (Hall r).
Qed.

Lemma facts_are_kept_without_duplicates_witness :
  exists known',
    facts (LocalRunner.processMessage "I like chess and I work at a bank"
             informed_runner).2 known'
    /\ NoDup known'
    /\ ["I like chess"] `prefix_of` known'.
Proof.
  apply facts_are_kept_without_duplicates.
  - right. vm_compute. reflexivity.
  - apply NoDup_singleton.
Defined.

End FactFacts.

Section ReplyFacts.
Import Core LocalRunner.

#[local] Instance unspoken_preorder : PreOrder unspoken.
Proof.
  split.
  - intros r. unfold unspoken. auto 10.
  - intros a b c (H1 & H2 & H3 & H4 & H5 & H6 & H7)
      (G1 & G2 & G3 & G4 & G5 & G6 & G7).
    unfold unspoken. rewrite G1, G2, G3, G4, G6, G7. auto 10.
Qed.

Lemma set_unspoken (key : string) (value : JSON) :
  key <> "conversationCount" -> key <> "conversationSummaries" ->
  keeps unspoken (set key value).
Proof.
  intros H1 H2 r. rewrite set_result. cbn [snd].
  unfold unspoken, saveMemoriesToFile, modify. cbn [snd].
  destruct (writable (disk (set_store _ r))); cbn;
    rewrite !lookup_insert_ne by congruence; auto 10.
Qed.

Lemma learn_facts_unspoken (text : string) (patterns : list RegExp.regex) :
  keeps unspoken (learn_facts patterns text).
Proof.
  induction patterns as [|p rest IH]; simpl; [apply keeps_ret|].
  apply keeps_bind; [|intros _; exact IH].
  destruct (RegExp.exec p text) as [[fact c]|]; [|apply keeps_ret].
  apply keeps_bind; [apply keeps_gets|intros stored].
  destruct (bool_decide _); [apply keeps_ret|].
  apply set_unspoken; discriminate.
Qed.

(** Step 1 says nothing and always returns. *)
Lemma reflection_is_silent (u : option JSON) (userFacts : list string)
  (r : Runner) :
  let block :=
    let! loaded := has "internalMonologue" in
    if loaded : bool then
      try_catch (reflection_step u userFacts) (fun _ => ret tt)
    else ret tt in
  (block r).1 = Returned tt /\ unspoken r (block r).2.
Proof.
  intros block. split.
  - subst block. unfold has. rewrite bind_gets.
    destruct (bool_decide _); [|reflexivity].
    assert (Hp : phase all_steps (reflection_step u userFacts)).
    { unfold reflection_step, learn_name, all_steps.
      apply phase_bind; [runs|intros [newMemory thought]].
      apply phase_bind; [runs|intros _].
      apply phase_bind; [runs|intros _].
      apply phase_bind; [runs|intros wm].
      apply phase_bind; [runs|intros _].
      destruct (lastUserMessage wm); [|apply phase_ret].
      destruct (nonempty _); [apply learn_facts_phase|apply phase_ret]. }
    unfold try_catch.
    destruct (reflection_step u userFacts r) as [[[]|e|] r1] eqn:Hr;
      try reflexivity.
    destruct (Hp r _ _ Hr) as (_ & _ & [[a Ha]|[e He]]); discriminate.
  - assert (Hk : keeps unspoken block).
    { subst block.
      unfold reflection_step, learn_name, has, get.
      kept ltac:(first
        [ apply learn_facts_unspoken
        | apply set_unspoken; discriminate
        | intros; unfold unspoken; cbn; auto 10 ]). }
    apply Hk.
Qed.

(** Step 2 says one thing and always returns. *)
Lemma response_is_spoken (u : option JSON) (count : Z) (r : Runner) :
  is_Some (workingMemory r) ->
  exists r' reply,
    try_catch (response_step u count) (fun _ => response_fallback) r
    = (Returned tt, r')
    /\ isProcessing r' = isProcessing r
    /\ spoken r' = spoken r ++ [reply]
    /\ (soulMemoryStore r' !! "conversationCount" = Some (JNum (count + 1))
        \/ (reply = Some (JStr fallbackResponse)
            /\ soulMemoryStore r' !! "conversationCount"
               = soulMemoryStore r !! "conversationCount")).
Proof.
  intros [wm Hwm].
  unfold try_catch, response_step. unfold bind at 1.
  rewrite (call_run _ _ r wm Hwm).
  destruct (behaviour _ _ _) as [[newMemory response]|e].
  - unfold ensureEntityName, emit_speaks, set, get, now, saveMemoriesToFile,
      require_memory, bind, modify, gets.
    cbn -[insert lookup Z.rem].
    destruct (entityName newMemory); cbn -[insert lookup Z.rem];
      destruct ((count + 1) `rem` 5 =? 0); cbn -[insert lookup];
      destruct (writable (disk r)) eqn:Hw; cbn -[insert lookup];
      rewrite ?Hw; cbn -[insert lookup];
      (eexists _, _; split; [reflexivity|]; split; [reflexivity|];
       split; [reflexivity|]; left;
       cbn -[insert lookup];
       rewrite ?lookup_insert_ne by discriminate;
       rewrite lookup_insert_eq; reflexivity).
  - unfold response_fallback, ensureEntityName, emit_speaks, require_memory,
      bind, modify, gets.
    cbn -[insert lookup]. rewrite Hwm. cbn -[insert lookup].
    eexists _, _. split; [reflexivity|]. split; [reflexivity|].
    split; [reflexivity|]. right. split; reflexivity.
Qed.



End ReplyFacts.

Section TypedFacts.
Import Core LocalRunner.

#[local] Instance stays_typed_preorder : PreOrder stays_typed.
Proof.
  split; [intros r H; exact H|]. intros a b c Hab Hbc H. apply Hbc, Hab, H.
Qed.

Lemma typed_same_store (r r' : Runner) :
  soulMemoryStore r' = soulMemoryStore r -> stays_typed r r'.
Proof. intros Hsame Ht. unfold demo_typed in *. rewrite Hsame. exact Ht. Qed.

Lemma count_stays_typed (count : Z) :
  0 <= count ->
  keeps stays_typed
    (DemoRunner.setSoulMemory "conversationCount" (JNum (count + 1))).
Proof.
  intros Hcount r (Hc & Hi & Hn). unfold demo_typed.
  cbn [DemoRunner.setSoulMemory modify snd soulMemoryStore set_store].
  rewrite lookup_insert_eq.
  rewrite !lookup_insert_ne by discriminate.
  split; [lia|]. split; assumption.
Qed.

Lemma name_stays_typed (name : string) :
  keeps stays_typed (DemoRunner.setSoulMemory "userName" (JStr name)).
Proof.
  intros r (Hc & Hi & Hn). unfold demo_typed.
  cbn [DemoRunner.setSoulMemory modify snd soulMemoryStore set_store].
  rewrite lookup_insert_eq.
  rewrite !lookup_insert_ne by discriminate.
  split; [exact Hc|]. split; [exact Hi|exact I].
Qed.

Lemma interests_stay_typed (mentioned : bool) :
  keeps stays_typed
    (let! stored := DemoRunner.getSoulMemory "userInterests" in
     if mentioned then
       let! interests :=
         await (Engine.push_onto stored (JStr "general_conversation")) in
       DemoRunner.setSoulMemory "userInterests" interests
     else ret tt).
Proof.
  unfold DemoRunner.getSoulMemory. apply keeps_bind_gets.
  intros r Ht. destruct mentioned; [|exact Ht].
  pose proof Ht as (Hc & Hi & Hn).
  destruct (soulMemoryStore r !! "userInterests") as [[| | | |items|]|] eqn:Hs;
    try contradiction.
  - cbn [Engine.push_onto await bind ret DemoRunner.setSoulMemory modify snd].
    unfold demo_typed. cbn [soulMemoryStore set_store].
    rewrite lookup_insert_eq. rewrite !lookup_insert_ne by discriminate.
    split; [exact Hc|]. split; [|exact Hn].
    destruct Hi as [Hne Hall]. split; [destruct items; discriminate|].
    apply Forall_app. split; [exact Hall|]. repeat constructor.
  - cbn [Engine.push_onto Engine.truthy await bind ret
           DemoRunner.setSoulMemory modify snd].
    unfold demo_typed. cbn [soulMemoryStore set_store].
    rewrite lookup_insert_eq. rewrite !lookup_insert_ne by discriminate.
    split; [exact Hc|]. split; [|exact Hn].
    split; [discriminate|]. repeat constructor.
Qed.

Ltac typed_leaf :=
  first
    [ apply name_stays_typed
    | intros; apply typed_same_store; reflexivity ].

Lemma memoryPhase_stays_typed : keeps stays_typed DemoRunner.memoryPhase.
Proof.
  unfold DemoRunner.memoryPhase, DemoRunner.getSoulMemory.
  apply keeps_bind; [apply keeps_gets|intros userName].
  apply keeps_bind_gets. intros r Ht.
  assert (Hcount : 0 <= as_number (soulMemoryStore r !! "conversationCount")).
  { destruct Ht as (Hc & _).
    destruct (soulMemoryStore r !! "conversationCount") as [[]|];
      simpl in *; try contradiction; lia. }
  cbv beta.
  remember (as_number (soulMemoryStore r !! "conversationCount")) as count
    eqn:Hread.
  clear Hread.
  match goal with
  | |- demo_typed (?m r).2 => assert (Hm : keeps stays_typed m)
  end.
  { unfold DemoRunner.run_step_if_loaded, has.
    kept ltac:(first [apply count_stays_typed; exact Hcount | typed_leaf]). }
  exact (Hm r Ht).
Qed.

Lemma extract_stays_typed : keeps stays_typed DemoRunner.extractAndStoreUserInfo.
Proof.
  unfold DemoRunner.extractAndStoreUserInfo.
  apply keeps_bind; [apply keeps_require_memory|intros wm].
  apply keeps_bind; [kept typed_leaf|intros _].
  apply interests_stay_typed.
Qed.

Lemma demo_process_stays_typed (message : string) :
  keeps stays_typed (DemoRunner.processMessage message).
Proof.
  unfold DemoRunner.processMessage, DemoRunner.runCognitiveProcess.
  assert (Hh : keeps stays_typed DemoRunner.handleCognitiveError).
  { unfold DemoRunner.handleCognitiveError, emit_speaks. kept typed_leaf. }
  assert (Hg : forall i, keeps stays_typed (DemoRunner.generateResponse i)).
  { intros i. unfold DemoRunner.generateResponse, has, emit_speaks.
    kept ltac:(first [apply Hh | typed_leaf]). }
  unfold DemoRunner.perceptionPhase, DemoRunner.decisionPhase,
    DemoRunner.subprocessPhase, DemoRunner.learningSubprocess,
    DemoRunner.teachingSubprocess, DemoRunner.emotionalSupportSubprocess,
    DemoRunner.brainstormingSubprocess, DemoRunner.explorationSubprocess,
    DemoRunner.reflectionPhase, DemoRunner.run_step_if_loaded, has.
  kept ltac:(first
    [ apply Hh | apply Hg | apply memoryPhase_stays_typed
    | apply extract_stays_typed | typed_leaf ]).
Qed.

(** The soul memory of the phased runner only ever holds what its reads
    expect.  From a new runner, initialised or not, and after any
    messages, whatever the steps do: the counter of conversations is a
    number above zero, the interests are one or more entries
    "general_conversation", the name is a text, or the key is absent; so
    the [|| 0] and [|| []] of the reads and the [push] on the interests
    never meet a value of another type. *)
Theorem demo_store_stays_typed (name : string) (h : Host)
  (messages : list string) :
  demo_typed
    (demo_session messages
       (DemoRunner.initialize (DemoRunner.new_LocalSoulRunner name h)).2).
Proof.
  assert (Hstart :
            demo_typed
              (DemoRunner.initialize (DemoRunner.new_LocalSoulRunner name h)).2).
  { assert (Hi : keeps stays_typed DemoRunner.initialize).
    { unfold DemoRunner.initialize, loadCognitiveSteps.
      apply keeps_bind; [apply keeps_gets|intros h0].
      destruct (blueprintFile h0); [|apply keeps_throw].
      kept ltac:(first [ typed_leaf
                       | intros r0; destruct (stepExports (host r0));
                         apply typed_same_store; reflexivity ]). }
    apply Hi. unfold demo_typed. cbn. rewrite !lookup_empty. auto. }
  revert Hstart. generalize (DemoRunner.initialize
                               (DemoRunner.new_LocalSoulRunner name h)).2.
  unfold demo_session.
  induction messages as [|message messages IH]; intros r Ht; [exact Ht|].
  cbn [foldl]. apply IH. apply demo_process_stays_typed. exact Ht.
Qed.

End TypedFacts.

Section DemoReplyFacts.
Import Core LocalRunner.

#[local] Instance hushed_preorder : PreOrder hushed.
Proof.
  split.
  - intros r. unfold hushed. auto.
  - intros a b c (H1 & H2 & H3) (G1 & G2 & G3).
    unfold hushed. rewrite G1, G2. auto.
Qed.

Ltac hush :=
  kept ltac:(first
    [ intros; unfold hushed; cbn; auto
    | intros r0; destruct (stepExports (host r0)); unfold hushed; cbn; auto ]).

(** A block that says nothing, in front of what follows it. *)
Lemma silent_prefix {A B : Type} (names : list string) (m : M Runner A)
  (k : A -> M Runner B) (r : Runner) :
  keeps hushed m -> phase names m ->
  exists r1,
    hushed r r1
    /\ ((exists a, bind m k r = k a r1)
        \/ (exists e, bind m k r = (Thrown e, r1))).
Proof.
  intros Hk Hp. specialize (Hk r). unfold bind.
  destruct (m r) as [[a|e|] r1] eqn:Hm; cbn [snd] in Hk.
  - exists r1. split; [exact Hk|]. left. eauto.
  - exists r1. split; [exact Hk|]. right. eauto.
  - destruct (Hp r _ _ Hm) as (_ & _ & [[a Ha]|[e He]]); discriminate.
Qed.

Lemma handleCognitiveError_apologises (r : Runner) :
  is_Some (workingMemory r) ->
  exists r',
    DemoRunner.handleCognitiveError r = (Returned tt, r')
    /\ spoken r' = spoken r ++ [Some (JStr DemoRunner.fallbackResponse)]
    /\ cognitiveSteps r' = cognitiveSteps r
    /\ is_Some (workingMemory r').
Proof.
  intros [wm Hwm].
  unfold DemoRunner.handleCognitiveError, ensureEntityName, emit_speaks,
    require_memory, bind, modify, gets.
  cbn. rewrite Hwm. cbn.
  eexists. split; [reflexivity|]. cbn. auto.
Qed.

Lemma generateResponse_replies (instructions : string) (r : Runner) :
  is_Some (workingMemory r) ->
  "externalDialog" ∈ cognitiveSteps r ->
  exists r' reply,
    DemoRunner.generateResponse instructions r = (Returned tt, r')
    /\ spoken r' = spoken r ++ [reply]
    /\ cognitiveSteps r' = cognitiveSteps r
    /\ is_Some (workingMemory r').
Proof.
  intros [wm Hwm] Hloaded. unfold DemoRunner.generateResponse, has.
  rewrite bind_gets, bool_decide_eq_true_2 by exact Hloaded.
  unfold try_catch. unfold bind at 1. rewrite (call_run _ _ r wm Hwm).
  destruct (behaviour _ _ _) as [[newMemory response]|e].
  - unfold ensureEntityName, emit_speaks, require_memory, bind, modify, gets.
    cbn. destruct (entityName newMemory); cbn;
      eexists _, _; (split; [reflexivity|]); cbn; auto.
  - destruct (handleCognitiveError_apologises
                (add_call {| callee := "externalDialog"; given := wm;
                             options :=
                               [ ("instructions", Engine.OStr instructions);
                                 ("stream", Engine.OBool false);
                                 ("model", Engine.OStr "quality") ] |} r))
      as (r' & -> & Hs & Hc & Hw); [cbn; eauto|].
    exists r', (Some (JStr DemoRunner.fallbackResponse)).
    split; [reflexivity|]. auto.
Qed.

Lemma silent_then {A : Type} (names : list string) (m : M Runner A)
  (k : A -> M Runner unit) (r : Runner) :
  keeps hushed m -> phase names m ->
  (forall a r1,
     is_Some (workingMemory r1) -> cognitiveSteps r1 = cognitiveSteps r ->
     replied_or_failed r1 (k a r1)) ->
  is_Some (workingMemory r) ->
  replied_or_failed r (bind m k r).
Proof.
  intros Hk Hp Hrest Hwm.
  destruct (silent_prefix names m k r Hk Hp)
    as (r1 & (Hs & Hc & Hw) & [[a Ha]|[e He]]).
  - rewrite Ha. destruct (Hrest a r1 (Hw Hwm) Hc) as (Hw2 & Hc2 & Ho).
    split; [exact Hw2|]. split; [congruence|].
    rewrite <- Hs. exact Ho.
  - rewrite He. cbn [fst snd]. split; [exact (Hw Hwm)|].
    split; [exact Hc|]. left. exact Hs.
Qed.

Lemma run_step_is_silent (name : string) (opts : Engine.StepOptions) :
  keeps hushed (DemoRunner.run_step_if_loaded name opts)
  /\ (name ∈ all_steps ->
      phase all_steps (DemoRunner.run_step_if_loaded name opts)).
Proof.
  split.
  - unfold DemoRunner.run_step_if_loaded, has. hush.
  - intros Hin. unfold DemoRunner.run_step_if_loaded.
    apply phase_bind; [apply phase_has|intros loaded].
    destruct loaded; [|apply phase_ret].
    apply phase_bind; [apply phase_call; exact Hin|intros [newMemory value]].
    runs.
Qed.

Lemma reflectionPhase_is_silent :
  keeps hushed DemoRunner.reflectionPhase
  /\ phase all_steps DemoRunner.reflectionPhase.
Proof.
  split.
  - unfold DemoRunner.reflectionPhase, DemoRunner.run_step_if_loaded,
      DemoRunner.extractAndStoreUserInfo, DemoRunner.getSoulMemory,
      DemoRunner.setSoulMemory, has.
    hush.
  - unfold DemoRunner.reflectionPhase, DemoRunner.run_step_if_loaded,
      DemoRunner.extractAndStoreUserInfo, DemoRunner.getSoulMemory, all_steps.
    runs.
Qed.

(** A subprocess: a step that may be missing, then the reply. *)
Lemma subprocess_replies (name : string) (opts : Engine.StepOptions)
  (instructions : string) (r : Runner) :
  name ∈ all_steps ->
  is_Some (workingMemory r) ->
  "externalDialog" ∈ cognitiveSteps r ->
  replied_or_failed r
    ((do! (do! DemoRunner.run_step_if_loaded name opts in
           DemoRunner.generateResponse instructions) in
      DemoRunner.reflectionPhase) r).
Proof.
  intros Hname Hwm Hloaded.
  destruct (run_step_is_silent name opts) as [Hk Hp].
  destruct (silent_prefix all_steps _
              (fun _ => DemoRunner.generateResponse instructions) r Hk
              (Hp Hname))
    as (r1 & (Hs1 & Hc1 & Hw1) & [[a Ha]|[e He]]).
  - destruct (generateResponse_replies instructions r1 (Hw1 Hwm))
      as (r2 & reply & Hg & Hs2 & Hc2 & Hw2); [rewrite Hc1; exact Hloaded|].
    unfold bind at 1. rewrite Ha, Hg.
    destruct reflectionPhase_is_silent as [Hk3 Hp3].
    pose proof (Hk3 r2) as H3.
    destruct (DemoRunner.reflectionPhase r2) as [[[]|e|] r3] eqn:Hr;
      cbn [fst snd] in *; destruct H3 as (Hs3 & Hc3 & Hw3).
    + unfold replied_or_failed. cbn [fst snd].
      split; [exact (Hw3 Hw2)|]. split; [congruence|].
      exists reply. congruence.
    + unfold replied_or_failed. cbn [fst snd].
      split; [exact (Hw3 Hw2)|]. split; [congruence|].
      right. exists reply. congruence.
    + destruct (Hp3 r2 _ _ Hr) as (_ & _ & [[a0 Ha0]|[e He]]); discriminate.
  - unfold bind at 1. rewrite He. cbn [fst snd].
    split; [exact (Hw1 Hwm)|]. split; [exact Hc1|]. left. exact Hs1.
Qed.

Lemma subprocessPhase_replies (interactionMode : option JSON) (r : Runner) :
  is_Some (workingMemory r) ->
  "externalDialog" ∈ cognitiveSteps r ->
  replied_or_failed r
    ((do! DemoRunner.subprocessPhase interactionMode in
      DemoRunner.reflectionPhase) r).
Proof.
  intros Hwm Hloaded. unfold DemoRunner.subprocessPhase.
  repeat match goal with
         | |- context [if ?b then _ else _] => destruct b
         end;
    apply subprocess_replies; solve [assumption | unfold all_steps; listed].
Qed.



End DemoReplyFacts.

(** ** Mental processes: what a run that returns has done *)

Section ReturnFacts.
Import Core Engine.

Lemma bind_returned {S A B : Type} (m : M S A) (g : A -> M S B) (s s' : S)
  (b : B) :
  bind m g s = (Returned b, s') ->
  exists a s1, m s = (Returned a, s1) /\ g a s1 = (Returned b, s').
Proof.
  unfold bind. destruct (m s) as [[a|e|] s1]; intros H;
    [eauto|discriminate|discriminate].
Qed.

Lemma step_returned (name : string) (memory : Value) (options : StepOptions)
  (w w' : World) (v : Value) :
  step name memory options w = (Returned v, w') ->
  w' = emit (Step name memory options) w.
Proof.
  unfold step. destruct (steps w (trace w) name memory options);
    simpl; intros H; [injection H as _ <-; reflexivity|discriminate].
Qed.

Lemma destructure_returned (v : Value) (w w' : World) (p : Value * Value) :
  destructure v w = (Returned p, w') -> w' = w.
Proof.
  unfold destructure. destruct v as [|[]| | |]; simpl; intros H;
    try discriminate; injection H as _ <-; reflexivity.
Qed.

Lemma await_returned {A : Type} (p : Settled A) (w w' : World) (a : A) :
  await p w = (Returned a, w') -> p = Fulfilled a /\ w' = w.
Proof.
  destruct p; simpl; intros H; [|discriminate].
  injection H as <- <-. auto.
Qed.

End ReturnFacts.

(** Take the first step of a run that has returned. *)
Ltac first_step H a :=
  let w := fresh "w" in
  let H1 := fresh "Hstep" in
  apply bind_returned in H as (a & w & H1 & H);
  first
    [ apply step_returned in H1
    | apply destructure_returned in H1
    | apply await_returned in H1 as [H1 ?]
    | injection H1 as ? ?
    | idtac ];
  subst.

Section LearningRecordFacts.
Import Core Engine Learning.

(** A turn that returns has asked one question and left the soul memory
    alone; it leaves the loop only before the last turn but one. *)
Lemma learning_turn_returned (params : option LearningParams)
  (maxQ q : Z) (memory memory' : Value) (broke : bool) (w w' : World) :
  learning_turn params maxQ q memory w = (Returned (memory', broke), w') ->
  exists evs,
    trace w' = trace w ++ evs
    /\ questions evs = 1%nat
    /\ soulMemory w' = soulMemory w
    /\ (broke = true -> q < maxQ - 1).
Proof.
  unfold learning_turn, mentalQuery, externalDialog, perceive,
    internalMonologue, decision, speak, log.
  intros H.
  first_step H m1. first_step H answer. first_step H qa.
  destruct qa as [qm qs].
  first_step H u1. first_step H m2. first_step H m3.
  destruct (q <? maxQ - 1) eqn:Hq.
  - first_step H decided. destruct (strict_eq decided "synthesize_now").
    + first_step H u2. injection H as <- <- <-.
      eexists. cbn [trace emit soulMemory]. rewrite <- !app_assoc.
      split; [reflexivity|]. split; [reflexivity|]. split; [reflexivity|].
      intros _. apply Z.ltb_lt. exact Hq.
    + injection H as <- <- <-.
      eexists. cbn [trace emit soulMemory]. rewrite <- !app_assoc.
      split; [reflexivity|]. split; [reflexivity|]. split; [reflexivity|].
      discriminate.
  - injection H as <- <- <-.
    eexists. cbn [trace emit soulMemory]. rewrite <- !app_assoc.
    split; [reflexivity|]. split; [reflexivity|]. split; [reflexivity|].
    discriminate.
Qed.

Lemma questions_app (a b : list Event) :
  questions (a ++ b) = (questions a + questions b)%nat.
Proof. unfold questions. rewrite filter_app, length_app. reflexivity. Qed.

Lemma questions_skip (e : Event) (evs : list Event) :
  is_question e = false -> questions (e :: evs) = questions evs.
Proof.
  intros He. unfold questions. rewrite filter_cons_False by congruence.
  reflexivity.
Qed.

(** The loop, when it returns: it stopped at the bound, having asked as
    many questions as it counts, or it was left early, and then the
    question of the turn it was left in is not counted. *)
Lemma learning_loop_returned (params : option LearningParams) (maxQ : Z)
  (fuel : nat) :
  forall (q : Z) (memory memory' : Value) (q' : Z) (w w' : World),
    q <= maxQ ->
    learning_loop fuel params maxQ q memory w = (Returned (memory', q'), w') ->
    exists evs,
      trace w' = trace w ++ evs
      /\ soulMemory w' = soulMemory w
      /\ q <= q'
      /\ ((q' = maxQ /\ Z.of_nat (questions evs) = q' - q)
          \/ (q' < maxQ - 1 /\ Z.of_nat (questions evs) = q' - q + 1)).
Proof.
  induction fuel as [|fuel IH]; intros q memory memory' q' w w' Hq H;
    cbn [learning_loop] in H; destruct (q <? maxQ) eqn:Hlt;
    try discriminate.
  - injection H as <- <- <-. exists []. rewrite app_nil_r.
    apply Z.ltb_ge in Hlt.
    split; [reflexivity|]. split; [reflexivity|]. split; [lia|].
    left. split; [lia|]. rewrite Z.sub_diag. reflexivity.
  - apply bind_returned in H as ([memory1 broke] & w1 & Hturn & H).
    apply learning_turn_returned in Hturn as (evs1 & Ht1 & Hq1 & Hm1 & Hb1).
    apply Z.ltb_lt in Hlt. destruct broke.
    + injection H as <- <- <-. exists evs1.
      split; [exact Ht1|]. split; [exact Hm1|]. split; [lia|].
      right. specialize (Hb1 eq_refl). lia.
    + apply IH in H as (evs2 & Ht2 & Hm2 & Hle & Hcases); [|lia].
      exists (evs1 ++ evs2). rewrite Ht2, Ht1, app_assoc, questions_app.
      split; [reflexivity|]. split; [congruence|]. split; [lia|].
      destruct Hcases as [[-> Hn]|[Hlast Hn]]; [left|right]; lia.
  - injection H as <- <- <-. exists []. rewrite app_nil_r.
    apply Z.ltb_ge in Hlt.
    split; [reflexivity|]. split; [reflexivity|]. split; [lia|].
    left. split; [lia|]. rewrite Z.sub_diag. reflexivity.
Qed.

(** What the learning process records.  A run that returns has appended
    one record to "userLearnings" (an absent or falsy entry counts as
    the empty list) and changed nothing else of the soul memory.  The
    [questionsAsked] of the record counts the turns that ran to their
    end: it is the bound when the loop ran out, and it is one less than
    the number of questions put to the user when the soul chose to
    synthesize, which it can only do before the last turn. *)
Theorem learning_record_counts_completed_turns (fuel : nat)
  (args : ProcessArgs LearningParams) (w w' : World) (v : Value) :
  learningProcess_body fuel args w = (Returned v, w') ->
  exists evs timestamp recorded earlier,
    trace w' = trace w ++ evs
    /\ soulMemory w'
       = <["userLearnings" :=
             JArr (earlier
                   ++ [learning_record (params args) timestamp recorded])]>
           (soulMemory w)
    /\ (soulMemory w !! "userLearnings" = Some (JArr earlier)
        \/ (truthy (soulMemory w !! "userLearnings") = false
            /\ earlier = []))
    /\ ((recorded = maxQuestions (params args)
         /\ Z.of_nat (questions evs) = recorded)
        \/ (0 <= recorded < maxQuestions (params args) - 1
            /\ Z.of_nat (questions evs) = recorded + 1)).
Proof.
  unfold learningProcess_body, mentalQuery, externalDialog, internalMonologue,
    speak, log, get, set, now.
  intros H. first_step H m0.
  apply bind_returned in H as ([memory1 recorded] & w1 & Hloop & H).
  apply learning_loop_returned in Hloop as (evs & Ht & Hm & Hle & Hcases);
    [|pose proof (maxQuestions_range (params args)); lia].
  first_step H m2. first_step H stored. first_step H timestamp.
  first_step H learnings. first_step H u1. first_step H answer.
  first_step H fs. destruct fs as [finalMemory finalStream].
  first_step H u2. first_step H u3. injection H as <- <-.
  cbn [trace emit soulMemory] in *.
  rewrite Hm in *.
  match goal with
  | Hp : push_onto ?stored ?record = Fulfilled learnings |- _ =>
      assert (Hpush :
                exists earlier,
                  learnings = JArr (earlier ++ [record])
                  /\ (stored = Some (JArr earlier)
                      \/ (truthy stored = false /\ earlier = [])));
      [ unfold push_onto in Hp;
        destruct (soulMemory w !! "userLearnings")
          as [[|[]|[]|[]|items|]|];
        cbn in Hp; try discriminate; injection Hp as <-;
        first [ exists items; split; [reflexivity|left; reflexivity]
              | exists []; split; [reflexivity|right; split; reflexivity] ]
      | clear Hp ]
  end.
  destruct Hpush as (earlier & -> & Hearlier).
  eexists _, _, recorded, earlier. rewrite Ht.
  rewrite <- !app_assoc. split; [reflexivity|].
  split; [reflexivity|]. split; [exact Hearlier|].
  rewrite questions_app, questions_app.
  cbn [app]. rewrite !questions_skip by reflexivity.
  change (questions []) with 0%nat.
  destruct Hcases as [[-> Hn]|[Hlast Hn]]; [left|right]; lia.
Qed.

Lemma learning_record_counts_completed_turns_witness :
  exists v w',
    learningProcess_body 5 learning_args patient_world = (Returned v, w')
    /\ exists evs timestamp,
         trace w' = evs
         /\ soulMemory w' !! "userLearnings"
            = Some (JArr [learning_record (params learning_args) timestamp 5])
         /\ questions evs = 5%nat.
Proof.
  set (run := learningProcess_body 5 learning_args patient_world).
  assert (Hrun : exists v, run = (Returned v, run.2))
    by (vm_compute; eexists; reflexivity).
  destruct Hrun as [v Hv]. exists v, run.2. split; [exact Hv|].
  destruct (learning_record_counts_completed_turns 5 learning_args
              patient_world run.2 v Hv)
    as (evs & timestamp & recorded & earlier & Ht & Hm & Hearlier & Hcases).
  assert (earlier = []) as ->.
  { destruct Hearlier as [He|[_ He]]; [discriminate|exact He]. }
  assert (recorded = 5) as ->.
  { destruct Hcases as [[-> _]|[Hr Hq]]; [reflexivity|].
    assert (Hall : questions (trace run.2) = 5%nat)
      by (vm_compute; reflexivity).
    rewrite Ht in Hall. cbn [trace patient_world app] in Hall.
    change (maxQuestions (params learning_args)) with 5 in Hr. lia. }
  exists evs, timestamp. split; [exact Ht|].
  split; [rewrite Hm, lookup_insert_eq; reflexivity|].
  destruct Hcases as [[_ Hq]|[Hr _]];
    [lia|change (maxQuestions (params learning_args)) with 5 in Hr; lia].
Defined.

End LearningRecordFacts.

Section EmotionalFacts.
Import Core Engine Emotional.

Lemma count_skip (f : Event -> bool) (e : Event) (evs : list Event) :
  f e = false -> count f (e :: evs) = count f evs.
Proof.
  intros He. unfold count. rewrite filter_cons_False by congruence.
  reflexivity.
Qed.

Lemma count_take (f : Event -> bool) (e : Event) (evs : list Event) :
  f e = true -> count f (e :: evs) = S (count f evs).
Proof.
  intros He. unfold count. rewrite filter_cons_True by exact He.
  reflexivity.
Qed.

(** What the emotional process has done when it returns: it spoke four
    times, and a fifth time when the intensity was "intensive" or
    "moderate"; it appended one record, marked successful, to
    "emotionalInteractions" (an absent or falsy entry counts as the
    empty list) and changed nothing else of the soul memory. *)
Theorem emotional_support_speaks_and_records
  (args : ProcessArgs EmotionalParams) (w w' : World) (v : Value) :
  emotionalProcess_body args w = (Returned v, w') ->
  exists evs timestamp earlier,
    trace w' = trace w ++ evs
    /\ count is_speak evs
       = (if intensity_is (params args) "intensive"
             || intensity_is (params args) "moderate"
          then 5 else 4)%nat
    /\ soulMemory w'
       = <["emotionalInteractions" :=
             JArr (earlier ++ [emotional_record (params args) timestamp])]>
           (soulMemory w)
    /\ (soulMemory w !! "emotionalInteractions" = Some (JArr earlier)
        \/ (truthy (soulMemory w !! "emotionalInteractions") = false
            /\ earlier = [])).
Proof.
  unfold emotionalProcess_body, mentalQuery, externalDialog, internalMonologue,
    perceive, reflect, speak, log, get, set, now.
  intros H.
  first_step H m1. first_step H m2. first_step H m3.
  first_step H a1. first_step H p1. destruct p1 as [supportMemory supportStream].
  first_step H u1. first_step H m4.
  first_step H a2. first_step H p2. destruct p2 as [empathyMemory empathyStream].
  first_step H u2. first_step H m5.
  apply bind_returned in H as (m6 & w6 & Hextra & H).
  assert (Hw6 :
            exists extra,
              trace w6 = trace w ++ extra
              /\ soulMemory w6 = soulMemory w
              /\ count is_speak extra
                 = (if intensity_is (params args) "intensive"
                       || intensity_is (params args) "moderate"
                    then 3 else 2)%nat).
  { destruct (intensity_is (params args) "intensive").
    - first_step Hextra a3. first_step Hextra p3.
      destruct p3 as [insightMemory insightStream].
      first_step Hextra u3. injection Hextra as <- <-.
      cbn [trace emit soulMemory]. rewrite <- !app_assoc.
      eexists. split; [reflexivity|]. split; [reflexivity|]. reflexivity.
    - destruct (intensity_is (params args) "moderate").
      + first_step Hextra a3. first_step Hextra p3.
        destruct p3 as [practicalMemory practicalStream].
        first_step Hextra u3. injection Hextra as <- <-.
        cbn [trace emit soulMemory]. rewrite <- !app_assoc.
        eexists. split; [reflexivity|]. split; [reflexivity|]. reflexivity.
      + injection Hextra as <- <-.
        cbn [trace emit soulMemory]. rewrite <- !app_assoc.
        eexists. split; [reflexivity|]. split; [reflexivity|]. reflexivity. }
  destruct Hw6 as (extra & Ht6 & Hm6 & Hcount).
  first_step H a4. first_step H p4. destruct p4 as [checkInMemory checkInStream].
  first_step H u4. first_step H stored. first_step H timestamp.
  first_step H history. first_step H u5.
  first_step H a5. first_step H p5. destruct p5 as [closingMemory closingStream].
  first_step H u6. first_step H m7. first_step H u7. injection H as <- <-.
  cbn [trace emit soulMemory] in *. rewrite Hm6 in *.
  match goal with
  | Hp : push_onto ?stored ?record = Fulfilled history |- _ =>
      assert (Hpush :
                exists earlier,
                  history = JArr (earlier ++ [record])
                  /\ (stored = Some (JArr earlier)
                      \/ (truthy stored = false /\ earlier = [])));
      [ unfold push_onto in Hp;
        destruct (soulMemory w !! "emotionalInteractions")
          as [[|[]|[]|[]|items|]|];
        cbn in Hp; try discriminate; injection Hp as <-;
        first [ exists items; split; [reflexivity|left; reflexivity]
              | exists []; split; [reflexivity|right; split; reflexivity] ]
      | clear Hp ]
  end.
  destruct Hpush as (earlier & -> & Hearlier).
  eexists _, _, earlier. rewrite Ht6. rewrite <- !app_assoc.
  split; [reflexivity|]. split; [|split; [reflexivity|exact Hearlier]].
  rewrite count_app, Hcount. cbn [app].
  rewrite ?count_skip by reflexivity.
  rewrite count_take by reflexivity. rewrite ?count_skip by reflexivity.
  rewrite count_take by reflexivity. rewrite ?count_skip by reflexivity.
  change (count is_speak []) with 0%nat.
  destruct (intensity_is (params args) "intensive" ||
            intensity_is (params args) "moderate"); reflexivity.
Qed.

Lemma emotional_support_speaks_and_records_witness :
  exists v w',
    emotionalProcess_body emotional_args patient_world = (Returned v, w')
    /\ count is_speak (trace w') = 5%nat.
Proof.
  set (run := emotionalProcess_body emotional_args patient_world).
  assert (Hrun : exists v, run = (Returned v, run.2))
    by (vm_compute; eexists; reflexivity).
  destruct Hrun as [v Hv]. exists v, run.2. split; [exact Hv|].
  destruct (emotional_support_speaks_and_records emotional_args patient_world
              run.2 v Hv) as (evs & _ & _ & Ht & Hc & _).
  rewrite Ht. exact Hc.
Defined.

End EmotionalFacts.

Section TeachingFacts.
Import Core Engine Teaching.



End TeachingFacts.
